(** * PLYtoOBJ: the PLY decoder [readPLY] and the OBJ encoder [writeOBJ]

    A shallow embedding of [src/PLYtoOBJ/PLYtoOBJ.cpp].  Files and string
    streams are sequences of characters that the reading functions consume
    from the front; a failing read is a value of an error type.  The C++
    float type, its conversions and the byte order of the machine are the
    fields of the class [Host], so every theorem holds on every host.
    Of the allocations of the program, the two that are sized from the
    header ([resize] and [reserve]) can fail, as the host decides; every
    other vector and string is given the memory it asks for. *)

From Stdlib Require Import ZArith List String Ascii Bool Lia DecimalString.
From Stdlib Require Import SpecFloat DecimalPos.
Import ListNotations.
Local Open Scope string_scope.
Local Open Scope list_scope.
Local Open Scope Z_scope.

Infix "==" := String.eqb (at level 70, no associativity).

(** ** The C++ library functions the program calls *)

Definition chars (s : string) : list ascii := list_ascii_of_string s.

Definition newline : ascii := "010"%char.
Definition carriage_return : ascii := "013"%char.

(** [isspace] in the classic locale: space, and the controls 9 to 13. *)
Definition isspace (c : ascii) : bool :=
  let n := Z.of_N (N_of_ascii c) in (n =? 32) || ((9 <=? n) && (n <=? 13)).

(** [std::getline(file, line)]: the characters up to the next newline, which
    is consumed and not stored.  It fails only when no character is left. *)
Fixpoint take_line (file : list ascii) : list ascii * list ascii :=
  match file with
  | [] => ([], [])
  | c :: file' =>
      if Ascii.eqb c newline then ([], file')
      else let (l, r) := take_line file' in (c :: l, r)
  end.

Definition getline (file : list ascii) : option (list ascii * list ascii) :=
  match file with
  | [] => None
  | _ => Some (take_line file)
  end.

(** The successive results of [getline] on a file, each with the file that
    is left after it: what [while (getline(file, line))] iterates over. *)
Fixpoint getlines_from (cur : list ascii) (file : list ascii)
  : list (list ascii * list ascii) :=
  match file with
  | [] => match cur with [] => [] | _ => [(rev cur, [])] end
  | c :: file' =>
      if Ascii.eqb c newline then (rev cur, file') :: getlines_from [] file'
      else getlines_from (c :: cur) file'
  end.

Definition getlines (file : list ascii) := getlines_from [] file.

(** [std::istringstream]: the characters not yet read and the fail bit. *)
Record istringstream := { buf : list ascii; failbit : bool }.

Definition istringstream_of (line : list ascii) : istringstream :=
  {| buf := line; failbit := false |}.

Fixpoint skipws (s : list ascii) : list ascii :=
  match s with
  | c :: s' => if isspace c then skipws s' else s
  | [] => []
  end.

Fixpoint take_word (s : list ascii) : list ascii * list ascii :=
  match s with
  | [] => ([], [])
  | c :: s' =>
      if isspace c then ([], s)
      else let (w, r) := take_word s' in (c :: w, r)
  end.

(** [iss >> str] for a [std::string]: leading white space is skipped; at the
    end of the stream the extraction fails and [str] keeps its value. *)
Definition extract_string (iss : istringstream) (str : string)
  : istringstream * string :=
  if failbit iss then (iss, str)
  else match skipws (buf iss) with
       | [] => ({| buf := []; failbit := true |}, str)
       | s => let (w, r) := take_word s in
              ({| buf := r; failbit := false |}, string_of_list_ascii w)
       end.

(** [while (iss >> val_s) values_str.push_back(val_s)] *)
Fixpoint split_words (cur : list ascii) (s : list ascii) : list string :=
  match s with
  | [] => match cur with [] => [] | _ => [string_of_list_ascii (rev cur)] end
  | c :: s' =>
      if isspace c
      then match cur with
           | [] => split_words [] s'
           | _ => string_of_list_ascii (rev cur) :: split_words [] s'
           end
      else split_words (c :: cur) s'
  end.

Definition words (line : list ascii) : list string := split_words [] line.

Definition digit_of (c : ascii) : option Z :=
  let n := Z.of_N (N_of_ascii c) in
  if (48 <=? n) && (n <=? 57) then Some (n - 48) else None.

Fixpoint take_digits (s : list ascii) (acc : Z) : Z * list ascii :=
  match s with
  | c :: s' =>
      match digit_of c with
      | Some d => take_digits s' (10 * acc + d)
      | None => (acc, s)
      end
  | [] => (acc, [])
  end.

(** A decimal integer at the front of [s]: an optional sign and at least
    one digit, as [strtol] with base 10 and [num_get] read it. *)
Inductive scan := NoDigits | Scanned (value : Z) (rest : list ascii).

Definition scan_integer (s : list ascii) : scan :=
  let '(neg, s1) :=
    match s with
    | c :: s' =>
        if Ascii.eqb c "-"%char then (true, s')
        else if Ascii.eqb c "+"%char then (false, s')
        else (false, s)
    | [] => (false, [])
    end in
  match s1 with
  | c :: _ =>
      match digit_of c with
      | Some _ => let (n, r) := take_digits s1 0 in
                  Scanned (if neg then - n else n) r
      | None => NoDigits
      end
  | [] => NoDigits
  end.

Definition INT_MIN : Z := - 2147483648.
Definition INT_MAX : Z := 2147483647.

(** [iss >> value] for a signed integer type with range [lo..hi].  At the
    end of the stream the sentry fails and [value] is untouched; with no
    digit the value becomes 0, out of range it becomes the nearest bound;
    in all three cases the fail bit is set. *)
Definition extract_integer (lo hi : Z) (iss : istringstream) (value : Z)
  : istringstream * Z :=
  if failbit iss then (iss, value)
  else match skipws (buf iss) with
       | [] => ({| buf := []; failbit := true |}, value)
       | s =>
           match scan_integer s with
           | NoDigits => ({| buf := s; failbit := true |}, 0)
           | Scanned n r =>
               if n <? lo then ({| buf := r; failbit := true |}, lo)
               else if hi <? n then ({| buf := r; failbit := true |}, hi)
               else ({| buf := r; failbit := false |}, n)
           end
       end.

Definition extract_int := extract_integer INT_MIN INT_MAX.

(** [std::stoi] and [std::stof] return a value or throw one of two
    exceptions. *)
Inductive sto_result (A : Type) :=
| sto_value (a : A)
| invalid_argument
| out_of_range.
Arguments sto_value {A} a.
Arguments invalid_argument {A}.
Arguments out_of_range {A}.

Definition stoi (str : string) : sto_result Z :=
  match scan_integer (skipws (chars str)) with
  | NoDigits => invalid_argument
  | Scanned n _ =>
      if (n <? INT_MIN) || (INT_MAX <? n) then out_of_range else sto_value n
  end.

(** [file << n] for an integer. *)
Definition show_int (n : Z) : string := NilZero.string_of_int (Z.to_int n).

(** Arithmetic of [int]: the result of [v_idx + 1] reduced to 32 bits
    (the C++ standard leaves the overflow of [INT_MAX + 1] undefined). *)
Definition wrap_int (n : Z) : Z := (n + 2147483648) mod 4294967296 - 2147483648.

(** ** The data model

    The structures of the source, over the type [F] of its [float]. *)
Record Vec2 (F : Type) := { u : F; v : F }.
Record Vec3 (F : Type) := { x : F; y : F; z : F }.

Record Vertex (F : Type) := {
  position : Vec3 F;
  normal : Vec3 F;
  color : Vec3 F;
  texCoord : Vec2 F;
  has_normal : bool;
  has_color : bool;
  has_texCoord : bool
}.

Record Triangle := { v0 : Z; v1 : Z; v2 : Z }.

(** What [main] holds after a successful [readPLY]. *)
Record Mesh (F : Type) := {
  vertices : list (Vertex F);
  triangles : list Triangle;
  has_normals : bool;
  has_colors : bool;
  has_texCoords : bool
}.

Arguments u {F}. Arguments v {F}.
Arguments x {F}. Arguments y {F}. Arguments z {F}.
Arguments position {F}. Arguments normal {F}. Arguments color {F}.
Arguments texCoord {F}. Arguments has_normal {F}. Arguments has_color {F}.
Arguments has_texCoord {F}.
Arguments vertices {F}. Arguments triangles {F}. Arguments has_normals {F}.
Arguments has_colors {F}. Arguments has_texCoords {F}.

(** ** The host

    What the source takes from the compiler and the machine: the type
    [float] with [0.0f], [std::stof], the quotient
    [static_cast<float>(uc) / 255.0f] of an unsigned char, the float with a
    given 32-bit pattern, the text [file << f] prints, the byte order of
    the machine, the width of [long], [max_size()] of a [vector<Vertex>]
    and of a [vector<Triangle>], and whether the allocator has the memory
    for a vector of so many vertices, of so many triangles. *)
Class Host := {
  float : Type;
  float_zero : float;
  stof : string -> sto_result float;
  uchar_over_255 : Z -> float;
  float_of_bits : Z -> float;
  show_float : float -> string;
  host_little_endian : bool;
  long_bits : Z;
  vertices_max_size : Z;
  triangles_max_size : Z;
  vertices_memory : Z -> bool;
  triangles_memory : Z -> bool
}.

(** ** Objects in memory and byte order *)

Definition byte_value (c : ascii) : Z := Z.of_N (N_of_ascii c).
Definition byte_of (n : Z) : ascii := ascii_of_N (Z.to_N (n mod 256)).

Fixpoint le_combine (l : list ascii) : Z :=
  match l with
  | [] => 0
  | b :: t => byte_value b + 256 * le_combine t
  end.

Fixpoint le_split (size : nat) (n : Z) : list ascii :=
  match size with
  | O => []
  | S size' => byte_of n :: le_split size' (n / 256)
  end.

(** [value = swapBytes(value)]: [std::reverse] over the bytes of the
    object. *)
Definition swapBytes (object : list ascii) : list ascii := rev object.

Inductive error :=
| unsupported_format
| missing_end_header
| missing_face_property
| length_error
| bad_alloc
| vertex_data_ended (i : Z)
| vertex_empty_line (i : Z)
| read_failed
| face_data_ended (i : Z)
| face_empty_line (i : Z)
| unsupported_count_type
| cannot_skip_index
| bad_ascii_index (i j : Z)
| unsupported_index_type.

Inductive result (A : Type) :=
| Ok (a : A)
| Err (e : error).
Arguments Ok {A} a.
Arguments Err {A} e.

Notation "x <- c ;; k" := (match c with Ok x => k | Err e => Err e end)
  (at level 61, c at next level, right associativity).
Notation "' p <- c ;; k" := (match c with Ok p => k | Err e => Err e end)
  (at level 61, p pattern, c at next level, right associativity).

(** [file.seekg(n, ios_base::cur)].  The program only seeks forward and
    afterwards only reads at least one byte or seeks again, so a position
    past the end behaves as the end of the file. *)
Definition seekg (n : nat) (file : list ascii) : list ascii := skipn n file.

Section Decoder.
Context {host : Host}.

(** The unsigned and the signed integer stored in an object of this host. *)
Definition unsigned_of_object (object : list ascii) : Z :=
  le_combine (if host_little_endian then object else rev object).

Definition signed_of_object (object : list ascii) : Z :=
  let n := unsigned_of_object object in
  let m := 2 ^ (8 * Z.of_nat (List.length object)) in
  if 2 * n <? m then n else n - m.

Definition object_of_unsigned (size : nat) (n : Z) : list ascii :=
  if host_little_endian then le_split size n else rev (le_split size n).

Definition isSystemLittleEndian : bool :=
  match object_of_unsigned 4 1 with
  | c :: _ => byte_value c =? 1
  | [] => false
  end.

(** [readBinary<T>] with [sizeof(T) = size]: the object it stores in
    [value] and the file after it, or [None] for a short read. *)
Definition readBinary (size : nat) (file : list ascii)
  (fileIsLittleEndian systemIsLittleEndian : bool)
  : option (list ascii * list ascii) :=
  if (List.length file <? size)%nat then None
  else
    let value := firstn size file in
    let value :=
      if negb (Bool.eqb fileIsLittleEndian systemIsLittleEndian)
      then swapBytes value else value in
    Some (value, skipn size file).

Definition readBinary_float (file : list ascii) (fLE sLE : bool)
  : option (float * list ascii) :=
  match readBinary 4 file fLE sLE with
  | Some (o, file') => Some (float_of_bits (unsigned_of_object o), file')
  | None => None
  end.

Definition readBinary_unsigned (size : nat) (file : list ascii)
  (fLE sLE : bool) : option (Z * list ascii) :=
  match readBinary size file fLE sLE with
  | Some (o, file') => Some (unsigned_of_object o, file')
  | None => None
  end.

Definition readBinary_signed (size : nat) (file : list ascii)
  (fLE sLE : bool) : option (Z * list ascii) :=
  match readBinary size file fLE sLE with
  | Some (o, file') => Some (signed_of_object o, file')
  | None => None
  end.

Definition readBinaryColorComponent (file : list ascii) (fLE sLE : bool)
  : option (float * list ascii) :=
  match readBinary_unsigned 1 file fLE sLE with
  | Some (uchar_val, file') => Some (uchar_over_255 uchar_val, file')
  | None => None
  end.

Record PlyProperty := {
  name : string;
  type_str : string;
  is_list : bool;
  count_type_str : string;
  list_item_type_str : string;
  index_in_line : Z
}.

Definition Vec3_default : Vec3 float :=
  {| x := float_zero; y := float_zero; z := float_zero |}.
Definition Vec2_default : Vec2 float := {| u := float_zero; v := float_zero |}.

Definition Vertex_default : Vertex float :=
  {| position := Vec3_default; normal := Vec3_default; color := Vec3_default;
     texCoord := Vec2_default;
     has_normal := false; has_color := false; has_texCoord := false |}.

Definition PlyProperty_default : PlyProperty :=
  {| name := ""; type_str := ""; is_list := false; count_type_str := "";
     list_item_type_str := ""; index_in_line := -1 |}.

Definition set_x (f : float) (a : Vec3 float) : Vec3 float :=
  {| x := f; y := y a; z := z a |}.
Definition set_y (f : float) (a : Vec3 float) : Vec3 float :=
  {| x := x a; y := f; z := z a |}.
Definition set_z (f : float) (a : Vec3 float) : Vec3 float :=
  {| x := x a; y := y a; z := f |}.
Definition set_u (f : float) (a : Vec2 float) : Vec2 float :=
  {| u := f; v := v a |}.
Definition set_v (f : float) (a : Vec2 float) : Vec2 float :=
  {| u := u a; v := f |}.

(** [currentVertex.position.x = f] and its like; the assignments to the
    normal, the colour and the texture coordinate also set the flag. *)
Definition with_position (upd : Vec3 float -> Vec3 float) (c : Vertex float)
  : Vertex float :=
  {| position := upd (position c); normal := normal c; color := color c;
     texCoord := texCoord c; has_normal := has_normal c;
     has_color := has_color c; has_texCoord := has_texCoord c |}.

Definition with_normal (upd : Vec3 float -> Vec3 float) (c : Vertex float)
  : Vertex float :=
  {| position := position c; normal := upd (normal c); color := color c;
     texCoord := texCoord c; has_normal := true;
     has_color := has_color c; has_texCoord := has_texCoord c |}.

Definition with_color (upd : Vec3 float -> Vec3 float) (c : Vertex float)
  : Vertex float :=
  {| position := position c; normal := normal c; color := upd (color c);
     texCoord := texCoord c; has_normal := has_normal c;
     has_color := true; has_texCoord := has_texCoord c |}.

Definition with_texCoord (upd : Vec2 float -> Vec2 float) (c : Vertex float)
  : Vertex float :=
  {| position := position c; normal := normal c; color := color c;
     texCoord := upd (texCoord c); has_normal := has_normal c;
     has_color := has_color c; has_texCoord := true |}.

(** ** The header

    The local variables of [readPLY] that the header loop sets. *)
Record Header := {
  vertexCount : Z;
  faceCount : Z;
  headerEnd : bool;
  isASCII : bool;
  plyFileIsLittleEndian : bool;
  vertexProperties : list PlyProperty;
  faceProperty : PlyProperty;
  facePropertyDefined : bool;
  currentPropertyIndexASCII : Z;
  file_has_normals : bool;
  file_has_colors : bool;
  file_has_texCoords : bool;
  currentElement : string
}.

Definition Header_initial : Header :=
  {| vertexCount := 0; faceCount := 0; headerEnd := false; isASCII := true;
     plyFileIsLittleEndian := false; vertexProperties := [];
     faceProperty := PlyProperty_default; facePropertyDefined := false;
     currentPropertyIndexASCII := 0;
     file_has_normals := false; file_has_colors := false;
     file_has_texCoords := false; currentElement := "" |}.

Definition set_format (ascii little : bool) (h : Header) : Header :=
  {| vertexCount := vertexCount h; faceCount := faceCount h;
     headerEnd := headerEnd h; isASCII := ascii;
     plyFileIsLittleEndian := little;
     vertexProperties := vertexProperties h; faceProperty := faceProperty h;
     facePropertyDefined := facePropertyDefined h;
     currentPropertyIndexASCII := currentPropertyIndexASCII h;
     file_has_normals := file_has_normals h;
     file_has_colors := file_has_colors h;
     file_has_texCoords := file_has_texCoords h;
     currentElement := currentElement h |}.

(** The effect of an [element] line: the element's name, the two counts and
    the property index, which starts again at 0. *)
Definition set_element (elem : string) (vc fc : Z) (h : Header) : Header :=
  {| vertexCount := vc; faceCount := fc;
     headerEnd := headerEnd h; isASCII := isASCII h;
     plyFileIsLittleEndian := plyFileIsLittleEndian h;
     vertexProperties := vertexProperties h; faceProperty := faceProperty h;
     facePropertyDefined := facePropertyDefined h;
     currentPropertyIndexASCII := 0;
     file_has_normals := file_has_normals h;
     file_has_colors := file_has_colors h;
     file_has_texCoords := file_has_texCoords h;
     currentElement := elem |}.

Definition with_index (i : Z) (p : PlyProperty) : PlyProperty :=
  {| name := name p; type_str := type_str p; is_list := is_list p;
     count_type_str := count_type_str p;
     list_item_type_str := list_item_type_str p; index_in_line := i |}.

Definition names_normal (n : string) : bool :=
  (n == "nx") || (n == "ny") || (n == "nz").
Definition names_color (n : string) : bool :=
  (n == "red") || (n == "green") || (n == "blue") || (n == "alpha").
Definition names_texCoord (n : string) : bool :=
  (n == "u") || (n == "v") || (n == "s") || (n == "t")
  || (n == "texture_u") || (n == "texture_v").

(** A [property] line under [element vertex].  The counter is an [int]:
    [currentPropertyIndexASCII++] is reduced to 32 bits (at [INT_MAX] the
    C++ standard leaves it undefined). *)
Definition add_vertex_property (prop : PlyProperty) (h : Header) : Header :=
  let prop := with_index (currentPropertyIndexASCII h) prop in
  {| vertexCount := vertexCount h; faceCount := faceCount h;
     headerEnd := headerEnd h; isASCII := isASCII h;
     plyFileIsLittleEndian := plyFileIsLittleEndian h;
     vertexProperties := vertexProperties h ++ [prop];
     faceProperty := faceProperty h;
     facePropertyDefined := facePropertyDefined h;
     currentPropertyIndexASCII := wrap_int (currentPropertyIndexASCII h + 1);
     file_has_normals :=
       if names_normal (name prop) then true else file_has_normals h;
     file_has_colors :=
       if names_color (name prop) then true else file_has_colors h;
     file_has_texCoords :=
       if names_texCoord (name prop) then true else file_has_texCoords h;
     currentElement := currentElement h |}.

Definition set_faceProperty (prop : PlyProperty) (h : Header) : Header :=
  {| vertexCount := vertexCount h; faceCount := faceCount h;
     headerEnd := headerEnd h; isASCII := isASCII h;
     plyFileIsLittleEndian := plyFileIsLittleEndian h;
     vertexProperties := vertexProperties h; faceProperty := prop;
     facePropertyDefined := true;
     currentPropertyIndexASCII := currentPropertyIndexASCII h;
     file_has_normals := file_has_normals h;
     file_has_colors := file_has_colors h;
     file_has_texCoords := file_has_texCoords h;
     currentElement := currentElement h |}.

Definition set_headerEnd (h : Header) : Header :=
  {| vertexCount := vertexCount h; faceCount := faceCount h;
     headerEnd := true; isASCII := isASCII h;
     plyFileIsLittleEndian := plyFileIsLittleEndian h;
     vertexProperties := vertexProperties h; faceProperty := faceProperty h;
     facePropertyDefined := facePropertyDefined h;
     currentPropertyIndexASCII := currentPropertyIndexASCII h;
     file_has_normals := file_has_normals h;
     file_has_colors := file_has_colors h;
     file_has_texCoords := file_has_texCoords h;
     currentElement := currentElement h |}.

Definition LONG_MIN : Z := - 2 ^ (long_bits - 1).
Definition LONG_MAX : Z := 2 ^ (long_bits - 1) - 1.
Definition extract_long := extract_integer LONG_MIN LONG_MAX.

Fixpoint starts_with (p l : list ascii) : bool :=
  match p, l with
  | [], _ => true
  | a :: p', b :: l' => Ascii.eqb a b && starts_with p' l'
  | _ :: _, [] => false
  end.

(** [if (!line.empty() && line.back() == '\r') line.pop_back();] *)
Definition strip_cr (line : list ascii) : list ascii :=
  match rev line with
  | c :: r => if Ascii.eqb c carriage_return then rev r else line
  | [] => line
  end.

Definition is_empty (line : list ascii) : bool :=
  match line with [] => true | _ => false end.

(** One turn of the header loop. *)
Inductive header_step :=
| Continue (h : Header)
| Break (h : Header)
| ReturnFalse (e : error).

Definition header_line (h : Header) (line : list ascii) : header_step :=
  let line := strip_cr line in
  if is_empty line || starts_with (chars "comment") line then Continue h
  else
    let iss := istringstream_of line in
    let (iss, token) := extract_string iss "" in
    if token == "ply" then Continue h
    else if token == "format" then
      let (iss, format_str) := extract_string iss "" in
      let (iss, version_str) := extract_string iss "" in
      if format_str == "ascii" then
        Continue (set_format true (plyFileIsLittleEndian h) h)
      else if format_str == "binary_little_endian" then
        Continue (set_format false true h)
      else if format_str == "binary_big_endian" then
        Continue (set_format false false h)
      else ReturnFalse unsupported_format
    else if token == "element" then
      let (iss, elem) := extract_string iss (currentElement h) in
      if elem == "vertex" then
        let (_, n) := extract_long iss (vertexCount h) in
        Continue (set_element elem n (faceCount h) h)
      else if elem == "face" then
        let (_, n) := extract_long iss (faceCount h) in
        Continue (set_element elem (vertexCount h) n h)
      else Continue (set_element elem (vertexCount h) (faceCount h) h)
    else if token == "property" then
      let (iss, type_or_list) := extract_string iss "" in
      let prop :=
        if type_or_list == "list" then
          let (iss, ct) := extract_string iss "" in
          let (iss, it) := extract_string iss "" in
          let (iss, nm) := extract_string iss "" in
          {| name := nm; type_str := ""; is_list := true;
             count_type_str := ct; list_item_type_str := it;
             index_in_line := -1 |}
        else
          let (iss, nm) := extract_string iss "" in
          {| name := nm; type_str := type_or_list; is_list := false;
             count_type_str := ""; list_item_type_str := "";
             index_in_line := -1 |} in
      if currentElement h == "vertex" then Continue (add_vertex_property prop h)
      else if currentElement h == "face" then
        if (name prop == "vertex_indices") || (name prop == "vertex_index")
        then Continue (set_faceProperty prop h)
        else Continue h
      else Continue h
    else if token == "end_header" then Break (set_headerEnd h)
    else Continue h.

(** [while (getline(file, line)) { ... }] over the results of [getline];
    at [break] the file is what is left after the [end_header] line. *)
Fixpoint header_loop (h : Header) (ls : list (list ascii * list ascii))
  : result (Header * list ascii) :=
  match ls with
  | [] => Ok (h, [])
  | (line, file') :: ls' =>
      match header_line h line with
      | Continue h' => header_loop h' ls'
      | Break h' => Ok (h', file')
      | ReturnFalse e => Err e
      end
  end.

Definition read_header (file : list ascii) : result (Header * list ascii) :=
  ' (h, file') <- header_loop Header_initial (getlines file) ;;
  if negb (headerEnd h) then Err missing_end_header
  else if (0 <? faceCount h) && negb (facePropertyDefined h)
       then Err missing_face_property
       else Ok (h, file').

(** ** Vertices, ASCII *)

Definition is_float_type (t : string) : bool :=
  (t == "float") || (t == "float32") || (t == "double") || (t == "float64").
Definition is_byte_type (t : string) : bool :=
  (t == "uchar") || (t == "uint8") || (t == "char") || (t == "int8").
Definition is_uchar_type (t : string) : bool :=
  (t == "uchar") || (t == "uint8").

(** The [try] block: the values of [f_val] and [uc_val] after it, or the
    exception that one of the [catch] clauses receives. *)
Definition parse_value (prop : PlyProperty) (str_val : string)
  : sto_result (float * Z) :=
  if is_float_type (type_str prop) then
    match stof str_val with
    | sto_value f => sto_value (f, 0)
    | invalid_argument => invalid_argument
    | out_of_range => out_of_range
    end
  else if is_byte_type (type_str prop) then
    match stoi str_val with
    | sto_value n => sto_value (float_zero, n mod 256)
    | invalid_argument => invalid_argument
    | out_of_range => out_of_range
    end
  else sto_value (float_zero, 0).

Definition color_component (prop : PlyProperty) (f_val : float) (uc_val : Z)
  : float :=
  if is_uchar_type (type_str prop) then uchar_over_255 uc_val else f_val.

(** The chain of [if (prop.name == ...)] that stores the value. *)
Definition store_ascii (prop : PlyProperty) (f_val : float) (uc_val : Z)
  (currentVertex : Vertex float) : Vertex float :=
  let n := name prop in
  if n == "x" then with_position (set_x f_val) currentVertex
  else if n == "y" then with_position (set_y f_val) currentVertex
  else if n == "z" then with_position (set_z f_val) currentVertex
  else if n == "nx" then with_normal (set_x f_val) currentVertex
  else if n == "ny" then with_normal (set_y f_val) currentVertex
  else if n == "nz" then with_normal (set_z f_val) currentVertex
  else if n == "red" then
    with_color (set_x (color_component prop f_val uc_val)) currentVertex
  else if n == "green" then
    with_color (set_y (color_component prop f_val uc_val)) currentVertex
  else if n == "blue" then
    with_color (set_z (color_component prop f_val uc_val)) currentVertex
  else if (n == "u") || (n == "texture_u") || (n == "s") then
    with_texCoord (set_u f_val) currentVertex
  else if (n == "v") || (n == "texture_v") || (n == "t") then
    with_texCoord (set_v f_val) currentVertex
  else currentVertex.

(** The body of [for (const auto& prop : vertexProperties)].  A negative
    index converts to a [size_t] above every size. *)
Definition ascii_property (values_str : list string)
  (currentVertex : Vertex float) (prop : PlyProperty) : Vertex float :=
  if (index_in_line prop <? 0)
     || (Z.of_nat (List.length values_str) <=? index_in_line prop)
  then currentVertex
  else
    let str_val := nth (Z.to_nat (index_in_line prop)) values_str "" in
    match parse_value prop str_val with
    | sto_value (f_val, uc_val) => store_ascii prop f_val uc_val currentVertex
    | invalid_argument => currentVertex
    | out_of_range => currentVertex
    end.

Definition ascii_properties (values_str : list string)
  (props : list PlyProperty) (currentVertex : Vertex float) : Vertex float :=
  fold_left (ascii_property values_str) props currentVertex.

Definition ascii_vertex (h : Header) (line : list ascii) : Vertex float :=
  ascii_properties (words line) (vertexProperties h) Vertex_default.

(** ** Vertices, binary *)

Definition type_size (t : string) : nat :=
  if (t == "char") || (t == "int8") || (t == "uchar") || (t == "uint8")
  then 1
  else if (t == "short") || (t == "int16") || (t == "ushort") || (t == "uint16")
  then 2
  else if (t == "int") || (t == "int32") || (t == "uint") || (t == "uint32")
          || (t == "float") || (t == "float32")
  then 4
  else if (t == "double") || (t == "float64") then 8
  else 0.

Definition read_into {A : Type} (r : option (A * list ascii))
  (store : A -> Vertex float -> Vertex float) (currentVertex : Vertex float)
  : result (Vertex float * list ascii) :=
  match r with
  | Some (a, file') => Ok (store a currentVertex, file')
  | None => Err read_failed
  end.

Definition binary_property (h : Header) (systemIsLE : bool)
  (currentVertex : Vertex float) (file : list ascii) (prop : PlyProperty)
  : result (Vertex float * list ascii) :=
  let fLE := plyFileIsLittleEndian h in
  let n := name prop in
  let float_to store :=
    read_into (readBinary_float file fLE systemIsLE) store currentVertex in
  let color_to store :=
    read_into (readBinaryColorComponent file fLE systemIsLE) store
      currentVertex in
  if n == "x" then float_to (fun f => with_position (set_x f))
  else if n == "y" then float_to (fun f => with_position (set_y f))
  else if n == "z" then float_to (fun f => with_position (set_z f))
  else if n == "nx" then float_to (fun f => with_normal (set_x f))
  else if n == "ny" then float_to (fun f => with_normal (set_y f))
  else if n == "nz" then float_to (fun f => with_normal (set_z f))
  else if n == "red" then color_to (fun f => with_color (set_x f))
  else if n == "green" then color_to (fun f => with_color (set_y f))
  else if n == "blue" then color_to (fun f => with_color (set_z f))
  else if n == "alpha" then
    read_into (readBinary_unsigned 1 file fLE systemIsLE)
      (fun alpha_val c => c) currentVertex
  else if (n == "u") || (n == "texture_u") || (n == "s") then
    float_to (fun f => with_texCoord (set_u f))
  else if (n == "v") || (n == "texture_v") || (n == "t") then
    float_to (fun f => with_texCoord (set_v f))
  else
    let typeSize := type_size (type_str prop) in
    if (0 <? typeSize)%nat then Ok (currentVertex, seekg typeSize file)
    else Ok (currentVertex, file).

Fixpoint binary_properties (h : Header) (systemIsLE : bool)
  (props : list PlyProperty) (currentVertex : Vertex float) (file : list ascii)
  : result (Vertex float * list ascii) :=
  match props with
  | [] => Ok (currentVertex, file)
  | prop :: props' =>
      ' (c, file') <- binary_property h systemIsLE currentVertex file prop ;;
      binary_properties h systemIsLE props' c file'
  end.

(** ** The vertex loop *)

(** [vertices_out[i] = currentVertex] *)
Fixpoint assign {A : Type} (l : list A) (i : nat) (a : A) : list A :=
  match l, i with
  | [], _ => []
  | _ :: t, O => a :: t
  | b :: t, S i' => b :: assign t i' a
  end.

(** One turn of [for (long i = 0; i < vertexCount; ++i)]. *)
Definition read_vertex (h : Header) (systemIsLE : bool) (i : Z)
  (file : list ascii) (vertices_out : list (Vertex float))
  : result (list (Vertex float) * list ascii) :=
  if isASCII h then
    match getline file with
    | None => Err (vertex_data_ended i)
    | Some (line, file') =>
        if is_empty line && (i <? vertexCount h - 1)
        then Err (vertex_empty_line i)
        else if is_empty line then Ok (vertices_out, file')
        else Ok (assign vertices_out (Z.to_nat i) (ascii_vertex h line), file')
    end
  else
    ' (currentVertex, file') <-
      binary_properties h systemIsLE (vertexProperties h) Vertex_default file ;;
    Ok (assign vertices_out (Z.to_nat i) currentVertex, file').

Fixpoint read_vertices (h : Header) (systemIsLE : bool) (turns : nat) (i : Z)
  (file : list ascii) (vertices_out : list (Vertex float))
  : result (list (Vertex float) * list ascii) :=
  match turns with
  | O => Ok (vertices_out, file)
  | S turns' =>
      ' (vertices_out', file') <-
        read_vertex h systemIsLE i file vertices_out ;;
      read_vertices h systemIsLE turns' (i + 1) file' vertices_out'
  end.

(** The loop that raises the three flags of the file. *)
Definition raise_flags (flags : bool * bool * bool) (vtx : Vertex float)
  : bool * bool * bool :=
  let '(n, c, t) := flags in
  (if has_normal vtx then true else n,
   if has_color vtx then true else c,
   if has_texCoord vtx then true else t).

(** ** Faces *)

(** [numFaceVertices] of a binary face record; the [uint32_t] count is
    converted to [int]. *)
Definition binary_count (h : Header) (systemIsLE : bool) (file : list ascii)
  : result (Z * list ascii) :=
  let fLE := plyFileIsLittleEndian h in
  let t := count_type_str (faceProperty h) in
  let read size convert :=
    match readBinary_unsigned size file fLE systemIsLE with
    | Some (n, file') => Ok (convert n, file')
    | None => Err read_failed
    end in
  if (t == "uchar") || (t == "uint8") then read 1%nat (fun n => n)
  else if (t == "ushort") || (t == "uint16") then read 2%nat (fun n => n)
  else if (t == "uint") || (t == "uint32") then read 4%nat wrap_int
  else Err unsupported_count_type.

Definition item_size (t : string) : nat :=
  if (t == "int8") || (t == "uint8") || (t == "char") || (t == "uchar")
  then 1
  else if (t == "int16") || (t == "uint16") || (t == "short") || (t == "ushort")
  then 2
  else if (t == "int32") || (t == "uint32") || (t == "int") || (t == "uint")
  then 4
  else 0.

(** [for (int j = 0; j < numFaceVertices; ++j)] of a face with fewer than
    three vertices. *)
Fixpoint skip_indices (h : Header) (turns : nat) (file : list ascii)
  : result (list ascii) :=
  match turns with
  | O => Ok file
  | S turns' =>
      if isASCII h then skip_indices h turns' file
      else
        let itemSize := item_size (list_item_type_str (faceProperty h)) in
        if (0 <? itemSize)%nat
        then skip_indices h turns' (seekg itemSize file)
        else Err cannot_skip_index
  end.

(** The indices of an ASCII face, read from the line after its count. *)
Fixpoint ascii_indices (i : Z) (turns : nat) (j : Z) (iss : istringstream)
  : result (list Z) :=
  match turns with
  | O => Ok []
  | S turns' =>
      let (iss', index) := extract_int iss 0 in
      if failbit iss' then Err (bad_ascii_index i j)
      else
        indices <- ascii_indices i turns' (j + 1) iss' ;;
        Ok (index :: indices)
  end.

(** One index of a binary face, converted to [int]. *)
Definition binary_index (h : Header) (systemIsLE : bool) (file : list ascii)
  : result (Z * list ascii) :=
  let fLE := plyFileIsLittleEndian h in
  let t := list_item_type_str (faceProperty h) in
  let lift (r : option (Z * list ascii)) (convert : Z -> Z) :=
    match r with
    | Some (n, file') => Ok (convert n, file')
    | None => Err read_failed
    end in
  if (t == "int") || (t == "int32") then
    lift (readBinary_signed 4 file fLE systemIsLE) (fun n => n)
  else if (t == "uint") || (t == "uint32") then
    lift (readBinary_unsigned 4 file fLE systemIsLE) wrap_int
  else if (t == "short") || (t == "int16") then
    lift (readBinary_signed 2 file fLE systemIsLE) (fun n => n)
  else if (t == "ushort") || (t == "uint16") then
    lift (readBinary_unsigned 2 file fLE systemIsLE) (fun n => n)
  else if (t == "uchar") || (t == "uint8") then
    lift (readBinary_unsigned 1 file fLE systemIsLE) (fun n => n)
  else Err unsupported_index_type.

Fixpoint binary_indices (h : Header) (systemIsLE : bool) (turns : nat)
  (file : list ascii) : result (list Z * list ascii) :=
  match turns with
  | O => Ok ([], file)
  | S turns' =>
      ' (index, file') <- binary_index h systemIsLE file ;;
      ' (indices, file'') <- binary_indices h systemIsLE turns' file' ;;
      Ok (index :: indices, file'')
  end.

(** [for (int j = 1; j < numFaceVertices - 1; ++j)
       triangles_out.push_back({indices[0], indices[j], indices[j + 1]});] *)
Fixpoint fan (indices : list Z) (turns : nat) (j : Z)
  (triangles_out : list Triangle) : list Triangle :=
  match turns with
  | O => triangles_out
  | S turns' =>
      fan indices turns' (j + 1)
        (triangles_out ++
           [{| v0 := nth 0 indices 0;
               v1 := nth (Z.to_nat j) indices 0;
               v2 := nth (Z.to_nat (j + 1)) indices 0 |}])
  end.

Definition push_triangles (numFaceVertices : Z) (indices : list Z)
  (triangles_out : list Triangle) : list Triangle :=
  if numFaceVertices =? 3 then
    triangles_out ++
      [{| v0 := nth 0 indices 0; v1 := nth 1 indices 0;
          v2 := nth 2 indices 0 |}]
  else if 3 <? numFaceVertices then
    fan indices (Z.to_nat (numFaceVertices - 2)) 1 triangles_out
  else triangles_out.

(** A face record from its count on: skipped when the count is below 3,
    else read and cut into triangles. *)
Definition face_record (h : Header) (systemIsLE : bool) (i : Z)
  (numFaceVertices : Z) (line : list ascii) (file : list ascii)
  (triangles_out : list Triangle) : result (list Triangle * list ascii) :=
  if numFaceVertices <? 3 then
    file' <- skip_indices h (Z.to_nat numFaceVertices) file ;;
    Ok (triangles_out, file')
  else
    ' (indices, file') <-
      (if isASCII h then
         let iss_line_for_indices := istringstream_of line in
         let (iss_line_for_indices, temp_count) :=
           extract_int iss_line_for_indices 0 in
         indices <-
           ascii_indices i (Z.to_nat numFaceVertices) 0 iss_line_for_indices ;;
         Ok (indices, file)
       else binary_indices h systemIsLE (Z.to_nat numFaceVertices) file) ;;
    Ok (push_triangles numFaceVertices indices triangles_out, file').

(** One turn of [for (long i = 0; i < faceCount; ++i)]. *)
Definition read_face (h : Header) (systemIsLE : bool) (i : Z)
  (file : list ascii) (triangles_out : list Triangle)
  : result (list Triangle * list ascii) :=
  if isASCII h then
    match getline file with
    | None => Err (face_data_ended i)
    | Some (line, file') =>
        if is_empty line && (i <? faceCount h - 1)
        then Err (face_empty_line i)
        else if is_empty line then Ok (triangles_out, file')
        else
          let (_, numFaceVertices) := extract_int (istringstream_of line) 0 in
          face_record h systemIsLE i numFaceVertices line file' triangles_out
    end
  else
    ' (numFaceVertices, file') <- binary_count h systemIsLE file ;;
    face_record h systemIsLE i numFaceVertices [] file' triangles_out.

Fixpoint read_faces (h : Header) (systemIsLE : bool) (turns : nat) (i : Z)
  (file : list ascii) (triangles_out : list Triangle)
  : result (list Triangle * list ascii) :=
  match turns with
  | O => Ok (triangles_out, file)
  | S turns' =>
      ' (triangles_out', file') <-
        read_face h systemIsLE i file triangles_out ;;
      read_faces h systemIsLE turns' (i + 1) file' triangles_out'
  end.

(** ** [readPLY] *)

(** [vertices_out.resize(n)] and [triangles_out.reserve(n)] on an empty
    vector: the exception that they throw and nothing catches, if any.
    They take a [size_t] and throw [std::length_error] when it is above
    [max_size()], and a negative [long] converts to such a value; for a
    positive size they allocate, which throws [std::bad_alloc] when the
    memory is not there. *)
Definition allocate (max_size : Z) (memory : Z -> bool) (n : Z)
  : option error :=
  if (n <? 0) || (max_size <? n) then Some length_error
  else if (0 <? n) && negb (memory n) then Some bad_alloc
  else None.

Definition resize_vertices (n : Z) : option error :=
  allocate vertices_max_size vertices_memory n.
Definition reserve_triangles (n : Z) : option error :=
  allocate triangles_max_size triangles_memory n.

(** [readPLY] from the loop over the decoded vertices on: the three
    flags, [reserve] and the face loop. *)
Definition after_vertices (h : Header) (vertices_out : list (Vertex float))
  (file : list ascii) : result (Mesh float) :=
  let systemIsLE := isSystemLittleEndian in
  let '(n, c, t) :=
    fold_left raise_flags vertices_out
      (file_has_normals h, file_has_colors h, file_has_texCoords h) in
  match reserve_triangles (faceCount h) with
  | Some e => Err e
  | None =>
      ' (triangles_out, _) <-
        read_faces h systemIsLE (Z.to_nat (faceCount h)) 0 file [] ;;
      Ok {| vertices := vertices_out; triangles := triangles_out;
            has_normals := n; has_colors := c; has_texCoords := t |}
  end.

(** The part of [readPLY] after the header. *)
Definition read_payload (h : Header) (file : list ascii)
  : result (Mesh float) :=
  let systemIsLE := isSystemLittleEndian in
  match resize_vertices (vertexCount h) with
  | Some e => Err e
  | None =>
      let vertices_out := repeat Vertex_default (Z.to_nat (vertexCount h)) in
      ' (vertices_out, file) <-
        read_vertices h systemIsLE (Z.to_nat (vertexCount h)) 0 file
          vertices_out ;;
      after_vertices h vertices_out file
  end.

(** [readPLY] on the contents of a file that could be opened. *)
Definition readPLY (file : list ascii) : result (Mesh float) :=
  ' (h, file') <- read_header file ;;
  read_payload h file'.

(** ** [writeOBJ]

    The output file is the text written so far; [file << s] appends. *)
Definition put (file : string) (s : string) : string := String.append file s.
Infix "<<" := put (at level 50, left associativity).

Definition endl : string := String newline EmptyString.

Definition write_vertex (file : string) (v_data : Vertex float) : string :=
  let file :=
    file << "v " << show_float (x (position v_data))
         << " " << show_float (y (position v_data))
         << " " << show_float (z (position v_data)) in
  let file :=
    if has_color v_data
    then file << " " << show_float (x (color v_data))
              << " " << show_float (y (color v_data))
              << " " << show_float (z (color v_data))
    else file in
  file << endl.

Definition write_texCoord (file : string) (v_data : Vertex float) : string :=
  if has_texCoord v_data
  then file << "vt " << show_float (u (texCoord v_data))
            << " " << show_float (v (texCoord v_data)) << endl
  else file << "vt 0 0" << endl.

Definition write_normal (file : string) (v_data : Vertex float) : string :=
  if has_normal v_data
  then file << "vn " << show_float (x (normal v_data))
            << " " << show_float (y (normal v_data))
            << " " << show_float (z (normal v_data)) << endl
  else file << "vn 0 0 1" << endl.

(** The body of [for (int k = 0; k < 3; ++k)]. *)
Definition write_reference (has_normals has_texCoords : bool) (tri : Triangle)
  (file : string) (k : Z) : string :=
  let v_idx := if k =? 0 then v0 tri else if k =? 1 then v1 tri else v2 tri in
  let file := file << " " << show_int (wrap_int (v_idx + 1)) in
  let file :=
    if has_texCoords then file << "/" << show_int (wrap_int (v_idx + 1))
    else if has_normals then file << "/"
    else file in
  if has_normals then file << "/" << show_int (wrap_int (v_idx + 1))
  else file.

Definition write_face (has_normals has_texCoords : bool) (file : string)
  (tri : Triangle) : string :=
  let file := file << "f" in
  let file :=
    fold_left (write_reference has_normals has_texCoords tri) [0; 1; 2] file in
  file << endl.

(** The contents of the OBJ file that [writeOBJ] creates. *)
Definition writeOBJ (vertices : list (Vertex float)) (triangles : list Triangle)
  (has_normals has_colors has_texCoords : bool) : string :=
  let file := "" in
  let file := file << "# Converted from PLY to OBJ by PLYtoOBJ_Converter"
                   << endl in
  let file := file << "# Vertices: "
                   << show_int (Z.of_nat (List.length vertices)) << endl in
  let file := file << "# Faces: "
                   << show_int (Z.of_nat (List.length triangles)) << endl in
  let file := if has_normals then file << "# Has Normals" << endl else file in
  let file :=
    if has_colors
    then file << "# Has Vertex Colors (appended to 'v' lines as r g b)" << endl
    else file in
  let file :=
    if has_texCoords then file << "# Has Texture Coordinates" << endl
    else file in
  let file := file << endl in
  let file := fold_left write_vertex vertices file in
  let file := file << endl in
  let file :=
    if has_texCoords then fold_left write_texCoord vertices file << endl
    else file in
  let file :=
    if has_normals then fold_left write_normal vertices file << endl
    else file in
  fold_left (write_face has_normals has_texCoords) triangles file.

(** [main] after its arguments are read: the OBJ text, or the error. *)
Definition convert (ply : list ascii) : result string :=
  mesh <- readPLY ply ;;
  Ok (writeOBJ (vertices mesh) (triangles mesh)
        (has_normals mesh) (has_colors mesh) (has_texCoords mesh)).

End Decoder.

(** ** A host: GCC and glibc on x86-64 Linux

    Little-endian, 64-bit [long] and [size_t], [float] in IEEE 754
    binary32 with rounding to nearest even.  [stof] is [strtof]: decimal
    and hexadecimal numbers, [inf] and [nan], with [out_of_range] where
    [strtof] reports [ERANGE]; [show_float] is the [%g] format with six
    significant digits that [operator<<] uses. *)
Module Amd64.

Definition prec : Z := 24.
Definition emax : Z := 128.

(** A [float]: a number, or a NaN with its sign (the payload of a NaN
    shows nowhere in the program's output). *)
Inductive binary32 :=
| Number (f : spec_float)
| NaN (negative : bool).

Definition of_spec (f : spec_float) : binary32 :=
  match f with
  | S754_nan => NaN false
  | _ => Number f
  end.

(** The float nearest to [n / d] with sign [s]; whether it is exact; and
    whether [n / d] is tiny: below [2 ^ -126] once rounded to 24 bits with
    an exponent of any size (x86 detects tininess after rounding). *)
Definition round_ratio (s : bool) (n d : Z) : spec_float * bool * bool :=
  let shift := Z.max 0 (26 + Z.log2_up d - Z.log2 n) in
  let q := (n * 2 ^ shift) / d in
  let r := (n * 2 ^ shift) mod d in
  let loc := if r =? 0 then loc_Exact else loc_Inexact (2 * r ?= d) in
  let f := binary_round_aux prec emax s q (- shift) loc in
  let exact :=
    match f with
    | S754_finite _ m e =>
        if 0 <=? e then Zpos m * 2 ^ e * d =? n
        else Zpos m * d =? n * 2 ^ (- e)
    | _ => false
    end in
  let tiny :=
    match binary_round_aux prec 1024 s q (- shift) loc with
    | S754_finite _ _ e => e <? - 149
    | S754_zero _ => true
    | _ => false
    end in
  (f, exact, tiny).

(** [strtof] sets [ERANGE] on overflow, and on a tiny result that is not
    exact. *)
Definition checked (r : spec_float * bool * bool) : sto_result binary32 :=
  let '(f, exact, tiny) := r in
  match f with
  | S754_infinity _ => out_of_range
  | _ => if tiny && negb exact then out_of_range else sto_value (of_spec f)
  end.

Fixpoint count_digits (s : list ascii) : Z :=
  match s with
  | c :: s' =>
      match digit_of c with
      | Some _ => 1 + count_digits s'
      | None => 0
      end
  | [] => 0
  end.

Definition lower (c : ascii) : ascii :=
  let n := Z.of_N (N_of_ascii c) in
  if (65 <=? n) && (n <=? 90) then ascii_of_N (Z.to_N (n + 32)) else c.

Definition hex_digit_of (c : ascii) : option Z :=
  let n := Z.of_N (N_of_ascii (lower c)) in
  if (48 <=? n) && (n <=? 57) then Some (n - 48)
  else if (97 <=? n) && (n <=? 102) then Some (n - 87)
  else None.

Fixpoint take_hex_digits (s : list ascii) (acc : Z) : Z * list ascii :=
  match s with
  | c :: s' =>
      match hex_digit_of c with
      | Some d => take_hex_digits s' (16 * acc + d)
      | None => (acc, s)
      end
  | [] => (acc, [])
  end.

Fixpoint count_hex_digits (s : list ascii) : Z :=
  match s with
  | c :: s' =>
      match hex_digit_of c with
      | Some _ => 1 + count_hex_digits s'
      | None => 0
      end
  | [] => 0
  end.

(** The exponent after the letter [letter], 0 when there is none. *)
Definition exponent_after (letter : ascii) (s : list ascii) : Z :=
  match s with
  | c :: s' =>
      if Ascii.eqb (lower c) letter then
        match scan_integer s' with
        | Scanned n _ => n
        | NoDigits => 0
        end
      else 0
  | [] => 0
  end.

(** The number of digits before the point, of digits after it, and the
    whole of them as one integer in base 10 or 16. *)
Definition mantissa (hex : bool) (s : list ascii)
  : Z * Z * Z * list ascii :=
  let take := if hex then take_hex_digits else take_digits in
  let count := if hex then count_hex_digits else count_digits in
  let (m1, s1) := take s 0 in
  match s1 with
  | c :: s' =>
      if Ascii.eqb c "."%char
      then let (m2, s'') := take s' m1 in (count s, count s', m2, s'')
      else (count s, 0, m1, s1)
  | [] => (count s, 0, m1, s1)
  end.

(** A hexadecimal number starts with [0x] and has a digit. *)
Definition is_hex (s : list ascii) : bool :=
  match s with
  | z :: xc :: s' =>
      Ascii.eqb z "0"%char && Ascii.eqb (lower xc) "x"%char
      && match mantissa true s' with
         | (i, f, _, _) => 0 <? i + f
         end
  | _ => false
  end.

Definition parse_float (str : string) : sto_result binary32 :=
  let s := skipws (chars str) in
  let '(neg, s) :=
    match s with
    | c :: s' =>
        if Ascii.eqb c "-"%char then (true, s')
        else if Ascii.eqb c "+"%char then (false, s')
        else (false, s)
    | [] => (false, [])
    end in
  if starts_with (chars "inf") (map lower s)
  then sto_value (Number (S754_infinity neg))
  else if starts_with (chars "nan") (map lower s) then sto_value (NaN neg)
  else if is_hex s then
    let '(int_digits, frac_digits, m, s2) := mantissa true (skipn 2 s) in
    let e2 := exponent_after "p" s2 - 4 * frac_digits in
    if m =? 0 then sto_value (Number (S754_zero neg))
    else if 200 <? e2 then out_of_range
    else if e2 + 4 * (int_digits + frac_digits) <? - 200 then out_of_range
    else
      checked (if 0 <=? e2 then round_ratio neg (m * 2 ^ e2) 1
               else round_ratio neg m (2 ^ (- e2)))
  else
    let '(int_digits, frac_digits, m, s2) := mantissa false s in
    if int_digits + frac_digits =? 0 then invalid_argument
    else
      let e10 := exponent_after "e" s2 - frac_digits in
      if m =? 0 then sto_value (Number (S754_zero neg))
      else if 50 <? e10 then out_of_range
      else if e10 + int_digits + frac_digits <? - 60 then out_of_range
      else
        checked (if 0 <=? e10 then round_ratio neg (m * 10 ^ e10) 1
                 else round_ratio neg m (10 ^ (- e10))).

Definition decode_bits (b : Z) : binary32 :=
  let s := 0 <? (b / 2 ^ 31) mod 2 in
  let ex := (b / 2 ^ 23) mod 256 in
  let man := b mod 2 ^ 23 in
  if ex =? 0 then
    match man with
    | Zpos m => Number (S754_finite s m (- 149))
    | _ => Number (S754_zero s)
    end
  else if ex =? 255 then
    if man =? 0 then Number (S754_infinity s) else NaN s
  else
    match man + 2 ^ 23 with
    | Zpos m => Number (S754_finite s m (ex - 150))
    | _ => NaN s
    end.

Definition divide_by_255 (uc : Z) : binary32 :=
  of_spec (SFdiv prec emax (binary_normalize prec emax uc 0 false)
             (binary_normalize prec emax 255 0 false)).

(** The largest [k] in [lo..lo + fuel] with [10 ^ k <= n / d]. *)
Fixpoint log10_floor (fuel : nat) (k : Z) (n d : Z) : Z :=
  match fuel with
  | O => k
  | S fuel' =>
      let le := if 0 <=? k then 10 ^ k * d <=? n else d <=? n * 10 ^ (- k) in
      if le then k else log10_floor fuel' (k - 1) n d
  end.

Definition round_half_even (n d : Z) : Z :=
  let q := n / d in
  let r := n mod d in
  match 2 * r ?= d with
  | Lt => q
  | Gt => q + 1
  | Eq => if Z.even q then q else q + 1
  end.

Fixpoint strip_zeros (rev_digits : list ascii) : list ascii :=
  match rev_digits with
  | c :: r => if Ascii.eqb c "0"%char then strip_zeros r else rev_digits
  | [] => []
  end.

Definition fraction (digits : list ascii) : string :=
  match strip_zeros (rev digits) with
  | [] => ""
  | r => String "."%char (string_of_list_ascii (rev r))
  end.

Definition show_g (n d : Z) : string :=
  let k := log10_floor 100 40 n d in
  let scaled k :=
    if 0 <=? 5 - k then round_half_even (n * 10 ^ (5 - k)) d
    else round_half_even n (d * 10 ^ (k - 5)) in
  let '(k, digits) :=
    if scaled k =? 1000000 then (k + 1, 100000) else (k, scaled k) in
  let ds := chars (show_int digits) in
  if (-4 <=? k) && (k <? 6) then
    if 0 <=? k then
      String.append (string_of_list_ascii (firstn (Z.to_nat (k + 1)) ds))
        (fraction (skipn (Z.to_nat (k + 1)) ds))
    else
      String.append "0"
        (fraction (repeat "0"%char (Z.to_nat (- k - 1)) ++ ds))
  else
    let ex := show_int (Z.abs k) in
    String.append (string_of_list_ascii (firstn 1 ds))
      (String.append (fraction (skipn 1 ds))
         (String.append (if k <? 0 then "e-" else "e+")
            (if Z.abs k <? 10 then String.append "0" ex else ex))).

Definition print_float (f : binary32) : string :=
  match f with
  | NaN s => if s then "-nan" else "nan"
  | Number (S754_zero s) => if s then "-0" else "0"
  | Number (S754_infinity s) => if s then "-inf" else "inf"
  | Number S754_nan => "nan"
  | Number (S754_finite s m e) =>
      String.append (if s then "-" else "")
        (if 0 <=? e then show_g (Zpos m * 2 ^ e) 1
         else show_g (Zpos m) (2 ^ (- e)))
  end.

(** [max_size()] of libstdc++ is [PTRDIFF_MAX / sizeof(T)], with 48 bytes
    for a [Vertex] and 12 for a [Triangle]; this machine has 64 GiB for a
    vector. *)
Definition has_memory (size n : Z) : bool := size * n <=? 2 ^ 36.

Definition host : Host :=
  Build_Host binary32 (Number (S754_zero false)) parse_float divide_by_255
    decode_bits print_float true 64
    ((2 ^ 63 - 1) / 48) ((2 ^ 63 - 1) / 12)
    (has_memory 48) (has_memory 12).
End Amd64.

(** ** Specification-side definitions

    The triangles of a fan over [indices], as a map over positions. *)
Definition fan_of (indices : list Z) : list Triangle :=
  map (fun j => {| v0 := nth 0 indices 0;
                   v1 := nth j indices 0;
                   v2 := nth (S j) indices 0 |})
      (seq 1 (List.length indices - 2)).

(** A text file from its lines. *)
Definition text (lines : list string) : list ascii :=
  flat_map (fun l => chars l ++ [newline]) lines.

Definition ascii_face_header : Header :=
  {| vertexCount := 0; faceCount := 1; headerEnd := true; isASCII := true;
     plyFileIsLittleEndian := false; vertexProperties := [];
     faceProperty :=
       {| name := "vertex_indices"; type_str := ""; is_list := true;
          count_type_str := "uchar"; list_item_type_str := "int";
          index_in_line := -1 |};
     facePropertyDefined := true; currentPropertyIndexASCII := 0;
     file_has_normals := false; file_has_colors := false;
     file_has_texCoords := false; currentElement := "face" |}.

Definition cat (parts : list string) : string :=
  fold_right String.append "" parts.

Section ObjLines.
Context {host : Host}.

(** The four shapes of a vertex reference on an [f] line, by the flags. *)
Definition reference (has_normals has_texCoords : bool) (v_idx : Z) : string :=
  let s := show_int (wrap_int (v_idx + 1)) in
  match has_texCoords, has_normals with
  | false, false => cat [" "; s]
  | true, false => cat [" "; s; "/"; s]
  | false, true => cat [" "; s; "//"; s]
  | true, true => cat [" "; s; "/"; s; "/"; s]
  end.

Definition f_line (has_normals has_texCoords : bool) (tri : Triangle)
  : string :=
  cat ["f"; reference has_normals has_texCoords (v0 tri);
       reference has_normals has_texCoords (v1 tri);
       reference has_normals has_texCoords (v2 tri); endl].

Definition v_line (vtx : Vertex float) : string :=
  cat ["v "; show_float (x (position vtx)); " ";
       show_float (y (position vtx)); " "; show_float (z (position vtx));
       if has_color vtx
       then cat [" "; show_float (x (color vtx)); " ";
                 show_float (y (color vtx)); " "; show_float (z (color vtx))]
       else "";
       endl].

Definition vt_line (vtx : Vertex float) : string :=
  if has_texCoord vtx
  then cat ["vt "; show_float (u (texCoord vtx)); " ";
            show_float (v (texCoord vtx)); endl]
  else cat ["vt 0 0"; endl].

Definition vn_line (vtx : Vertex float) : string :=
  if has_normal vtx
  then cat ["vn "; show_float (x (normal vtx)); " ";
            show_float (y (normal vtx)); " "; show_float (z (normal vtx));
            endl]
  else cat ["vn 0 0 1"; endl].

Definition obj_comments (vertices : nat) (faces : nat)
  (has_normals has_colors has_texCoords : bool) : string :=
  cat ["# Converted from PLY to OBJ by PLYtoOBJ_Converter"; endl;
       "# Vertices: "; show_int (Z.of_nat vertices); endl;
       "# Faces: "; show_int (Z.of_nat faces); endl;
       if has_normals then cat ["# Has Normals"; endl] else "";
       if has_colors
       then cat ["# Has Vertex Colors (appended to 'v' lines as r g b)"; endl]
       else "";
       if has_texCoords then cat ["# Has Texture Coordinates"; endl] else "";
       endl].

(** Everything [writeOBJ] writes before the [f] lines. *)
Definition obj_before_faces (vs : list (Vertex float)) (faces : nat)
  (has_normals has_colors has_texCoords : bool) : string :=
  cat [obj_comments (List.length vs) faces has_normals has_colors
         has_texCoords;
       cat (map v_line vs); endl;
       if has_texCoords then cat [cat (map vt_line vs); endl] else "";
       if has_normals then cat [cat (map vn_line vs); endl] else ""].

End ObjLines.

(** ** Sample files *)

(** The header that [read_header] makes of a file, and the file after it. *)
Definition header_of {host : Host} (file : list ascii) : Header :=
  match read_header file with
  | Ok (h, _) => h
  | Err _ => Header_initial
  end.

Definition payload_of {host : Host} (file : list ascii) : list ascii :=
  match read_header file with
  | Ok (_, file') => file'
  | Err _ => []
  end.

(** An ASCII file with [nv] vertices x y z and [nf] faces. *)
Definition xyz_ascii (nv nf : string) (data : list string) : list ascii :=
  text (["ply"; "format ascii 1.0";
         String.append "element vertex " nv;
         "property float x"; "property float y"; "property float z";
         String.append "element face " nf;
         "property list uchar int vertex_indices"; "end_header"] ++ data).

Section AsciiSpec.
Context {host : Host}.

(** A token that makes the [try] block of a property throw: [stof] fails
    on a property of a float type, or [stoi] on one of a byte type. *)
Definition unparseable (p : PlyProperty) (tok : string) : Prop :=
  (is_float_type (type_str p) = true
   /\ (stof tok = invalid_argument \/ stof tok = out_of_range))
  \/ (is_float_type (type_str p) = false
      /\ is_byte_type (type_str p) = true
      /\ (stoi tok = invalid_argument \/ stoi tok = out_of_range)).

(** The fields of a vertex that a property name stands for. *)
Inductive field :=
| position_x | position_y | position_z
| normal_x | normal_y | normal_z
| color_r | color_g | color_b
| texCoord_u | texCoord_v.

Definition field_named (n : string) : option field :=
  if n == "x" then Some position_x
  else if n == "y" then Some position_y
  else if n == "z" then Some position_z
  else if n == "nx" then Some normal_x
  else if n == "ny" then Some normal_y
  else if n == "nz" then Some normal_z
  else if n == "red" then Some color_r
  else if n == "green" then Some color_g
  else if n == "blue" then Some color_b
  else if (n == "u") || (n == "texture_u") || (n == "s") then Some texCoord_u
  else if (n == "v") || (n == "texture_v") || (n == "t") then Some texCoord_v
  else None.

Definition is_color (fld : field) : bool :=
  match fld with color_r | color_g | color_b => true | _ => false end.

Definition get (fld : field) (vtx : Vertex float) : float :=
  match fld with
  | position_x => x (position vtx)
  | position_y => y (position vtx)
  | position_z => z (position vtx)
  | normal_x => x (normal vtx)
  | normal_y => y (normal vtx)
  | normal_z => z (normal vtx)
  | color_r => x (color vtx)
  | color_g => y (color vtx)
  | color_b => z (color vtx)
  | texCoord_u => u (texCoord vtx)
  | texCoord_v => v (texCoord vtx)
  end.

End AsciiSpec.

Section FlagSpec.
Context {host : Host}.

(** Whether the header declares a vertex property with a name of a kind. *)
Definition declares (kind : string -> bool) (h : Header) : bool :=
  existsb (fun p => kind (name p)) (vertexProperties h).

Definition flags_as_declared (h : Header) : Prop :=
  file_has_normals h = declares names_normal h
  /\ file_has_colors h = declares names_color h
  /\ file_has_texCoords h = declares names_texCoord h.

End FlagSpec.

(** A file that declares normals and whose records have no token for
    them. *)
Definition normals_declared_only : list ascii :=
  text ["ply"; "format ascii 1.0"; "element vertex 2";
        "property float x"; "property float y"; "property float z";
        "property float nx"; "property float ny"; "property float nz";
        "end_header"; "0 0 0"; "1 0 0"].

(** A file whose coordinates are declared [int], [short] and [ushort]. *)
Definition integer_coordinates : list ascii :=
  text ["ply"; "format ascii 1.0"; "element vertex 1";
        "property int x"; "property short y"; "property ushort z";
        "end_header"; "5 6 7"].

(** ** Binary encoding, from the PLY format

    The bytes of an unsigned value of [size] bytes in the byte order of
    the file. *)
Definition file_bytes (little : bool) (size : nat) (n : Z) : list ascii :=
  if little then le_split size n else rev (le_split size n).

(** The signed reading of the low [8 * size] bits of [n]. *)
Definition signed (size : nat) (n : Z) : Z :=
  let m := 2 ^ (8 * Z.of_nat size) in
  if 2 * (n mod m) <? m then n mod m else n mod m - m.

Section BinarySpec.
Context {host : Host}.

(** The number of bytes that [readPLY] takes for a vertex property of a
    binary file: four for a coordinate, a normal or a texture coordinate,
    one for a colour component or alpha, the size of the declared type for
    any other name. *)
Definition binary_width (p : PlyProperty) : nat :=
  match field_named (name p) with
  | Some fld => if is_color fld then 1 else 4
  | None => if name p == "alpha" then 1 else type_size (type_str p)
  end.

Definition set (fld : field) (f : float) (c : Vertex float) : Vertex float :=
  match fld with
  | position_x => with_position (set_x f) c
  | position_y => with_position (set_y f) c
  | position_z => with_position (set_z f) c
  | normal_x => with_normal (set_x f) c
  | normal_y => with_normal (set_y f) c
  | normal_z => with_normal (set_z f) c
  | color_r => with_color (set_x f) c
  | color_g => with_color (set_y f) c
  | color_b => with_color (set_z f) c
  | texCoord_u => with_texCoord (set_u f) c
  | texCoord_v => with_texCoord (set_v f) c
  end.



(** A vertex record: the values of its properties in declared order, each
    in the size of its declared type. *)
Fixpoint encode_vertex (little : bool) (props : list PlyProperty)
  (values : list Z) : list ascii :=
  match props, values with
  | p :: props', n :: values' =>
      file_bytes little (type_size (type_str p)) n
      ++ encode_vertex little props' values'
  | _, _ => []
  end.

Definition encode_vertices (little : bool) (props : list PlyProperty)
  (vs : list (list Z)) : list ascii :=
  flat_map (encode_vertex little props) vs.

(** The index types that [readPLY] reads, with the conversion to [int]. *)
Definition index_conversion (t : string) : option (Z -> Z) :=
  if (t == "int") || (t == "int32") then Some (signed 4)
  else if (t == "uint") || (t == "uint32")
  then Some (fun n => wrap_int (n mod 2 ^ 32))
  else if (t == "short") || (t == "int16") then Some (signed 2)
  else if (t == "ushort") || (t == "uint16") then Some (fun n => n mod 2 ^ 16)
  else if (t == "uchar") || (t == "uint8") then Some (fun n => n mod 2 ^ 8)
  else None.

Definition is_count_type (t : string) : bool :=
  (t == "uchar") || (t == "uint8") || (t == "ushort") || (t == "uint16")
  || (t == "uint") || (t == "uint32").

(** A face record: the count in the count type, then the indices in the
    item type. *)
Definition encode_face (little : bool) (fp : PlyProperty) (indices : list Z)
  : list ascii :=
  file_bytes little (type_size (count_type_str fp))
    (Z.of_nat (List.length indices))
  ++ flat_map (file_bytes little (type_size (list_item_type_str fp))) indices.

Definition encode_faces (little : bool) (fp : PlyProperty)
  (fs : list (list Z)) : list ascii :=
  flat_map (encode_face little fp) fs.

Definition decoded_face (fp : PlyProperty) (indices : list Z)
  : list Triangle :=
  if (List.length indices <? 3)%nat then []
  else
    match index_conversion (list_item_type_str fp) with
    | Some convert => fan_of (map convert indices)
    | None => []
    end.

(** A count that its type and [int] can hold. *)
Definition count_fits (fp : PlyProperty) (indices : list Z) : Prop :=
  Z.of_nat (List.length indices)
  < 2 ^ (8 * Z.of_nat (type_size (count_type_str fp)))
  /\ Z.of_nat (List.length indices) <= INT_MAX.

End BinarySpec.

Section PayloadSpec.
Context {host : Host}.


Definition with_vertexCount (n : Z) (h : Header) : Header :=
  set_element (currentElement h) n (faceCount h) h.

(** The data of a binary file: the raw values of every vertex and the
    index list of every face, in the byte order [little]. *)
Definition encode_payload (little : bool) (h : Header)
  (vs : list (list Z)) (fs : list (list Z)) : list ascii :=
  encode_vertices little (vertexProperties h) vs
  ++ encode_faces little (faceProperty h) fs.




(** The exception of [resize] or of [reserve] for the declared counts,
    if any; and that there is none: the two vectors can hold the counts
    and get their memory. *)
Definition allocation_error (h : Header) : option error :=
  match resize_vertices (vertexCount h) with
  | Some e => Some e
  | None => reserve_triangles (faceCount h)
  end.

Definition vectors_fit (h : Header) : Prop := allocation_error h = None.

End PayloadSpec.

(** A binary header: x, y, z as float, red as uchar, one unused short, and
    faces as [list uchar int]. *)
Definition binary_header (nv nf : Z) : Header :=
  let prop n t i :=
    {| name := n; type_str := t; is_list := false; count_type_str := "";
       list_item_type_str := ""; index_in_line := i |} in
  {| vertexCount := nv; faceCount := nf; headerEnd := true; isASCII := false;
     plyFileIsLittleEndian := true;
     vertexProperties :=
       [prop "x" "float" 0; prop "y" "float" 1; prop "z" "float" 2;
        prop "red" "uchar" 3; prop "quality" "short" 4];
     faceProperty :=
       {| name := "vertex_indices"; type_str := ""; is_list := true;
          count_type_str := "uchar"; list_item_type_str := "int";
          index_in_line := -1 |};
     facePropertyDefined := true; currentPropertyIndexASCII := 0;
     file_has_normals := false; file_has_colors := true;
     file_has_texCoords := false; currentElement := "face" |}.

(** Two vertices and two faces, a triangle and a quad, as raw values. *)
Definition sample_vertices : list (list Z) :=
  [[1065353216; 0; 3212836864; 255; 7]; [1056964608; 1078530011; 0; 128; 9]].
Definition sample_faces : list (list Z) := [[0; 1; 1]; [0; 1; 0; 1]].

(** A binary file with its text header, in both byte orders. *)
Definition binary_file (little : bool) : list ascii :=
  text ["ply";
        if little then "format binary_little_endian 1.0"
        else "format binary_big_endian 1.0";
        "element vertex 2";
        "property float x"; "property float y"; "property float z";
        "property uchar red"; "property short quality";
        "element face 2";
        "property list uchar int vertex_indices"; "end_header"]
  ++ encode_payload little (binary_header 2 2) sample_vertices sample_faces.


(** ** Definitions for the further properties *)

(** The first word of a header line, as the header loop reads it. *)
Definition first_token (line : list ascii) : string :=
  snd (extract_string (istringstream_of (strip_cr line)) "").

(** A line that the header loop passes over: empty, or a comment. *)
Definition is_skipped (line : list ascii) : bool :=
  is_empty (strip_cr line) || starts_with (chars "comment") (strip_cr line).

Definition has_newline (line : list ascii) : bool :=
  existsb (fun c => Ascii.eqb c newline) line.

(** The text of lines that each end with [eol]. *)
Definition lines_text (eol : list ascii) (ls : list (list ascii))
  : list ascii :=
  flat_map (fun l => l ++ eol) ls.

(** What one header line can do to the variables of the header. *)
Inductive header_effect (h : Header) : header_step -> Prop :=
| effect_none : header_effect h (Continue h)
| effect_format ascii little :
    header_effect h (Continue (set_format ascii little h))
| effect_element elem vc fc :
    header_effect h (Continue (set_element elem vc fc h))
| effect_vertex_property prop :
    header_effect h (Continue (add_vertex_property prop h))
| effect_face_property prop :
    (name prop == "vertex_indices") || (name prop == "vertex_index") = true ->
    header_effect h (Continue (set_faceProperty prop h))
| effect_end : header_effect h (Break (set_headerEnd h))
| effect_error e : header_effect h (ReturnFalse e).

(** A line that ends the header: not passed over, and its first word is
    [end_header]. *)
Definition is_end_header (line : list ascii) : bool :=
  negb (is_skipped line) && (first_token line == "end_header").

(** A line of a header text before its [end_header] line. *)
Definition header_text_line (line : list ascii) : Prop :=
  has_newline line = false /\ is_end_header line = false.

(** The header lines of [xyz_ascii "3" "1"] before [end_header]. *)
Definition xyz_header_lines : list (list ascii) :=
  map chars
    ["ply"; "format ascii 1.0"; "element vertex 3";
     "property float x"; "property float y"; "property float z";
     "element face 1"; "property list uchar int vertex_indices"].

Section VertexSpec.
Context {host : Host}.

(** The flags of a vertex are raised only for properties of their kind. *)
Definition flags_within (props : list PlyProperty) (c : Vertex float) : Prop :=
  (has_normal c = true ->
   existsb (fun p => names_normal (name p)) props = true)
  /\ (has_color c = true ->
      existsb (fun p => names_color (name p)) props = true)
  /\ (has_texCoord c = true ->
      existsb (fun p => names_texCoord (name p)) props = true).

(** Whether [readPLY] reads the bytes of a property of a binary vertex
    (it seeks over the others). *)
Definition is_read (p : PlyProperty) : bool :=
  match field_named (name p) with
  | Some _ => true
  | None => name p == "alpha"
  end.

(** The bytes that the properties of a binary vertex take. *)
Fixpoint bytes_taken (props : list PlyProperty) : nat :=
  match props with
  | [] => 0
  | p :: props' => binary_width p + bytes_taken props'
  end.

(** The bytes that must be there for the vertex to be read: up to the end
    of the last property that is read and not sought over. *)
Fixpoint bytes_needed (props : list PlyProperty) : nat :=
  match props with
  | [] => 0
  | p :: props' =>
      if is_read p || (0 <? bytes_needed props')%nat
      then binary_width p + bytes_needed props'
      else 0
  end.

End VertexSpec.

(** The mesh of a result, the empty mesh for an error. *)
Definition mesh_of {host : Host} (r : result (Mesh float)) : Mesh float :=
  match r with
  | Ok mesh => mesh
  | Err _ =>
      {| vertices := []; triangles := []; has_normals := false;
         has_colors := false; has_texCoords := false |}
  end.

(** Two streams of which the second has a carriage return more at its
    end, as long as they have not failed. *)
Definition cr_added (a b : istringstream) : Prop :=
  failbit b = failbit a
  /\ (failbit a = false -> buf b = buf a ++ [carriage_return]).

(** The three corners of a triangle. *)
Definition corners (t : Triangle) : list Z := [v0 t; v1 t; v2 t].

(** A face list whose count is an unsigned 32-bit value. *)
Definition uint_count_header (h : Header) : Prop :=
  isASCII h = false
  /\ (count_type_str (faceProperty h) = "uint"
      \/ count_type_str (faceProperty h) = "uint32").

(** The binary header with the face count declared as [uint]. *)
Definition uint_count_binary_header (nv nf : Z) : Header :=
  set_faceProperty
    {| name := "vertex_indices"; type_str := ""; is_list := true;
       count_type_str := "uint"; list_item_type_str := "int";
       index_in_line := -1 |}
    (binary_header nv nf).

(** ** Whole meshes and face records, for the properties of whole files *)

Section FileSpec.
Context {host : Host}.

(** The mesh that [readPLY] returns for the vertices [vs] and the
    triangles [ts]. *)
Definition finished_mesh (h : Header) (vs : list (Vertex float))
  (ts : list Triangle) : Mesh float :=
  {| vertices := vs; triangles := ts;
     has_normals := file_has_normals h || existsb has_normal vs;
     has_colors := file_has_colors h || existsb has_color vs;
     has_texCoords := file_has_texCoords h || existsb has_texCoord vs |}.

(** The text that [main] has [writeOBJ] write for a mesh. *)
Definition obj_of (m : Mesh float) : string :=
  writeOBJ (vertices m) (triangles m) (has_normals m) (has_colors m)
    (has_texCoords m).

End FileSpec.

(** The line of an ASCII face: the count, then the indices, each after a
    space. *)
Definition ascii_face_line (indices : list Z) : list ascii :=
  chars (show_int (Z.of_nat (List.length indices)))
  ++ flat_map (fun n => " "%char :: chars (show_int n)) indices.

(** The face records of a file with the header [h]. *)
Definition face_records (h : Header) (fs : list (list Z)) : list ascii :=
  if isASCII h then lines_text [newline] (map ascii_face_line fs)
  else encode_faces (plyFileIsLittleEndian h) (faceProperty h) fs.

(** The values of an index type that [readPLY] reads which are values of
    [int] too. *)
Definition index_range (t : string) (n : Z) : Prop :=
  if (t == "int") || (t == "int32") then INT_MIN <= n <= INT_MAX
  else if (t == "uint") || (t == "uint32") then 0 <= n <= INT_MAX
  else if (t == "short") || (t == "int16") then - 2 ^ 15 <= n < 2 ^ 15
  else if (t == "ushort") || (t == "uint16") then 0 <= n < 2 ^ 16
  else if (t == "uchar") || (t == "uint8") then 0 <= n < 2 ^ 8
  else False.

(** A face that a file with the header [h] can hold: any [int] indices in
    an ASCII file; in a binary file with a count type and an index type
    that [readPLY] reads, indices of the declared type, as many as the
    count type can tell.  The number of vertices plays no part. *)
Definition face_fits (h : Header) (indices : list Z) : Prop :=
  if isASCII h then
    Z.of_nat (List.length indices) <= INT_MAX
    /\ Forall (fun n => INT_MIN <= n <= INT_MAX) indices
  else
    is_count_type (count_type_str (faceProperty h)) = true
    /\ index_conversion (list_item_type_str (faceProperty h)) <> None
    /\ count_fits (faceProperty h) indices
    /\ Forall (index_range (list_item_type_str (faceProperty h))) indices.

(** The triangles of a face, with the indices as they are. *)
Definition face_triangles (indices : list Z) : list Triangle :=
  if (List.length indices <? 3)%nat then [] else fan_of indices.

(** The stream after [k] extractions of an [int]. *)
Fixpoint skip_ints (k : nat) (iss : istringstream) : istringstream :=
  match k with
  | O => iss
  | S k' => skip_ints k' (fst (extract_int iss 0))
  end.

(** When [iss >> value] sets the fail bit of a stream that had none: at
    the end of the stream, before something that is no number, or at a
    number outside [int]. *)
Definition cannot_extract (iss : istringstream) : Prop :=
  match skipws (buf iss) with
  | [] => True
  | s =>
      match scan_integer s with
      | NoDigits => True
      | Scanned n _ => n < INT_MIN \/ INT_MAX < n
      end
  end.

(** What may follow a number in a stream: nothing, or no digit. *)
Definition ends_number (rest : list ascii) : Prop :=
  match rest with
  | [] => True
  | c :: _ => digit_of c = None
  end.

(** An ASCII file of three vertices and the face [3 0 1 99]. *)
Definition index_99_file : list ascii :=
  xyz_ascii "3" "1" ["0 0 0"; "1 0 0"; "0 1 0"; "3 0 1 99"].

(** A red component [300] of type uchar, and a token [abc] for a normal
    of type int. *)
Definition uchar_300_file : list ascii :=
  text ["ply"; "format ascii 1.0"; "element vertex 1";
        "property float x"; "property float y"; "property float z";
        "property uchar red"; "end_header"; "0 0 0 300"].

Definition int_normal_file : list ascii :=
  text ["ply"; "format ascii 1.0"; "element vertex 1";
        "property float x"; "property float y"; "property float z";
        "property int nx"; "end_header"; "0 0 0 abc"].

(** * Properties *)

(** [getlines] lists what repeated calls of [getline] return. *)
Lemma getlines_from_take_line (file : list ascii) :
  forall cur,
    file <> [] \/ cur <> [] ->
    getlines_from cur file
    = (rev cur ++ fst (take_line file), snd (take_line file))
        :: getlines (snd (take_line file)).
Proof.
  induction file as [|c file IH]; intros cur H.
  - destruct H as [H|H]; [contradiction|].
    destruct cur; [contradiction|]. simpl. now rewrite app_nil_r.
  - cbn [getlines_from take_line]. destruct (Ascii.eqb c newline).
    + simpl. now rewrite app_nil_r.
    + destruct file as [|d file].
      * simpl. reflexivity.
      * rewrite IH by (left; discriminate).
        destruct (take_line (d :: file)) as [l r]. simpl.
        now rewrite <- app_assoc.
Qed.

Lemma getlines_getline (file : list ascii) :
  getlines file =
  match getline file with
  | None => []
  | Some (line, file') => (line, file') :: getlines file'
  end.
Proof.
  destruct file as [|c file]; [reflexivity|].
  unfold getlines at 1, getline.
  rewrite getlines_from_take_line by (left; discriminate).
  destruct (take_line (c :: file)); reflexivity.
Qed.

Section Properties.
Context {host : Host}.

Lemma nth_map_seq {A : Type} (f : nat -> A) (a n j : nat) (d : A) :
  (j < n)%nat -> nth j (map f (seq a n)) d = f (a + j)%nat.
Proof.
  revert a j. induction n as [|n IH]; intros a j Hj; [lia|].
  destruct j as [|j]; simpl.
  - f_equal. lia.
  - rewrite IH by lia. f_equal. lia.
Qed.

Lemma fan_map (indices : list Z) (turns : nat) :
  forall (j : nat) (out : list Triangle),
    fan indices turns (Z.of_nat j) out =
    out ++ map (fun k => {| v0 := nth 0 indices 0;
                            v1 := nth k indices 0;
                            v2 := nth (S k) indices 0 |}) (seq j turns).
Proof.
  induction turns as [|turns IH]; intros j out; simpl.
  - now rewrite app_nil_r.
  - replace (Z.of_nat j + 1) with (Z.of_nat (S j)) by lia.
    rewrite IH, <- app_assoc. cbn [map seq app].
    rewrite !Nat2Z.id. reflexivity.
Qed.

Lemma push_triangles_fan (indices : list Z) (out : list Triangle) :
  (3 <= List.length indices)%nat ->
  push_triangles (Z.of_nat (List.length indices)) indices out =
  out ++ fan_of indices.
Proof.
  intros Hn. unfold push_triangles, fan_of.
  destruct (Z.of_nat (List.length indices) =? 3) eqn:E3.
  - apply Z.eqb_eq in E3.
    assert (List.length indices = 3%nat) as -> by lia. reflexivity.
  - apply Z.eqb_neq in E3.
    destruct (3 <? Z.of_nat (List.length indices)) eqn:E;
      [|apply Z.ltb_ge in E; lia].
    replace (Z.to_nat (Z.of_nat (List.length indices) - 2))
      with (List.length indices - 2)%nat by lia.
    exact (fan_map indices _ 1%nat out).
Qed.

Lemma ascii_indices_length (i : Z) (turns : nat) :
  forall j iss indices,
    ascii_indices i turns j iss = Ok indices -> List.length indices = turns.
Proof.
  induction turns as [|turns IH]; intros j iss indices; simpl.
  - now intros [= <-].
  - destruct (extract_int iss 0) as [iss' index].
    destruct (failbit iss'); [discriminate|].
    destruct (ascii_indices i turns (j + 1) iss') as [l|] eqn:E;
      [|discriminate].
    intros [= <-]. simpl. f_equal. eauto.
Qed.

Lemma binary_indices_length (h : Header) (sle : bool) (turns : nat) :
  forall file indices file',
    binary_indices h sle turns file = Ok (indices, file') ->
    List.length indices = turns.
Proof.
  induction turns as [|turns IH]; intros file indices file'; simpl.
  - now intros [= <- _].
  - destruct (binary_index h sle file) as [[index f1]|]; [|discriminate].
    destruct (binary_indices h sle turns f1) as [[l f2]|] eqn:E;
      [|discriminate].
    intros [= <- _]. simpl. f_equal. eauto.
Qed.

(** A face record that is read has as many indices as its count says, and
    its triangles are the fan over them. *)
Lemma face_record_fan (h : Header) (sle : bool) (i n : Z)
  (line file file' : list ascii) (out out' : list Triangle) :
  3 <= n ->
  face_record h sle i n line file out = Ok (out', file') ->
  exists indices,
    List.length indices = Z.to_nat n /\ out' = out ++ fan_of indices.
Proof.
  intros Hn. unfold face_record.
  destruct (n <? 3) eqn:E; [apply Z.ltb_lt in E; lia|].
  destruct (isASCII h).
  - destruct (extract_int (istringstream_of line) 0) as [iss tc].
    destruct (ascii_indices i (Z.to_nat n) 0 iss) as [l|] eqn:El;
      [|discriminate].
    intros [= <- _]. exists l.
    pose proof (ascii_indices_length _ _ _ _ _ El) as Hl. split; [exact Hl|].
    rewrite <- (push_triangles_fan l out) by lia. f_equal. lia.
  - destruct (binary_indices h sle (Z.to_nat n) file) as [[l f1]|] eqn:El;
      [|discriminate].
    intros [= <- _]. exists l.
    pose proof (binary_indices_length _ _ _ _ _ _ El) as Hl. split; [exact Hl|].
    rewrite <- (push_triangles_fan l out) by lia. f_equal. lia.
Qed.

(** C1: a face with n >= 3 indices yields n - 2 triangles: the triangle
    (i0,i1,i2) itself for n = 3 and the fan (i0, ij, ij+1), j = 1..n-2, in
    index order for larger n; every face record that is read does so; the
    quad [4 0 1 2 3] gives (0,1,2) and (0,2,3). *)
Theorem C1_fan_triangulation :
  (forall (indices : list Z) (out : list Triangle),
      (3 <= List.length indices)%nat ->
      push_triangles (Z.of_nat (List.length indices)) indices out
        = out ++ fan_of indices
      /\ List.length (fan_of indices) = (List.length indices - 2)%nat
      /\ forall j, (j < List.length indices - 2)%nat ->
           nth j (fan_of indices) {| v0 := 0; v1 := 0; v2 := 0 |}
           = {| v0 := nth 0 indices 0;
                v1 := nth (1 + j) indices 0;
                v2 := nth (2 + j) indices 0 |})
  /\ (forall (i0 i1 i2 : Z) (out : list Triangle),
         push_triangles 3 [i0; i1; i2] out
           = out ++ [{| v0 := i0; v1 := i1; v2 := i2 |}])
  /\ (forall h sle i n line file file' out out',
         3 <= n ->
         face_record h sle i n line file out = Ok (out', file') ->
         exists indices,
           List.length indices = Z.to_nat n /\ out' = out ++ fan_of indices)
  /\ (forall sle,
         read_face ascii_face_header sle 0 (text ["4 0 1 2 3"]) []
         = Ok ([{| v0 := 0; v1 := 1; v2 := 2 |};
                {| v0 := 0; v1 := 2; v2 := 3 |}], [])).
Proof.
  split; [|split; [|split]].
  - intros indices out Hn. split; [now apply push_triangles_fan|].
    unfold fan_of. split.
    + now rewrite length_map, length_seq.
    + intros j Hj.
      now rewrite nth_map_seq by exact Hj.
  - reflexivity.
  - intros. eapply face_record_fan; eauto.
  - intros sle. reflexivity.
Qed.

End Properties.

(** C1 at the pentagon 7 8 9 10 11. *)
Lemma C1_fan_triangulation_witness :
  push_triangles 5 [7; 8; 9; 10; 11] []
  = [{| v0 := 7; v1 := 8; v2 := 9 |};
     {| v0 := 7; v1 := 9; v2 := 10 |};
     {| v0 := 7; v1 := 10; v2 := 11 |}].
Proof.
  destruct (@C1_fan_triangulation Amd64.host) as [H _].
  destruct (H [7; 8; 9; 10; 11] []) as [H1 _]; [simpl; lia|].
  exact H1.
Defined.

Section Encoder.
Context {host : Host}.

Lemma append_nil_r (s : string) : String.append s "" = s.
Proof. induction s as [|c s IH]; simpl; [reflexivity|now rewrite IH]. Qed.

Lemma append_assoc (a b c : string) :
  String.append (String.append a b) c = String.append a (String.append b c).
Proof. induction a as [|ch a IH]; simpl; [reflexivity|now rewrite IH]. Qed.

Lemma fold_left_put {A : Type} (f : string -> A -> string)
  (line : A -> string) :
  (forall file a, f file a = String.append file (line a)) ->
  forall l file, fold_left f l file = String.append file (cat (map line l)).
Proof.
  intros Hf l. induction l as [|a l IH]; intros file; simpl.
  - now rewrite append_nil_r.
  - now rewrite IH, Hf, append_assoc.
Qed.

Ltac flatten :=
  unfold put, cat; cbn [fold_right fold_left];
  repeat rewrite append_assoc; repeat rewrite append_nil_r.

Lemma write_vertex_line (file : string) (vtx : Vertex float) :
  write_vertex file vtx = String.append file (v_line vtx).
Proof. unfold write_vertex, v_line. destruct (has_color vtx); now flatten. Qed.

Lemma write_texCoord_line (file : string) (vtx : Vertex float) :
  write_texCoord file vtx = String.append file (vt_line vtx).
Proof.
  unfold write_texCoord, vt_line. destruct (has_texCoord vtx); now flatten.
Qed.

Lemma write_normal_line (file : string) (vtx : Vertex float) :
  write_normal file vtx = String.append file (vn_line vtx).
Proof.
  unfold write_normal, vn_line. destruct (has_normal vtx); now flatten.
Qed.

Lemma write_face_line (hn ht : bool) (file : string) (tri : Triangle) :
  write_face hn ht file tri = String.append file (f_line hn ht tri).
Proof.
  unfold write_face, f_line, write_reference, reference.
  destruct hn, ht; now flatten.
Qed.

(** The layout of the OBJ text. *)
Lemma writeOBJ_layout (vs : list (Vertex float)) (ts : list Triangle)
  (hn hc ht : bool) :
  writeOBJ vs ts hn hc ht =
  cat [obj_comments (List.length vs) (List.length ts) hn hc ht;
       cat (map v_line vs); endl;
       if ht then cat [cat (map vt_line vs); endl] else "";
       if hn then cat [cat (map vn_line vs); endl] else "";
       cat (map (f_line hn ht) ts)].
Proof.
  unfold writeOBJ, obj_comments.
  rewrite (fold_left_put _ _ (write_face_line hn ht)).
  destruct hn, hc, ht;
    rewrite ?(fold_left_put _ _ write_normal_line),
            ?(fold_left_put _ _ write_texCoord_line),
            ?(fold_left_put _ _ write_vertex_line);
    now flatten.
Qed.

Lemma wrap_int_id (n : Z) : INT_MIN <= n <= INT_MAX -> wrap_int n = n.
Proof.
  unfold wrap_int, INT_MIN, INT_MAX. intros Hn.
  rewrite Z.mod_small by lia. lia.
Qed.

(** C6: the face loop appends one [f] line per triangle, in order, after
    the other blocks; the line has three references to index + 1, written
    [i], [i/i], [i//i] or [i/i/i] by the flags for texture coordinates and
    normals, every number of a reference being the same. *)
Theorem C6_face_lines :
  (forall vs ts hn hc ht,
      writeOBJ vs ts hn hc ht =
      String.append (obj_before_faces vs (List.length ts) hn hc ht)
        (cat (map (f_line hn ht) ts)))
  /\ (forall hn ht ts file,
         fold_left (write_face hn ht) ts file
         = String.append file (cat (map (f_line hn ht) ts))
         /\ List.length (map (f_line hn ht) ts) = List.length ts)
  /\ (forall file tri,
         let s0 := show_int (wrap_int (v0 tri + 1)) in
         let s1 := show_int (wrap_int (v1 tri + 1)) in
         let s2 := show_int (wrap_int (v2 tri + 1)) in
         write_face false false file tri
         = cat [file; "f"; " "; s0; " "; s1; " "; s2; endl]
         /\ write_face false true file tri
            = cat [file; "f"; " "; s0; "/"; s0; " "; s1; "/"; s1;
                   " "; s2; "/"; s2; endl]
         /\ write_face true false file tri
            = cat [file; "f"; " "; s0; "//"; s0; " "; s1; "//"; s1;
                   " "; s2; "//"; s2; endl]
         /\ write_face true true file tri
            = cat [file; "f"; " "; s0; "/"; s0; "/"; s0;
                   " "; s1; "/"; s1; "/"; s1;
                   " "; s2; "/"; s2; "/"; s2; endl])
  /\ (forall i, INT_MIN <= i < INT_MAX -> wrap_int (i + 1) = i + 1).
Proof.
  split; [|split; [|split]].
  - intros. rewrite writeOBJ_layout. unfold obj_before_faces.
    destruct hn, ht; now flatten.
  - intros. split; [|now rewrite length_map].
    apply fold_left_put, write_face_line.
  - intros file tri s0 s1 s2. subst s0 s1 s2.
    unfold write_face, write_reference.
    repeat split; now flatten.
  - intros i Hi. apply wrap_int_id. unfold INT_MIN, INT_MAX in *. lia.
Qed.

(** C7: with [has_texCoords] the text has one [vt] line per vertex in
    vertex order, the vertex's own coordinates when its flag is set and
    [vt 0 0] otherwise; with [has_normals] it has one [vn] line per vertex
    in order, its own normal when its flag is set and [vn 0 0 1]
    otherwise; without the flag the block is absent. *)
Theorem C7_texcoord_and_normal_blocks :
  (forall vs ts hn hc ht,
      writeOBJ vs ts hn hc ht =
      cat [obj_comments (List.length vs) (List.length ts) hn hc ht;
           cat (map v_line vs); endl;
           if ht then cat [cat (map vt_line vs); endl] else "";
           if hn then cat [cat (map vn_line vs); endl] else "";
           cat (map (f_line hn ht) ts)])
  /\ (forall vs file,
         fold_left write_texCoord vs file
         = String.append file (cat (map vt_line vs))
         /\ List.length (map vt_line vs) = List.length vs
         /\ fold_left write_normal vs file
            = String.append file (cat (map vn_line vs))
         /\ List.length (map vn_line vs) = List.length vs)
  /\ (forall file vtx,
         write_texCoord file vtx
         = (if has_texCoord vtx
            then cat [file; "vt "; show_float (u (texCoord vtx)); " ";
                      show_float (v (texCoord vtx)); endl]
            else cat [file; "vt 0 0"; endl])
         /\ write_normal file vtx
            = (if has_normal vtx
               then cat [file; "vn "; show_float (x (normal vtx)); " ";
                         show_float (y (normal vtx)); " ";
                         show_float (z (normal vtx)); endl]
               else cat [file; "vn 0 0 1"; endl])).
Proof.
  split; [|split].
  - intros. apply writeOBJ_layout.
  - intros vs file. rewrite !length_map. repeat split.
    + apply fold_left_put, write_texCoord_line.
    + apply fold_left_put, write_normal_line.
  - intros file vtx. unfold write_texCoord, write_normal.
    destruct (has_texCoord vtx), (has_normal vtx); split; now flatten.
Qed.

End Encoder.

(** C6 at the triangle (0,1,2) with both flags set. *)
Lemma C6_face_lines_witness :
  wrap_int (41 + 1) = 42
  /\ write_face true true "" {| v0 := 0; v1 := 1; v2 := 2 |}
     = String.append "f 1/1/1 2/2/2 3/3/3" endl.
Proof.
  destruct (@C6_face_lines Amd64.host) as (_ & _ & H & Hw). split.
  - apply Hw. unfold INT_MIN, INT_MAX. lia.
  - destruct (H "" {| v0 := 0; v1 := 1; v2 := 2 |}) as (_ & _ & _ & H4).
    rewrite H4. reflexivity.
Defined.

Section Loops.
Context {host : Host}.

Lemma read_vertices_app (h : Header) (sle : bool) (a b : nat) :
  forall i file out,
    read_vertices h sle (a + b) i file out =
    (' (out1, file1) <- read_vertices h sle a i file out ;;
     read_vertices h sle b (i + Z.of_nat a) file1 out1).
Proof.
  induction a as [|a IH]; intros i file out.
  - simpl. now rewrite Z.add_0_r.
  - cbn [Nat.add read_vertices].
    destruct (read_vertex h sle i file out) as [[out1 file1]|e]; [|reflexivity].
    rewrite IH. replace (i + 1 + Z.of_nat a) with (i + Z.of_nat (S a)) by lia.
    reflexivity.
Qed.

Lemma read_faces_app (h : Header) (sle : bool) (a b : nat) :
  forall i file out,
    read_faces h sle (a + b) i file out =
    (' (out1, file1) <- read_faces h sle a i file out ;;
     read_faces h sle b (i + Z.of_nat a) file1 out1).
Proof.
  induction a as [|a IH]; intros i file out.
  - simpl. now rewrite Z.add_0_r.
  - cbn [Nat.add read_faces].
    destruct (read_face h sle i file out) as [[out1 file1]|e]; [|reflexivity].
    rewrite IH. replace (i + 1 + Z.of_nat a) with (i + Z.of_nat (S a)) by lia.
    reflexivity.
Qed.

Lemma assign_length {A : Type} (l : list A) :
  forall i a, List.length (assign l i a) = List.length l.
Proof.
  induction l as [|b l IH]; intros [|i] a; simpl; auto.
Qed.

Lemma assign_other {A : Type} (l : list A) (d : A) :
  forall i k a, i <> k -> nth k (assign l i a) d = nth k l d.
Proof.
  induction l as [|b l IH]; intros [|i] [|k] a Hik; simpl; auto; try lia.
Qed.

Lemma assign_same {A : Type} (l : list A) (d : A) :
  forall i a, (i < List.length l)%nat -> nth i (assign l i a) d = a.
Proof.
  induction l as [|b l IH]; intros [|i] a Hi; simpl in *; try lia; auto.
  apply IH. lia.
Qed.

(** A turn of the vertex loop writes at most the entry [i]. *)
Lemma read_vertex_frame (h : Header) (sle : bool) (i : Z)
  (file file' : list ascii) (out out' : list (Vertex float)) :
  read_vertex h sle i file out = Ok (out', file') ->
  List.length out' = List.length out
  /\ forall k, k <> Z.to_nat i ->
       nth k out' Vertex_default = nth k out Vertex_default.
Proof.
  unfold read_vertex. destruct (isASCII h).
  - destruct (getline file) as [[line f1]|]; [|discriminate].
    destruct (is_empty line && (i <? vertexCount h - 1)); [discriminate|].
    destruct (is_empty line); intros [= <- _].
    + auto.
    + split; [apply assign_length|]. intros k Hk. now apply assign_other.
  - destruct (binary_properties h sle (vertexProperties h) Vertex_default file)
      as [[c f1]|]; [|discriminate].
    intros [= <- _]. split; [apply assign_length|].
    intros k Hk. now apply assign_other.
Qed.

Lemma read_vertices_frame (h : Header) (sle : bool) (turns : nat) :
  forall i file file' out out',
    0 <= i ->
    read_vertices h sle turns i file out = Ok (out', file') ->
    List.length out' = List.length out
    /\ forall k, (Z.to_nat i + turns <= k)%nat ->
         nth k out' Vertex_default = nth k out Vertex_default.
Proof.
  induction turns as [|turns IH]; intros i file file' out out' Hi; simpl.
  - intros [= <- _]. auto.
  - destruct (read_vertex h sle i file out) as [[out1 file1]|] eqn:E1;
      [|discriminate].
    intros E. apply read_vertex_frame in E1 as [L1 N1].
    apply IH in E as [L2 N2]; [|lia]. split; [congruence|].
    intros k Hk. rewrite N2 by lia. apply N1. lia.
Qed.

(** An empty line in the two loops of an ASCII file: an error at a turn
    before the last one, passed over at the last. *)
Lemma empty_line_turns :
  (forall h sle i file file' out,
      isASCII h = true -> getline file = Some ([], file') ->
      (i < vertexCount h - 1 ->
       read_vertex h sle i file out = Err (vertex_empty_line i))
      /\ (vertexCount h - 1 <= i ->
          read_vertex h sle i file out = Ok (out, file')))
  /\ (forall h sle i file file' out,
         isASCII h = true -> getline file = Some ([], file') ->
         (i < faceCount h - 1 ->
          read_face h sle i file out = Err (face_empty_line i))
         /\ (faceCount h - 1 <= i ->
             read_face h sle i file out = Ok (out, file')))
  /\ (forall h sle (a b : nat) file file1 file2 out out1,
         isASCII h = true ->
         read_vertices h sle a 0 file out = Ok (out1, file1) ->
         getline file1 = Some ([], file2) ->
         Z.of_nat a < vertexCount h - 1 ->
         read_vertices h sle (a + S b) 0 file out
         = Err (vertex_empty_line (Z.of_nat a)))
  /\ (forall h sle (a : nat) file file1 file2 out1,
         isASCII h = true ->
         vertexCount h = Z.of_nat (S a) ->
         read_vertices h sle a 0 file (repeat Vertex_default (S a))
         = Ok (out1, file1) ->
         getline file1 = Some ([], file2) ->
         read_vertices h sle (S a) 0 file (repeat Vertex_default (S a))
         = Ok (out1, file2)
         /\ List.length out1 = S a
         /\ nth a out1 Vertex_default = Vertex_default)
  /\ (forall h sle (a b : nat) file file1 file2 out out1,
         isASCII h = true ->
         read_faces h sle a 0 file out = Ok (out1, file1) ->
         getline file1 = Some ([], file2) ->
         Z.of_nat a < faceCount h - 1 ->
         read_faces h sle (a + S b) 0 file out
         = Err (face_empty_line (Z.of_nat a)))
  /\ (forall h sle (a : nat) file file1 file2 out out1,
         isASCII h = true ->
         faceCount h = Z.of_nat (S a) ->
         read_faces h sle a 0 file out = Ok (out1, file1) ->
         getline file1 = Some ([], file2) ->
         read_faces h sle (S a) 0 file out = Ok (out1, file2)).
Proof.
  assert (V : forall h sle i file file' out,
      isASCII h = true -> getline file = Some ([], file') ->
      (i < vertexCount h - 1 ->
       read_vertex h sle i file out = Err (vertex_empty_line i))
      /\ (vertexCount h - 1 <= i ->
          read_vertex h sle i file out = Ok (out, file'))).
  { intros h sle i file file' out Ha Hg. unfold read_vertex.
    rewrite Ha, Hg. simpl. split; intros Hi.
    - apply Z.ltb_lt in Hi. now rewrite Hi.
    - apply Z.ltb_ge in Hi. now rewrite Hi. }
  assert (F : forall h sle i file file' out,
      isASCII h = true -> getline file = Some ([], file') ->
      (i < faceCount h - 1 ->
       read_face h sle i file out = Err (face_empty_line i))
      /\ (faceCount h - 1 <= i ->
          read_face h sle i file out = Ok (out, file'))).
  { intros h sle i file file' out Ha Hg. unfold read_face.
    rewrite Ha, Hg. simpl. split; intros Hi.
    - apply Z.ltb_lt in Hi. now rewrite Hi.
    - apply Z.ltb_ge in Hi. now rewrite Hi. }
  repeat split.
  - now apply (V h sle i file file' out).
  - now apply (V h sle i file file' out).
  - now apply (F h sle i file file' out).
  - now apply (F h sle i file file' out).
  - intros h sle a b file file1 file2 out out1 Ha E Hg Hi.
    rewrite read_vertices_app, E. cbn [read_vertices Z.add].
    destruct (V h sle (Z.of_nat a) file1 file2 out1 Ha Hg) as [-> _]; auto.
  - rewrite <- (Nat.add_1_r a) at 1.
    rewrite read_vertices_app, H1. cbn [read_vertices Z.add].
    destruct (V h sle (Z.of_nat a) file1 file2 out1 H H2) as [_ ->];
      [reflexivity|lia].
  - apply read_vertices_frame in H1 as [L _]; [|lia].
    now rewrite L, repeat_length.
  - apply read_vertices_frame in H1 as [_ N]; [|lia].
    rewrite N by (simpl; lia). apply nth_repeat.
  - intros h sle a b file file1 file2 out out1 Ha E Hg Hi.
    rewrite read_faces_app, E. cbn [read_faces Z.add].
    destruct (F h sle (Z.of_nat a) file1 file2 out1 Ha Hg) as [-> _]; auto.
  - intros h sle a file file1 file2 out out1 Ha Hc E Hg.
    rewrite <- (Nat.add_1_r a).
    rewrite read_faces_app, E. cbn [read_faces Z.add].
    destruct (F h sle (Z.of_nat a) file1 file2 out1 Ha Hg) as [_ ->];
      [reflexivity|lia].
Qed.

End Loops.

(** An empty line on whole files, through [main]. *)
Example empty_line_before_last_vertex :
  @convert Amd64.host (xyz_ascii "2" "0" [""; "0 0 0"])
  = Err (vertex_empty_line 0).
Proof. vm_compute. reflexivity. Qed.

Example empty_line_at_last_vertex :
  @convert Amd64.host (xyz_ascii "2" "0" ["1 2 3"; ""])
  = Ok (cat ["# Converted from PLY to OBJ by PLYtoOBJ_Converter"; endl;
             "# Vertices: 2"; endl; "# Faces: 0"; endl; endl;
             "v 1 2 3"; endl; "v 0 0 0"; endl; endl]).
Proof. vm_compute. reflexivity. Qed.

Example empty_line_before_last_face :
  @convert Amd64.host (xyz_ascii "0" "2" [""; "3 0 1 2"])
  = Err (face_empty_line 0).
Proof. vm_compute. reflexivity. Qed.

Example empty_line_at_last_face :
  @convert Amd64.host (xyz_ascii "0" "2" ["3 0 1 2"; ""])
  = Ok (cat ["# Converted from PLY to OBJ by PLYtoOBJ_Converter"; endl;
             "# Vertices: 0"; endl; "# Faces: 1"; endl; endl; endl;
             "f 1 2 3"; endl]).
Proof. vm_compute. reflexivity. Qed.

Section AsciiVertices.
Context {host : Host}.

Lemma unparseable_throws (p : PlyProperty) (tok : string) :
  unparseable p tok ->
  parse_value p tok = invalid_argument \/ parse_value p tok = out_of_range.
Proof.
  unfold unparseable, parse_value.
  intros [[-> [E|E]]|(-> & -> & [E|E])]; rewrite E; auto.
Qed.

Lemma in_line (values : list string) (p : PlyProperty) :
  0 <= index_in_line p < Z.of_nat (List.length values) ->
  (index_in_line p <? 0)
  || (Z.of_nat (List.length values) <=? index_in_line p) = false.
Proof.
  intros H. apply orb_false_iff. split; [apply Z.ltb_ge|apply Z.leb_gt]; lia.
Qed.

(** A property whose token throws leaves the vertex as it was. *)
Lemma ascii_property_skipped (values : list string) (c : Vertex float)
  (p : PlyProperty) :
  0 <= index_in_line p < Z.of_nat (List.length values) ->
  unparseable p (nth (Z.to_nat (index_in_line p)) values "") ->
  ascii_property values c p = c.
Proof.
  intros Hi Hu. unfold ascii_property. rewrite in_line by exact Hi.
  destruct (unparseable_throws _ _ Hu) as [-> | ->]; reflexivity.
Qed.

Lemma read_vertex_ascii (h : Header) (sle : bool) (i : Z)
  (file line file' : list ascii) (out : list (Vertex float)) :
  isASCII h = true -> getline file = Some (line, file') -> line <> [] ->
  read_vertex h sle i file out
  = Ok (assign out (Z.to_nat i) (ascii_vertex h line), file').
Proof.
  intros Ha Hg Hl. unfold read_vertex. rewrite Ha, Hg.
  destruct line; [contradiction|reflexivity].
Qed.

Lemma store_ascii_field (p : PlyProperty) (f : float) (uc : Z)
  (c : Vertex float) (fld : field) :
  field_named (name p) = Some fld ->
  get fld (store_ascii p f uc c)
  = if is_color fld then color_component p f uc else f.
Proof.
  unfold field_named, store_ascii.
  repeat match goal with
         | |- context [if ?b then _ else _] =>
             lazymatch b with
             | is_color _ => fail
             | _ => destruct b
             end
         end; intros [= <-]; reflexivity.
Qed.

(** C4, amended: in an ASCII vertex record a colour component of type
    uchar or uint8 is read by [stoi], reduced to an unsigned char and
    divided by 255; a property of type float, float32, double or float64 is
    read by [stof] and stored in its field; the token of a property of
    every other type (int, short, ushort, ...) is not read and its field
    receives 0. *)
Theorem C4_ascii_value_by_type :
  forall values c p fld,
    0 <= index_in_line p < Z.of_nat (List.length values) ->
    field_named (name p) = Some fld ->
    let tok := nth (Z.to_nat (index_in_line p)) values "" in
    (forall n, is_color fld = true -> is_uchar_type (type_str p) = true ->
               stoi tok = sto_value n ->
               get fld (ascii_property values c p) = uchar_over_255 (n mod 256)
               /\ 0 <= n mod 256 <= 255)
    /\ (forall f, is_float_type (type_str p) = true ->
                  stof tok = sto_value f ->
                  get fld (ascii_property values c p) = f)
    /\ (is_float_type (type_str p) = false ->
        is_byte_type (type_str p) = false ->
        get fld (ascii_property values c p) = float_zero)
    /\ (forall n, is_byte_type (type_str p) = true ->
                  is_color fld && is_uchar_type (type_str p) = false ->
                  is_float_type (type_str p) = false ->
                  stoi tok = sto_value n ->
                  get fld (ascii_property values c p) = float_zero).
Proof.
  intros values c p fld Hi Hf tok.
  assert (Hu : forall t, is_uchar_type t = true ->
                         is_float_type t = false /\ is_byte_type t = true).
  { intros t. unfold is_uchar_type, is_float_type, is_byte_type.
    destruct (t == "uchar") eqn:E1.
    - apply String.eqb_eq in E1. subst t. auto.
    - destruct (t == "uint8") eqn:E2; [|discriminate].
      apply String.eqb_eq in E2. subst t. auto. }
  unfold ascii_property. rewrite in_line by exact Hi. fold tok.
  unfold parse_value. repeat split.
  - destruct (Hu _ H0) as [-> ->]. rewrite H1.
    rewrite (store_ascii_field _ _ _ _ _ Hf), H.
    unfold color_component. now rewrite H0.
  - apply Z.mod_pos_bound. lia.
  - assert (n mod 256 < 256) by (apply Z.mod_pos_bound; lia). lia.
  - intros f Ht Hs. rewrite Ht, Hs.
    rewrite (store_ascii_field _ _ _ _ _ Hf).
    unfold color_component.
    destruct (is_color fld); [|reflexivity].
    destruct (is_uchar_type (type_str p)) eqn:E; [|reflexivity].
    destruct (Hu _ E) as [E' _]. congruence.
  - intros Ht Hb. rewrite Ht, Hb.
    rewrite (store_ascii_field _ _ _ _ _ Hf).
    unfold color_component.
    destruct (is_color fld); [|reflexivity].
    destruct (is_uchar_type (type_str p)) eqn:E; [|reflexivity].
    destruct (Hu _ E) as [_ E']. congruence.
  - intros n Hb Hc Ht Hs. rewrite Ht, Hb, Hs.
    rewrite (store_ascii_field _ _ _ _ _ Hf).
    unfold color_component.
    destruct (is_color fld); [|reflexivity].
    simpl in Hc. now rewrite Hc.
Qed.

End AsciiVertices.

(** The claim C3 fails at a face line whose third index is [x], or is
    outside [int]: the conversion ends with the error of the index loop.
    It fails too at a red component [300] of type uchar, which is out of
    range and yet stored, as 44 / 255; and at the token [abc] of a normal
    of type int, which is no number and yet gives the vertex a normal,
    written instead of the placeholder. *)
Lemma C3_counterexample :
  @convert Amd64.host
    (xyz_ascii "3" "1" ["0 0 0"; "1 0 0"; "0 1 0"; "3 0 1 x"])
  = Err (bad_ascii_index 0 2)
  /\ @convert Amd64.host
       (xyz_ascii "3" "1" ["0 0 0"; "1 0 0"; "0 1 0"; "3 0 1 99999999999"])
     = Err (bad_ascii_index 0 2)
  /\ @convert Amd64.host uchar_300_file
     = Ok (cat ["# Converted from PLY to OBJ by PLYtoOBJ_Converter"; endl;
                "# Vertices: 1"; endl; "# Faces: 0"; endl;
                "# Has Vertex Colors (appended to 'v' lines as r g b)"; endl;
                endl; "v 0 0 0 0.172549 0 0"; endl; endl])
  /\ @convert Amd64.host int_normal_file
     = Ok (cat ["# Converted from PLY to OBJ by PLYtoOBJ_Converter"; endl;
                "# Vertices: 1"; endl; "# Faces: 0"; endl;
                "# Has Normals"; endl; endl;
                "v 0 0 0"; endl; endl; "vn 0 0 0"; endl; endl]).
Proof. repeat split; vm_compute; reflexivity. Qed.

(** C4 at a red component [200] of type uchar. *)
Lemma C4_ascii_value_by_type_witness :
  let p :=
    {| name := "red"; type_str := "uchar"; is_list := false;
       count_type_str := ""; list_item_type_str := ""; index_in_line := 0 |} in
  x (color (@ascii_property Amd64.host ["200"] Vertex_default p))
  = @uchar_over_255 Amd64.host 200.
Proof.
  intros p.
  destruct (@C4_ascii_value_by_type Amd64.host ["200"] Vertex_default p
              color_r) as (H & _).
  - simpl. lia.
  - reflexivity.
  - destruct (H 200) as [H1 _]; [reflexivity|reflexivity|reflexivity|].
    exact H1.
Defined.

(** The claim C4 fails at that file: [stof] has values for the tokens,
    yet the three coordinates are 0. *)
Lemma C4_counterexample :
  exists mesh vtx f5 f6 f7,
    @readPLY Amd64.host integer_coordinates = Ok mesh
    /\ vertices mesh = [vtx]
    /\ @stof Amd64.host "5" = sto_value f5
    /\ @stof Amd64.host "6" = sto_value f6
    /\ @stof Amd64.host "7" = sto_value f7
    /\ x (position vtx) <> f5
    /\ y (position vtx) <> f6
    /\ z (position vtx) <> f7
    /\ position vtx = @Vec3_default Amd64.host.
Proof.
  do 5 eexists.
  split; [vm_compute; reflexivity|].
  split; [reflexivity|].
  do 3 (split; [vm_compute; reflexivity|]).
  repeat split; vm_compute; try discriminate; reflexivity.
Qed.

Section Flags.
Context {host : Host}.

Lemma add_vertex_property_declared (prop : PlyProperty) (h : Header) :
  flags_as_declared h -> flags_as_declared (add_vertex_property prop h).
Proof.
  unfold flags_as_declared, declares. intros (Hn & Hc & Ht).
  cbn [add_vertex_property file_has_normals file_has_colors
       file_has_texCoords vertexProperties with_index name].
  rewrite !existsb_app. cbn [existsb]. rewrite !orb_false_r.
  change (name (with_index (currentPropertyIndexASCII h) prop))
    with (name prop).
  rewrite Hn, Hc, Ht.
  destruct (names_normal (name prop)), (names_color (name prop)),
    (names_texCoord (name prop));
    rewrite ?orb_true_r, ?orb_false_r; auto.
Qed.

Lemma header_line_declared (h : Header) (line : list ascii) :
  flags_as_declared h ->
  match header_line h line with
  | Continue h' | Break h' => flags_as_declared h'
  | ReturnFalse _ => True
  end.
Proof.
  intros H. unfold header_line.
  destruct (is_empty (strip_cr line)
            || starts_with (chars "comment") (strip_cr line)); [exact H|].
  destruct (extract_string (istringstream_of (strip_cr line)) "")
    as [iss token].
  destruct (token == "ply"); [exact H|].
  destruct (token == "format").
  { destruct (extract_string iss "") as [iss1 format_str].
    destruct (extract_string iss1 "") as [iss2 version_str].
    destruct (format_str == "ascii"); [exact H|].
    destruct (format_str == "binary_little_endian"); [exact H|].
    destruct (format_str == "binary_big_endian"); [exact H|exact I]. }
  destruct (token == "element").
  { destruct (extract_string iss (currentElement h)) as [iss1 elem].
    destruct (elem == "vertex").
    - destruct (extract_long iss1 (vertexCount h)). exact H.
    - destruct (elem == "face"); [|exact H].
      destruct (extract_long iss1 (faceCount h)). exact H. }
  destruct (token == "property").
  { destruct (extract_string iss "") as [iss1 type_or_list].
    match goal with
    | |- context [add_vertex_property ?p h] => generalize p
    end.
    intros prop.
    destruct (currentElement h == "vertex");
      [now apply add_vertex_property_declared|].
    destruct (currentElement h == "face"); [|exact H].
    destruct ((name prop == "vertex_indices") || (name prop == "vertex_index"));
      exact H. }
  destruct (token == "end_header"); exact H.
Qed.

Lemma header_loop_declared (ls : list (list ascii * list ascii)) :
  forall h h' file',
    flags_as_declared h -> header_loop h ls = Ok (h', file') ->
    flags_as_declared h'.
Proof.
  induction ls as [|[line rest] ls IH]; intros h h' file' H; simpl.
  - now intros [= <- _].
  - pose proof (header_line_declared h line H) as Hl.
    destruct (header_line h line); eauto.
    + now intros [= <- _].
    + discriminate.
Qed.

Lemma read_header_declared (file file' : list ascii) (h : Header) :
  read_header file = Ok (h, file') -> flags_as_declared h.
Proof.
  unfold read_header.
  destruct (header_loop Header_initial (getlines file)) as [[h0 f0]|] eqn:E;
    [|discriminate].
  apply header_loop_declared in E; [|repeat split].
  destruct (negb (headerEnd h0)); [discriminate|].
  destruct ((0 <? faceCount h0) && negb (facePropertyDefined h0));
    [discriminate|].
  now intros [= <- _].
Qed.

Lemma raise_flags_or (vs : list (Vertex float)) :
  forall n c t,
    fold_left raise_flags vs (n, c, t)
    = (n || existsb has_normal vs, c || existsb has_color vs,
       t || existsb has_texCoord vs).
Proof.
  induction vs as [|vtx vs IH]; intros n c t; cbn [fold_left existsb].
  - now rewrite !orb_false_r.
  - unfold raise_flags at 2. rewrite IH.
    destruct (has_normal vtx), (has_color vtx), (has_texCoord vtx), n, c, t;
      reflexivity.
Qed.

Lemma read_payload_flags (h : Header) (file : list ascii) (mesh : Mesh float) :
  read_payload h file = Ok mesh ->
  has_normals mesh = file_has_normals h || existsb has_normal (vertices mesh)
  /\ has_colors mesh = file_has_colors h || existsb has_color (vertices mesh)
  /\ has_texCoords mesh
     = file_has_texCoords h || existsb has_texCoord (vertices mesh).
Proof.
  unfold read_payload.
  destruct (resize_vertices (vertexCount h)); [discriminate|].
  destruct (read_vertices _ _ _ _ _ _) as [[vs f1]|]; [|discriminate].
  unfold after_vertices. rewrite raise_flags_or.
  destruct (reserve_triangles (faceCount h)); [discriminate|].
  destruct (read_faces _ _ _ _ _ _) as [[ts f2]|]; [|discriminate].
  intros [= <-]. simpl. auto.
Qed.

(** C2, amended: after a successful decode each of the three flags of the
    mesh is true exactly when the header declares a vertex property of
    its kind or some decoded vertex has the flag of that kind set; so one
    vertex with a decoded normal gives [has_normals = true]. *)
Theorem C2_mesh_flags :
  forall file mesh,
    readPLY file = Ok mesh ->
    exists h file',
      read_header file = Ok (h, file')
      /\ has_normals mesh
         = declares names_normal h || existsb has_normal (vertices mesh)
      /\ has_colors mesh
         = declares names_color h || existsb has_color (vertices mesh)
      /\ has_texCoords mesh
         = declares names_texCoord h || existsb has_texCoord (vertices mesh)
      /\ (existsb has_normal (vertices mesh) = true ->
          has_normals mesh = true).
Proof.
  intros file mesh. unfold readPLY.
  destruct (read_header file) as [[h file']|] eqn:E; [|discriminate].
  intros Hp. exists h, file'. split; [reflexivity|].
  destruct (read_header_declared _ _ _ E) as (Dn & Dc & Dt).
  destruct (read_payload_flags _ _ _ Hp) as (-> & -> & ->).
  rewrite Dn, Dc, Dt. repeat split.
  intros ->. apply orb_true_r.
Qed.

End Flags.

(** C2 at the triangle of the specification. *)
Lemma C2_mesh_flags_witness :
  exists mesh,
    @readPLY Amd64.host
      (xyz_ascii "3" "1" ["0 0 0"; "1 0 0"; "0 1 0"; "3 0 1 2"]) = Ok mesh
    /\ has_normals mesh = false /\ has_colors mesh = false
    /\ has_texCoords mesh = false.
Proof.
  eexists. split; [vm_compute; reflexivity|].
  match goal with
  | |- has_normals ?m = _ /\ _ =>
      destruct (@C2_mesh_flags Amd64.host
                  (xyz_ascii "3" "1" ["0 0 0"; "1 0 0"; "0 1 0"; "3 0 1 2"])
                  m eq_refl)
        as (h & f & Hh & Hn & Hc & Ht & _)
  end.
  vm_compute in Hh. injection Hh as <- <-.
  split; [|split]; [rewrite Hn|rewrite Hc|rewrite Ht]; vm_compute;
    reflexivity.
Defined.

(** The claim C2 fails at a file that declares nx, ny and nz and gives
    none of them in its records: no vertex has a normal, and the mesh
    reports normals. *)
Lemma C2_counterexample :
  exists mesh,
    @readPLY Amd64.host normals_declared_only = Ok mesh
    /\ existsb has_normal (vertices mesh) = false
    /\ has_normals mesh = true.
Proof.
  eexists. split; [|split]; vm_compute; reflexivity.
Qed.

Section Bytes.
Context {host : Host}.

Lemma byte_value_of (n : Z) : byte_value (byte_of n) = n mod 256.
Proof.
  unfold byte_value, byte_of.
  assert (0 <= n mod 256 < 256) by (apply Z.mod_pos_bound; lia).
  rewrite N_ascii_embedding by lia. lia.
Qed.

Lemma le_split_length (size : nat) :
  forall n, List.length (le_split size n) = size.
Proof. induction size as [|size IH]; intros n; simpl; auto. Qed.

Lemma le_combine_split (size : nat) :
  forall n, le_combine (le_split size n) = n mod 2 ^ (8 * Z.of_nat size).
Proof.
  induction size as [|size IH]; intros n.
  - simpl. now rewrite Z.mod_1_r.
  - cbn [le_split le_combine]. rewrite IH, byte_value_of.
    replace (8 * Z.of_nat (S size)) with (8 + 8 * Z.of_nat size) by lia.
    rewrite Z.pow_add_r by lia. change (2 ^ 8) with 256.
    rewrite Z.rem_mul_r by lia. reflexivity.
Qed.

Lemma file_bytes_length (little : bool) (size : nat) (n : Z) :
  List.length (file_bytes little size n) = size.
Proof.
  unfold file_bytes. destruct little; [|rewrite length_rev];
    apply le_split_length.
Qed.

Lemma isSystemLittleEndian_host : isSystemLittleEndian = host_little_endian.
Proof.
  unfold isSystemLittleEndian, object_of_unsigned.
  destruct host_little_endian; reflexivity.
Qed.

Lemma firstn_exact {A : Type} (bs rest : list A) (size : nat) :
  List.length bs = size -> firstn size (bs ++ rest) = bs.
Proof.
  intros <-. rewrite firstn_app, firstn_all, Nat.sub_diag. simpl.
  apply app_nil_r.
Qed.

Lemma skipn_exact {A : Type} (bs rest : list A) (size : nat) :
  List.length bs = size -> skipn size (bs ++ rest) = rest.
Proof.
  intros <-. rewrite skipn_app, skipn_all, Nat.sub_diag. reflexivity.
Qed.

(** [readBinary] on the bytes of a value takes exactly them and stores the
    object of this host that holds the value. *)
Lemma readBinary_file_bytes (little : bool) (size : nat) (n : Z)
  (rest : list ascii) :
  exists object,
    readBinary size (file_bytes little size n ++ rest) little
      isSystemLittleEndian = Some (object, rest)
    /\ List.length object = size
    /\ unsigned_of_object object = n mod 2 ^ (8 * Z.of_nat size).
Proof.
  unfold readBinary.
  pose proof (file_bytes_length little size n) as L.
  assert ((List.length (file_bytes little size n ++ rest) <? size)%nat = false)
    as ->.
  { apply Nat.ltb_ge. rewrite length_app. lia. }
  rewrite (firstn_exact _ _ _ L), (skipn_exact _ _ _ L).
  eexists. split; [reflexivity|]. rewrite isSystemLittleEndian_host.
  unfold unsigned_of_object, swapBytes, file_bytes.
  destruct little, host_little_endian; cbn [Bool.eqb negb];
    rewrite ?length_rev, ?rev_involutive, le_split_length, le_combine_split;
    auto.
Qed.

Lemma readBinary_unsigned_file_bytes (little : bool) (size : nat) (n : Z)
  (rest : list ascii) :
  readBinary_unsigned size (file_bytes little size n ++ rest) little
    isSystemLittleEndian
  = Some (n mod 2 ^ (8 * Z.of_nat size), rest).
Proof.
  unfold readBinary_unsigned.
  destruct (readBinary_file_bytes little size n rest) as (o & -> & _ & ->).
  reflexivity.
Qed.

Lemma readBinary_signed_file_bytes (little : bool) (size : nat) (n : Z)
  (rest : list ascii) :
  readBinary_signed size (file_bytes little size n ++ rest) little
    isSystemLittleEndian
  = Some (signed size n, rest).
Proof.
  unfold readBinary_signed, signed_of_object, signed.
  destruct (readBinary_file_bytes little size n rest) as (o & -> & -> & ->).
  reflexivity.
Qed.




End Bytes.

Section BinaryVertices.
Context {host : Host}.


Lemma assign_app {A : Type} (done : list A) (d a : A) (todo : list A) :
  assign (done ++ d :: todo) (List.length done) a = done ++ a :: todo.
Proof.
  induction done as [|b done IH]; simpl; [reflexivity|now rewrite IH].
Qed.


End BinaryVertices.

Section BinaryFaces.
Context {host : Host}.

(** A string known by a disjunction of [==] tests is replaced by each of
    the literals in turn. *)
Ltac literal E :=
  repeat (apply orb_true_iff in E as [E|E]);
  apply String.eqb_eq in E; subst.

Ltac sizes :=
  repeat match goal with
         | |- context [type_size ?s] =>
             let n := eval vm_compute in (type_size s) in
             change (type_size s) with n
         | |- context [item_size ?s] =>
             let n := eval vm_compute in (item_size s) in
             change (item_size s) with n
         end.

Lemma index_type_sizes (t : string) (convert : Z -> Z) :
  index_conversion t = Some convert ->
  item_size t = type_size t /\ (0 < type_size t)%nat.
Proof.
  unfold index_conversion.
  repeat match goal with
         | |- context [if ?b then _ else _] =>
             let E := fresh "E" in
             destruct b eqn:E;
             [intros _; literal E; vm_compute; split; lia|clear E]
         end.
  discriminate.
Qed.

Lemma binary_index_file_bytes (h : Header) (n : Z) (rest : list ascii)
  (convert : Z -> Z) :
  index_conversion (list_item_type_str (faceProperty h)) = Some convert ->
  binary_index h isSystemLittleEndian
    (file_bytes (plyFileIsLittleEndian h)
       (type_size (list_item_type_str (faceProperty h))) n ++ rest)
  = Ok (convert n, rest).
Proof.
  unfold binary_index, index_conversion.
  generalize (list_item_type_str (faceProperty h)) as t. intros t.
  repeat match goal with
         | |- context [if ?b then _ else _] =>
             let E := fresh "E" in
             destruct b eqn:E;
             [intros [= <-]; literal E; sizes;
              rewrite ?readBinary_signed_file_bytes,
                      ?readBinary_unsigned_file_bytes; reflexivity|clear E]
         end.
  discriminate.
Qed.

Lemma binary_indices_encode (h : Header) (convert : Z -> Z)
  (indices : list Z) :
  forall rest,
    index_conversion (list_item_type_str (faceProperty h)) = Some convert ->
    binary_indices h isSystemLittleEndian (List.length indices)
      (flat_map (file_bytes (plyFileIsLittleEndian h)
                   (type_size (list_item_type_str (faceProperty h))))
         indices ++ rest)
    = Ok (map convert indices, rest).
Proof.
  induction indices as [|n indices IH]; intros rest Hc; [reflexivity|].
  cbn [List.length binary_indices flat_map map].
  rewrite <- app_assoc, (binary_index_file_bytes h n _ convert Hc).
  now rewrite IH.
Qed.

(** The loop over a face with fewer than three indices moves a binary
    file forward by the size of its indices. *)
Lemma skip_indices_binary (h : Header) (turns : nat) :
  forall file,
    isASCII h = false ->
    (0 < item_size (list_item_type_str (faceProperty h)))%nat ->
    skip_indices h turns file
    = Ok (skipn (turns * item_size (list_item_type_str (faceProperty h)))
            file).
Proof.
  induction turns as [|turns IH]; intros file Hb Hs; [reflexivity|].
  cbn [skip_indices]. rewrite Hb.
  apply Nat.ltb_lt in Hs as Hs'. rewrite Hs'.
  rewrite IH by assumption. unfold seekg. rewrite skipn_skipn.
  do 2 f_equal. simpl. lia.
Qed.

Lemma skip_indices_ascii (h : Header) (turns : nat) (file : list ascii) :
  isASCII h = true -> skip_indices h turns file = Ok file.
Proof.
  intros Ha. induction turns as [|turns IH]; [reflexivity|].
  cbn [skip_indices]. now rewrite Ha.
Qed.

Lemma binary_count_file_bytes (h : Header) (n : Z) (rest : list ascii) :
  is_count_type (count_type_str (faceProperty h)) = true ->
  0 <= n < 2 ^ (8 * Z.of_nat (type_size (count_type_str (faceProperty h)))) ->
  n <= INT_MAX ->
  binary_count h isSystemLittleEndian
    (file_bytes (plyFileIsLittleEndian h)
       (type_size (count_type_str (faceProperty h))) n ++ rest)
  = Ok (n, rest).
Proof.
  unfold binary_count, is_count_type.
  generalize (count_type_str (faceProperty h)) as t. intros t E.
  literal E; sizes; intros Hn Hi;
    cbn [String.eqb Ascii.eqb Bool.eqb orb];
    rewrite readBinary_unsigned_file_bytes;
    rewrite Z.mod_small by exact Hn;
    rewrite ?wrap_int_id by (unfold INT_MIN, INT_MAX in *; lia);
    reflexivity.
Qed.

Lemma flat_map_length_const {A B : Type} (f : A -> list B) (k : nat)
  (l : list A) :
  (forall a, List.length (f a) = k) ->
  List.length (flat_map f l) = (List.length l * k)%nat.
Proof.
  intros Hf. induction l as [|a l IH]; simpl; [reflexivity|].
  rewrite length_app, Hf, IH. lia.
Qed.

(** A binary face record is read whole: its triangles are appended, and
    the file is left at the byte after the record. *)
Lemma read_face_encode (h : Header) (i : Z) (indices : list Z)
  (rest : list ascii) (out : list Triangle) (convert : Z -> Z) :
  isASCII h = false ->
  is_count_type (count_type_str (faceProperty h)) = true ->
  index_conversion (list_item_type_str (faceProperty h)) = Some convert ->
  count_fits (faceProperty h) indices ->
  read_face h isSystemLittleEndian i
    (encode_face (plyFileIsLittleEndian h) (faceProperty h) indices ++ rest)
    out
  = Ok (out ++ decoded_face (faceProperty h) indices, rest).
Proof.
  intros Hb Hc Hi [Hf1 Hf2]. unfold read_face, encode_face. rewrite Hb.
  rewrite <- app_assoc, binary_count_file_bytes by (auto; lia).
  unfold face_record, decoded_face.
  destruct (index_type_sizes _ _ Hi) as [Hs Hp].
  destruct (Z.of_nat (List.length indices) <? 3) eqn:E3.
  - apply Z.ltb_lt in E3.
    assert ((List.length indices <? 3)%nat = true) as ->
        by (apply Nat.ltb_lt; lia).
    rewrite Nat2Z.id, skip_indices_binary by (auto; lia).
    rewrite Hs, app_nil_r.
    rewrite <- (flat_map_length_const
                  (file_bytes (plyFileIsLittleEndian h)
                     (type_size (list_item_type_str (faceProperty h))))
                  _ indices) by (intros; apply file_bytes_length).
    rewrite skipn_app, skipn_all, Nat.sub_diag. reflexivity.
  - apply Z.ltb_ge in E3.
    assert ((List.length indices <? 3)%nat = false) as ->
        by (apply Nat.ltb_ge; lia).
    rewrite Hb, Hi, Nat2Z.id, (binary_indices_encode h convert) by exact Hi.
    rewrite <- (length_map convert indices) at 1.
    rewrite push_triangles_fan by (rewrite length_map; lia).
    reflexivity.
Qed.

Lemma read_faces_encode (h : Header) (convert : Z -> Z)
  (fs : list (list Z)) :
  forall i rest out,
    isASCII h = false ->
    is_count_type (count_type_str (faceProperty h)) = true ->
    index_conversion (list_item_type_str (faceProperty h)) = Some convert ->
    Forall (count_fits (faceProperty h)) fs ->
    read_faces h isSystemLittleEndian (List.length fs) i
      (encode_faces (plyFileIsLittleEndian h) (faceProperty h) fs ++ rest) out
    = Ok (out ++ flat_map (decoded_face (faceProperty h)) fs, rest).
Proof.
  induction fs as [|f fs IH]; intros i rest out Hb Hc Hi Hf.
  - simpl. now rewrite app_nil_r.
  - inversion Hf as [|? ? H1 H2]; subst.
    cbn [List.length read_faces encode_faces flat_map].
    rewrite <- app_assoc, (read_face_encode h i f _ out convert) by assumption.
    fold (encode_faces (plyFileIsLittleEndian h) (faceProperty h) fs).
    rewrite IH by assumption. now rewrite <- app_assoc.
Qed.

End BinaryFaces.

Section ByteOrder.
Context {host : Host}.




(** C5: a face record with a count below 3 adds no triangle and raises no
    error.  In a binary file whose index type has a size that [readPLY]
    knows, the bytes of its indices are passed over and the file is left
    at the first byte after the record; in an ASCII file the line is
    dropped. *)
Theorem C5_degenerate_face :
  (forall h i n indices rest out,
      isASCII h = false ->
      is_count_type (count_type_str (faceProperty h)) = true ->
      0 <= n < 3 ->
      n = 0 \/ (0 < item_size (list_item_type_str (faceProperty h)))%nat ->
      List.length indices
      = (Z.to_nat n * item_size (list_item_type_str (faceProperty h)))%nat ->
      read_face h isSystemLittleEndian i
        (file_bytes (plyFileIsLittleEndian h)
           (type_size (count_type_str (faceProperty h))) n
         ++ indices ++ rest) out
      = Ok (out, rest))
  /\ (forall h sle i file line file' out,
         isASCII h = true ->
         getline file = Some (line, file') -> line <> [] ->
         snd (extract_int (istringstream_of line) 0) < 3 ->
         read_face h sle i file out = Ok (out, file')).
Proof.
  split.
  - intros h i n indices rest out Hb Hc Hn Hs Hl. unfold read_face.
    rewrite Hb.
    assert (2 ^ 8 <= 2 ^ (8 * Z.of_nat
                            (type_size (count_type_str (faceProperty h))))).
    { revert Hc. unfold is_count_type.
      generalize (count_type_str (faceProperty h)) as t. intros t E.
      repeat (apply orb_true_iff in E as [E|E]);
        apply String.eqb_eq in E; subst; vm_compute; discriminate. }
    rewrite binary_count_file_bytes
      by (auto; unfold INT_MAX; change (2 ^ 8) with 256 in *; lia).
    unfold face_record.
    assert ((n <? 3) = true) as -> by (apply Z.ltb_lt; lia).
    destruct Hs as [-> | Hs].
    + simpl in *. destruct indices; [reflexivity|discriminate].
    + rewrite skip_indices_binary by assumption.
      now rewrite (skipn_exact _ _ _ Hl).
  - intros h sle i file line file' out Ha Hg Hl Hn. unfold read_face.
    rewrite Ha, Hg. destruct line; [contradiction|]. cbn [is_empty andb].
    destruct (extract_int (istringstream_of (a :: line)) 0) as [iss n].
    simpl in Hn. unfold face_record.
    apply Z.ltb_lt in Hn. rewrite Hn.
    now rewrite skip_indices_ascii.
Qed.

Lemma signed_id (n : Z) : INT_MIN <= n <= INT_MAX -> signed 4 n = n.
Proof.
  unfold signed, INT_MIN, INT_MAX. intros Hn.
  change (2 ^ (8 * Z.of_nat 4)) with 4294967296.
  pose proof (Z.div_mod n 4294967296) as Hd.
  pose proof (Z.mod_pos_bound n 4294967296) as Hm.
  destruct (Z.ltb_spec (2 * (n mod 4294967296)) 4294967296); lia.
Qed.

Lemma map_signed_id (indices : list Z) :
  Forall (fun n => INT_MIN <= n <= INT_MAX) indices ->
  map (signed 4) indices = indices.
Proof.
  induction 1 as [|n l Hn Hl IH]; simpl; [reflexivity|].
  now rewrite signed_id, IH.
Qed.

Lemma skip_indices_vertexCount (h : Header) (vc : Z) (turns : nat) :
  forall file,
    skip_indices (with_vertexCount vc h) turns file = skip_indices h turns file.
Proof.
  induction turns as [|turns IH]; intros file; [reflexivity|].
  cbn [skip_indices]. rewrite !IH. reflexivity.
Qed.

Lemma binary_indices_vertexCount (h : Header) (sle : bool) (vc : Z)
  (turns : nat) :
  forall file,
    binary_indices (with_vertexCount vc h) sle turns file
    = binary_indices h sle turns file.
Proof.
  induction turns as [|turns IH]; intros file; [reflexivity|].
  cbn [binary_indices].
  change (binary_index (with_vertexCount vc h) sle file)
    with (binary_index h sle file).
  destruct (binary_index h sle file) as [[index file']|]; [|reflexivity].
  now rewrite IH.
Qed.

Lemma read_face_vertexCount (h : Header) (sle : bool) (i : Z)
  (file : list ascii) (out : list Triangle) (vc : Z) :
  read_face (with_vertexCount vc h) sle i file out
  = read_face h sle i file out.
Proof.
  assert (R : forall n line f,
             face_record (with_vertexCount vc h) sle i n line f out
             = face_record h sle i n line f out).
  { intros n line f. unfold face_record.
    rewrite skip_indices_vertexCount, binary_indices_vertexCount.
    reflexivity. }
  unfold read_face.
  change (isASCII (with_vertexCount vc h)) with (isASCII h).
  change (faceCount (with_vertexCount vc h)) with (faceCount h).
  change (binary_count (with_vertexCount vc h) sle file)
    with (binary_count h sle file).
  destruct (isASCII h).
  - destruct (getline file) as [[line file']|]; [|reflexivity].
    destruct (extract_int (istringstream_of line) 0).
    now rewrite R.
  - destruct (binary_count h sle file) as [[n file']|]; [|reflexivity].
    apply R.
Qed.

End ByteOrder.

(** C5 at a face of two [int] indices before the bytes of the next face. *)
Lemma C5_degenerate_face_witness :
  let next := file_bytes true 1 3 in
  @read_face Amd64.host (binary_header 0 2) true 0
    (file_bytes true 1 2 ++ repeat "001"%char 8 ++ next) []
  = Ok ([], next).
Proof.
  intros next.
  destruct (@C5_degenerate_face Amd64.host) as [H _].
  apply (H (binary_header 0 2) 0 2 (repeat "001"%char 8) next []).
  - reflexivity.
  - reflexivity.
  - lia.
  - right. vm_compute. lia.
  - reflexivity.
Defined.




(** ** Whole files through [main] *)

(** The scenario of the specification. *)
Example triangle_scenario :
  @convert Amd64.host
    (xyz_ascii "3" "1" ["0 0 0"; "1 0 0"; "0 1 0"; "3 0 1 2"])
  = Ok (cat ["# Converted from PLY to OBJ by PLYtoOBJ_Converter"; endl;
             "# Vertices: 3"; endl; "# Faces: 1"; endl; endl;
             "v 0 0 0"; endl; "v 1 0 0"; endl; "v 0 1 0"; endl; endl;
             "f 1 2 3"; endl]).
Proof. vm_compute. reflexivity. Qed.

Example quad_scenario :
  @convert Amd64.host (xyz_ascii "0" "1" ["4 0 1 2 3"])
  = Ok (cat ["# Converted from PLY to OBJ by PLYtoOBJ_Converter"; endl;
             "# Vertices: 0"; endl; "# Faces: 2"; endl; endl; endl;
             "f 1 2 3"; endl; "f 1 3 4"; endl]).
Proof. vm_compute. reflexivity. Qed.

(** An index far above the three vertices goes through to the OBJ text. *)
Example index_out_of_bounds :
  @convert Amd64.host
    (xyz_ascii "3" "1" ["0 0 0"; "1 0 0"; "0 1 0"; "3 0 1 99"])
  = Ok (cat ["# Converted from PLY to OBJ by PLYtoOBJ_Converter"; endl;
             "# Vertices: 3"; endl; "# Faces: 1"; endl; endl;
             "v 0 0 0"; endl; "v 1 0 0"; endl; "v 0 1 0"; endl; endl;
             "f 1 2 100"; endl]).
Proof. vm_compute. reflexivity. Qed.

(** A binary file with its text header, in both byte orders. *)
Example binary_files_agree :
  @convert Amd64.host (binary_file true)
  = @convert Amd64.host (binary_file false)
  /\ @convert Amd64.host (binary_file true)
     = Ok (cat ["# Converted from PLY to OBJ by PLYtoOBJ_Converter"; endl;
                "# Vertices: 2"; endl; "# Faces: 3"; endl;
                "# Has Vertex Colors (appended to 'v' lines as r g b)"; endl;
                endl;
                "v 1 0 -1 1 0 0"; endl;
                "v 0.5 3.14159 0 0.501961 0 0"; endl; endl;
                "f 1 2 2"; endl; "f 1 2 1"; endl; "f 1 1 2"; endl]).
Proof. split; vm_compute; reflexivity. Qed.

(** ** Printed integers, face records and whole files *)

Lemma take_digits_stop (rest : list ascii) (acc : Z) :
  ends_number rest -> take_digits rest acc = (acc, rest).
Proof.
  destruct rest as [|c rest]; simpl; [reflexivity|]. now intros ->.
Qed.

Lemma take_digits_uint_acc (d : Decimal.uint) (rest : list ascii) :
  forall acc,
    take_digits (chars (NilEmpty.string_of_uint d) ++ rest) (Zpos acc)
    = take_digits rest (Zpos (Pos.of_uint_acc d acc)).
Proof.
  induction d; intros acc; [reflexivity|..];
    cbn [NilEmpty.string_of_uint chars list_ascii_of_string app take_digits
         Pos.of_uint_acc];
    match goal with
    | |- context [digit_of ?c] =>
        let v := eval vm_compute in (digit_of c) in
        change (digit_of c) with v
    end; cbn iota; fold (chars (NilEmpty.string_of_uint d));
    rewrite <- IHd; f_equal; lia.
Qed.

Lemma take_digits_uint (d : Decimal.uint) (rest : list ascii) :
  take_digits (chars (NilEmpty.string_of_uint d) ++ rest) 0
  = take_digits rest (Z.of_N (Pos.of_uint d)).
Proof.
  induction d; [reflexivity|..];
    cbn [NilEmpty.string_of_uint chars list_ascii_of_string app take_digits
         Pos.of_uint];
    match goal with
    | |- context [digit_of ?c] =>
        let v := eval vm_compute in (digit_of c) in
        change (digit_of c) with v
    end; cbn iota; fold (chars (NilEmpty.string_of_uint d));
    [exact IHd|..];
    match goal with
    | |- take_digits _ ?a = _ =>
        let v := eval vm_compute in a in change a with v
    end; apply take_digits_uint_acc.
Qed.
Lemma uint_chars (d : Decimal.uint) :
  Forall (fun c => digit_of c <> None /\ isspace c = false
                   /\ Ascii.eqb c newline = false)
    (chars (NilEmpty.string_of_uint d)).
Proof.
  induction d; simpl; constructor; try assumption;
    (split; [discriminate|split; reflexivity]).
Qed.

Lemma to_uint_chars (p : positive) :
  exists c tl,
    chars (NilEmpty.string_of_uint (Pos.to_uint p)) = c :: tl
    /\ digit_of c <> None.
Proof.
  pose proof (uint_chars (Pos.to_uint p)) as F.
  pose proof (DecimalPos.Unsigned.to_uint_nonnil p) as N.
  destruct (Pos.to_uint p); [contradiction|..]; simpl in *;
    inversion F as [|? ? [H _] _]; eauto.
Qed.

Lemma show_int_pos (p : positive) :
  show_int (Zpos p) = NilEmpty.string_of_uint (Pos.to_uint p).
Proof.
  unfold show_int. cbn [Z.to_int NilZero.string_of_int].
  unfold NilZero.string_of_uint.
  pose proof (DecimalPos.Unsigned.to_uint_nonnil p) as N.
  destruct (Pos.to_uint p); [contradiction|..]; reflexivity.
Qed.

Lemma show_int_neg (p : positive) :
  show_int (Zneg p)
  = String "-" (NilEmpty.string_of_uint (Pos.to_uint p)).
Proof.
  unfold show_int. cbn [Z.to_int NilZero.string_of_int].
  unfold NilZero.string_of_uint.
  pose proof (DecimalPos.Unsigned.to_uint_nonnil p) as N.
  destruct (Pos.to_uint p); [contradiction|..]; reflexivity.
Qed.

(** The characters of a printed integer: no white space, no newline. *)
Lemma show_int_chars (n : Z) :
  Forall (fun c => isspace c = false /\ Ascii.eqb c newline = false)
    (chars (show_int n))
  /\ chars (show_int n) <> [].
Proof.
  destruct n as [|p|p].
  - split; [repeat constructor|discriminate].
  - rewrite show_int_pos. split.
    + eapply Forall_impl; [|apply uint_chars]. cbv beta. tauto.
    + destruct (to_uint_chars p) as (c & tl & -> & _). discriminate.
  - rewrite show_int_neg. split; [|discriminate].
    constructor; [split; reflexivity|].
    eapply Forall_impl; [|apply uint_chars]. cbv beta. tauto.
Qed.

(** Reading back a printed integer. *)
Lemma scan_integer_show_int (n : Z) (rest : list ascii) :
  ends_number rest ->
  scan_integer (chars (show_int n) ++ rest) = Scanned n rest.
Proof.
  intros Hr.
  assert (P : forall p,
             take_digits
               (chars (NilEmpty.string_of_uint (Pos.to_uint p)) ++ rest) 0
             = (Zpos p, rest)).
  { intros p. rewrite take_digits_uint, DecimalPos.Unsigned.of_to.
    now apply take_digits_stop. }
  destruct n as [|p|p].
  - cbn. now rewrite take_digits_stop.
  - rewrite show_int_pos. specialize (P p).
    destruct (to_uint_chars p) as (c & tl & E & Hd). rewrite E in *.
    unfold scan_integer. cbn [app].
    assert (Ascii.eqb c "-" = false) as ->.
    { destruct (Ascii.eqb_spec c "-"%char); [subst; now elim Hd|reflexivity]. }
    assert (Ascii.eqb c "+" = false) as ->.
    { destruct (Ascii.eqb_spec c "+"%char); [subst; now elim Hd|reflexivity]. }
    destruct (digit_of c); [|contradiction]. cbn [app] in P. now rewrite P.
  - rewrite show_int_neg. specialize (P p).
    destruct (to_uint_chars p) as (c & tl & E & Hd).
    change (chars (String "-" (NilEmpty.string_of_uint (Pos.to_uint p))))
      with ("-"%char :: chars (NilEmpty.string_of_uint (Pos.to_uint p))).
    rewrite E in *. unfold scan_integer. cbn [app] in *.
    change (Ascii.eqb "-" "-") with true. cbn iota.
    destruct (digit_of c); [|contradiction]. now rewrite P.
Qed.

Lemma skipws_show_int (n : Z) (rest : list ascii) :
  skipws (chars (show_int n) ++ rest) = chars (show_int n) ++ rest.
Proof.
  destruct (show_int_chars n) as [F N].
  destruct (chars (show_int n)) as [|c tl]; [contradiction|].
  inversion F as [|? ? [Hs _] _]. cbn [app skipws]. now rewrite Hs.
Qed.

Lemma extract_int_show_int (n : Z) (rest : list ascii) (v : Z) :
  INT_MIN <= n <= INT_MAX -> ends_number rest ->
  extract_int
    {| buf := chars (show_int n) ++ rest; failbit := false |} v
  = ({| buf := rest; failbit := false |}, n).
Proof.
  intros Hn Hr. unfold extract_int, extract_integer. cbn [failbit buf].
  rewrite skipws_show_int.
  destruct (show_int_chars n) as [_ N].
  destruct (chars (show_int n) ++ rest) as [|c tl] eqn:E.
  { destruct (chars (show_int n)); [contradiction|discriminate]. }
  rewrite <- E, scan_integer_show_int by exact Hr.
  destruct (Z.ltb_spec n INT_MIN); [lia|].
  destruct (Z.ltb_spec INT_MAX n); [lia|reflexivity].
Qed.

Lemma extract_int_space_show_int (n : Z) (rest : list ascii) (v : Z) :
  INT_MIN <= n <= INT_MAX -> ends_number rest ->
  extract_int
    {| buf := " "%char :: chars (show_int n) ++ rest; failbit := false |} v
  = ({| buf := rest; failbit := false |}, n).
Proof.
  intros Hn Hr. rewrite <- (extract_int_show_int n rest v Hn Hr).
  unfold extract_int, extract_integer. cbn [failbit buf skipws].
  change (isspace " ") with true. cbn iota. reflexivity.
Qed.

Lemma take_line_line (line file : list ascii) :
  has_newline line = false ->
  take_line (line ++ newline :: file) = (line, file).
Proof.
  induction line as [|c line IH]; simpl.
  - reflexivity.
  - intros H. apply orb_false_iff in H as [Hc Hl].
    rewrite Hc, IH by exact Hl. reflexivity.
Qed.

Lemma getline_line (line file : list ascii) :
  has_newline line = false ->
  getline (line ++ newline :: file) = Some (line, file).
Proof.
  intros H. unfold getline. rewrite take_line_line by exact H.
  destruct line; reflexivity.
Qed.

Lemma has_newline_app (a b : list ascii) :
  has_newline (a ++ b) = has_newline a || has_newline b.
Proof. apply existsb_app. Qed.

Lemma has_newline_show_int (n : Z) : has_newline (chars (show_int n)) = false.
Proof.
  destruct (show_int_chars n) as [F _]. unfold has_newline.
  induction F as [|c l [_ Hc] _ IH]; [reflexivity|]. simpl.
  now rewrite Hc, IH.
Qed.

Lemma ascii_face_line_shape (indices : list Z) :
  has_newline (ascii_face_line indices) = false
  /\ ascii_face_line indices <> [].
Proof.
  unfold ascii_face_line. split.
  - rewrite has_newline_app, has_newline_show_int. cbn [orb].
    induction indices as [|n l IH]; [reflexivity|].
    cbn [flat_map app]. change (has_newline (" "%char :: ?l))
      with (has_newline l).
    cbn [has_newline existsb]. change (Ascii.eqb " " newline) with false.
    cbn [orb]. fold (has_newline (chars (show_int n) ++ flat_map
      (fun n => " "%char :: chars (show_int n)) l)).
    now rewrite has_newline_app, has_newline_show_int, IH.
  - destruct (show_int_chars (Z.of_nat (List.length indices))) as [_ N].
    destruct (chars (show_int (Z.of_nat (List.length indices))));
      [contradiction|discriminate].
Qed.

Lemma ends_number_indices (indices : list Z) :
  ends_number (flat_map (fun n => " "%char :: chars (show_int n)) indices).
Proof. destruct indices; simpl; reflexivity. Qed.

(** The index loop reads the printed indices of a line back. *)
Lemma ascii_indices_line (indices : list Z) :
  forall i j,
    Forall (fun n => INT_MIN <= n <= INT_MAX) indices ->
    ascii_indices i (List.length indices) j
      {| buf := flat_map (fun n => " "%char :: chars (show_int n)) indices;
         failbit := false |}
    = Ok indices.
Proof.
  induction indices as [|n l IH]; intros i j F; [reflexivity|].
  inversion F as [|? ? Hn Hl]; subst.
  cbn [List.length ascii_indices flat_map app].
  rewrite extract_int_space_show_int
    by (auto using ends_number_indices).
  cbn [failbit]. now rewrite IH.
Qed.

Section FaceRecords.
Context {host : Host}.

Lemma read_face_ascii_line (h : Header) (sle : bool) (i : Z)
  (indices : list Z) (rest : list ascii) (out : list Triangle) :
  isASCII h = true ->
  Z.of_nat (List.length indices) <= INT_MAX ->
  Forall (fun n => INT_MIN <= n <= INT_MAX) indices ->
  read_face h sle i (ascii_face_line indices ++ newline :: rest) out
  = Ok (out ++ face_triangles indices, rest).
Proof.
  intros Ha Hc Hr. unfold read_face. rewrite Ha.
  destruct (ascii_face_line_shape indices) as [Hn He].
  rewrite getline_line by exact Hn.
  destruct (ascii_face_line indices) as [|c line] eqn:El; [contradiction|].
  cbn [is_empty andb]. rewrite <- El. clear c line El He Hn.
  assert (E : extract_int (istringstream_of (ascii_face_line indices)) 0
              = ({| buf := flat_map (fun n => " "%char :: chars (show_int n))
                             indices;
                    failbit := false |},
                 Z.of_nat (List.length indices))).
  { apply extract_int_show_int;
      [unfold INT_MIN; lia|apply ends_number_indices]. }
  rewrite E. unfold face_record, face_triangles. rewrite Ha, E.
  destruct (Nat.ltb_spec (List.length indices) 3) as [L|L].
  - assert ((Z.of_nat (List.length indices) <? 3) = true) as ->
        by (apply Z.ltb_lt; lia).
    rewrite skip_indices_ascii by exact Ha. now rewrite app_nil_r.
  - assert ((Z.of_nat (List.length indices) <? 3) = false) as ->
        by (apply Z.ltb_ge; lia).
    rewrite Nat2Z.id, ascii_indices_line by exact Hr.
    now rewrite push_triangles_fan.
Qed.

Lemma read_faces_ascii_lines (h : Header) (sle : bool)
  (fs : list (list Z)) :
  forall i rest out,
    isASCII h = true ->
    Forall (face_fits h) fs ->
    read_faces h sle (List.length fs) i
      (lines_text [newline] (map ascii_face_line fs) ++ rest) out
    = Ok (out ++ flat_map face_triangles fs, rest).
Proof.
  induction fs as [|f fs IH]; intros i rest out Ha F.
  - simpl. now rewrite app_nil_r.
  - inversion F as [|? ? Hf Hfs]; subst. unfold face_fits in Hf.
    rewrite Ha in Hf. destruct Hf as [Hc Hr].
    cbn [List.length read_faces map lines_text flat_map].
    rewrite <- !app_assoc. cbn [app].
    rewrite read_face_ascii_line by assumption.
    fold (lines_text [newline] (map ascii_face_line fs)).
    rewrite IH by assumption. now rewrite <- app_assoc.
Qed.

Lemma signed_2_id (n : Z) : - 2 ^ 15 <= n < 2 ^ 15 -> signed 2 n = n.
Proof.
  unfold signed. change (2 ^ (8 * Z.of_nat 2)) with 65536.
  change (2 ^ 15) with 32768. intros Hn.
  pose proof (Z.div_mod n 65536) as Hd.
  pose proof (Z.mod_pos_bound n 65536) as Hm.
  destruct (Z.ltb_spec (2 * (n mod 65536)) 65536); lia.
Qed.

(** A binary face whose indices are in the range of the index type keeps
    them through the conversion to [int]. *)
Lemma decoded_face_range (fp : PlyProperty) (indices : list Z) :
  index_conversion (list_item_type_str fp) <> None ->
  Forall (index_range (list_item_type_str fp)) indices ->
  decoded_face fp indices = face_triangles indices.
Proof.
  intros Hi F. unfold decoded_face, face_triangles.
  destruct (List.length indices <? 3)%nat; [reflexivity|].
  destruct (index_conversion (list_item_type_str fp)) as [convert|] eqn:E;
    [clear Hi|contradiction].
  f_equal. rewrite <- (map_id indices) at 2. apply map_ext_in.
  intros n Hn. rewrite Forall_forall in F. specialize (F n Hn).
  revert E F. unfold index_conversion, index_range.
  generalize (list_item_type_str fp) as t. intros t.
  destruct ((t == "int") || (t == "int32")).
  { intros [= <-] R. now apply signed_id. }
  destruct ((t == "uint") || (t == "uint32")).
  { intros [= <-] R. unfold INT_MAX in R.
    rewrite Z.mod_small by (change (2 ^ 32) with 4294967296; lia).
    apply wrap_int_id. unfold INT_MIN, INT_MAX. lia. }
  destruct ((t == "short") || (t == "int16")).
  { intros [= <-] R. now apply signed_2_id. }
  destruct ((t == "ushort") || (t == "uint16")).
  { intros [= <-] R. now apply Z.mod_small. }
  destruct ((t == "uchar") || (t == "uint8")); [|discriminate].
  intros [= <-] R. now apply Z.mod_small.
Qed.

(** The face loop on the face records of a file, ASCII or binary. *)
Lemma read_faces_records (h : Header) (fs : list (list Z))
  (rest : list ascii) :
  Forall (face_fits h) fs ->
  read_faces h isSystemLittleEndian (List.length fs) 0
    (face_records h fs ++ rest) []
  = Ok (flat_map face_triangles fs, rest).
Proof.
  intros F. unfold face_records. destruct (isASCII h) eqn:Ha.
  - now rewrite read_faces_ascii_lines.
  - destruct fs as [|f fs]; [reflexivity|].
    assert (G : Forall (fun f =>
                  is_count_type (count_type_str (faceProperty h)) = true
                  /\ index_conversion (list_item_type_str (faceProperty h))
                     <> None
                  /\ count_fits (faceProperty h) f
                  /\ Forall (index_range
                               (list_item_type_str (faceProperty h))) f)
                  (f :: fs)).
    { eapply Forall_impl; [|exact F]. unfold face_fits. now rewrite Ha. }
    inversion G as [|? ? (Hc & Hi & _) _]; subst.
    destruct (index_conversion (list_item_type_str (faceProperty h)))
      as [convert|] eqn:Ei; [|contradiction].
    rewrite (read_faces_encode h convert (f :: fs) 0 rest [] Ha Hc Ei).
    + cbn [app]. f_equal. f_equal.
      clear F Hc. induction G as [|g gs (_ & _ & _ & Hr) _ IH];
        [reflexivity|].
      cbn [flat_map]. rewrite IH. f_equal.
      apply decoded_face_range; [now rewrite Ei|exact Hr].
    + eapply Forall_impl; [|exact G]. cbv beta. tauto.
Qed.

(** From the loops to [readPLY] and [main]. *)
Lemma read_payload_after (h : Header) (data file : list ascii)
  (vs : list (Vertex float)) :
  resize_vertices (vertexCount h) = None ->
  read_vertices h isSystemLittleEndian (Z.to_nat (vertexCount h)) 0 data
    (repeat Vertex_default (Z.to_nat (vertexCount h)))
  = Ok (vs, file) ->
  read_payload h data = after_vertices h vs file.
Proof. intros Hx Hv. unfold read_payload. now rewrite Hx, Hv. Qed.

Lemma read_payload_vertex_error (h : Header) (data : list ascii)
  (e : error) :
  resize_vertices (vertexCount h) = None ->
  read_vertices h isSystemLittleEndian (Z.to_nat (vertexCount h)) 0 data
    (repeat Vertex_default (Z.to_nat (vertexCount h)))
  = Err e ->
  read_payload h data = Err e.
Proof. intros Hx Hv. unfold read_payload. now rewrite Hx, Hv. Qed.

Lemma after_vertices_faces (h : Header) (vs : list (Vertex float))
  (file : list ascii) :
  reserve_triangles (faceCount h) = None ->
  after_vertices h vs file
  = (' (ts, _) <-
       read_faces h isSystemLittleEndian (Z.to_nat (faceCount h)) 0 file [] ;;
     Ok (finished_mesh h vs ts)).
Proof.
  intros Hx. unfold after_vertices. now rewrite raise_flags_or, Hx.
Qed.

Lemma vectors_fit_both (h : Header) :
  vectors_fit h ->
  resize_vertices (vertexCount h) = None
  /\ reserve_triangles (faceCount h) = None.
Proof.
  unfold vectors_fit, allocation_error.
  destruct (resize_vertices (vertexCount h)); [discriminate|]. auto.
Qed.

Lemma readPLY_of_payload (file data : list ascii) (h : Header) :
  read_header file = Ok (h, data) -> readPLY file = read_payload h data.
Proof. intros E. unfold readPLY. now rewrite E. Qed.

Lemma convert_of_readPLY (file : list ascii) :
  convert file
  = match readPLY file with
    | Ok mesh => Ok (obj_of mesh)
    | Err e => Err e
    end.
Proof. reflexivity. Qed.

(** A failing turn of a loop ends the loop with its error. *)
Lemma read_vertices_error_at (h : Header) (sle : bool) (a n : nat)
  (file file1 : list ascii) (out out1 : list (Vertex float)) (e : error) :
  (a < n)%nat ->
  read_vertices h sle a 0 file out = Ok (out1, file1) ->
  read_vertex h sle (Z.of_nat a) file1 out1 = Err e ->
  read_vertices h sle n 0 file out = Err e.
Proof.
  intros Hn Ha He. replace n with (a + S (n - S a))%nat by lia.
  rewrite read_vertices_app, Ha. cbn [read_vertices Z.add].
  now rewrite He.
Qed.

Lemma read_faces_error_at (h : Header) (sle : bool) (a n : nat)
  (file file1 : list ascii) (out out1 : list Triangle) (e : error) :
  (a < n)%nat ->
  read_faces h sle a 0 file out = Ok (out1, file1) ->
  read_face h sle (Z.of_nat a) file1 out1 = Err e ->
  read_faces h sle n 0 file out = Err e.
Proof.
  intros Hn Ha He. replace n with (a + S (n - S a))%nat by lia.
  rewrite read_faces_app, Ha. cbn [read_faces Z.add].
  now rewrite He.
Qed.

End FaceRecords.

(** ** Claims about whole conversions *)

Section WholeFiles.
Context {host : Host}.

(** The vertex loop of an ASCII file decodes every line that is not
    empty, whatever its tokens are. *)
Lemma read_vertices_ascii_lines (h : Header) (sle : bool)
  (lines : list (list ascii)) :
  forall done todo rest,
    isASCII h = true ->
    Forall (fun l => l <> [] /\ has_newline l = false) lines ->
    List.length todo = List.length lines ->
    read_vertices h sle (List.length lines) (Z.of_nat (List.length done))
      (lines_text [newline] lines ++ rest) (done ++ todo)
    = Ok (done ++ map (ascii_vertex h) lines, rest).
Proof.
  induction lines as [|l lines IH]; intros done todo rest Ha F Ht.
  - destruct todo; [|discriminate]. reflexivity.
  - destruct todo as [|d todo]; [discriminate|].
    inversion F as [|? ? [Hl Hn] Hls]; subst.
    cbn [List.length read_vertices lines_text flat_map map].
    rewrite <- !app_assoc. cbn [app].
    rewrite (read_vertex_ascii h sle _ _ l _ _ Ha (getline_line l _ Hn) Hl).
    rewrite Nat2Z.id, assign_app.
    replace (Z.of_nat (List.length done) + 1)
      with (Z.of_nat (List.length (done ++ [ascii_vertex h l])))
      by (rewrite length_app; simpl; lia).
    change (done ++ ?a :: todo) with (done ++ [a] ++ todo).
    rewrite app_assoc. fold (lines_text [newline] lines).
    rewrite IH by (simpl in Ht; auto; lia).
    now rewrite <- app_assoc.
Qed.

Lemma skip_ints_failed (k : nat) :
  forall iss, failbit iss = true -> failbit (skip_ints k iss) = true.
Proof.
  induction k as [|k IH]; intros iss Hf; [exact Hf|].
  cbn [skip_ints]. apply IH.
  unfold extract_int, extract_integer. now rewrite Hf.
Qed.

(** The index loop ends with the error of the first index that cannot be
    extracted. *)
Lemma ascii_indices_fails (i : Z) (k : nat) :
  forall turns j iss,
    (k < turns)%nat ->
    failbit (skip_ints k iss) = false ->
    failbit (skip_ints (S k) iss) = true ->
    ascii_indices i turns j iss = Err (bad_ascii_index i (j + Z.of_nat k)).
Proof.
  induction k as [|k IH]; intros turns j iss Hk H0 H1;
    (destruct turns as [|turns]; [lia|]); cbn [ascii_indices].
  - cbn [skip_ints] in H1.
    destruct (extract_int iss 0) as [iss' index]. cbn [fst] in H1.
    rewrite H1. now rewrite Z.add_0_r.
  - change (skip_ints (S k) iss)
      with (skip_ints k (fst (extract_int iss 0))) in H0.
    change (skip_ints (S (S k)) iss)
      with (skip_ints (S k) (fst (extract_int iss 0))) in H1.
    destruct (extract_int iss 0) as [iss' index]. cbn [fst] in H0, H1.
    destruct (failbit iss') eqn:Hf.
    + now rewrite (skip_ints_failed k iss' Hf) in H0.
    + rewrite (IH turns (j + 1) iss') by (auto; lia).
      do 2 f_equal. lia.
Qed.

Lemma extract_int_fails (iss : istringstream) (v : Z) :
  failbit iss = false ->
  failbit (fst (extract_int iss v)) = true <-> cannot_extract iss.
Proof.
  intros Hf. unfold extract_int, extract_integer, cannot_extract.
  rewrite Hf. destruct (skipws (buf iss)) as [|c s]; [simpl; tauto|].
  destruct (scan_integer (c :: s)) as [|n r]; [simpl; tauto|].
  destruct (Z.ltb_spec n INT_MIN); [simpl; tauto|].
  destruct (Z.ltb_spec INT_MAX n); simpl; [tauto|].
  split; [discriminate|lia].
Qed.

(** C3, amended: a token of a vertex record is an error exactly when the
    conversion of its property throws, [stof] for a float type and [stoi]
    for a byte type; the token of a property of any other type is not
    converted, and a byte that [stoi] accepts is reduced modulo 256
    whatever its value.  A token that throws leaves the vertex as if the
    property had not been declared, and the other properties of the record
    are decoded as without it; no vertex line of an ASCII file that is
    not empty ends the conversion, whatever its tokens: [readPLY] goes on
    with the faces, and a file without faces is converted.  A vertex index of an ASCII face
    with three or more indices that cannot be extracted (the line ends, no
    number follows, or the number is outside [int]) ends [readPLY] and
    [main] with the error of the index loop. *)
Theorem C3_vertex_token_errors_are_local :
  (forall values props1 p props2 c,
      0 <= index_in_line p < Z.of_nat (List.length values) ->
      unparseable p (nth (Z.to_nat (index_in_line p)) values "") ->
      ascii_property values c p = c
      /\ ascii_properties values (props1 ++ p :: props2) c
         = ascii_properties values (props1 ++ props2) c)
  /\ (forall file h lines rest,
         read_header file = Ok (h, lines_text [newline] lines ++ rest) ->
         isASCII h = true ->
         vertexCount h = Z.of_nat (List.length lines) ->
         resize_vertices (vertexCount h) = None ->
         Forall (fun l => l <> [] /\ has_newline l = false) lines ->
         readPLY file = after_vertices h (map (ascii_vertex h) lines) rest
         /\ (faceCount h = 0 -> reserve_triangles (faceCount h) = None ->
             convert file
             = Ok (obj_of
                     (finished_mesh h (map (ascii_vertex h) lines) []))))
  /\ (forall file h data vs fdata (a : nat) ts file_a line rest (j : nat),
         read_header file = Ok (h, data) ->
         isASCII h = true ->
         vectors_fit h ->
         read_vertices h isSystemLittleEndian (Z.to_nat (vertexCount h)) 0
           data (repeat Vertex_default (Z.to_nat (vertexCount h)))
         = Ok (vs, fdata) ->
         read_faces h isSystemLittleEndian a 0 fdata [] = Ok (ts, file_a) ->
         Z.of_nat a < faceCount h ->
         getline file_a = Some (line, rest) -> line <> [] ->
         3 <= snd (extract_int (istringstream_of line) 0) ->
         Z.of_nat j < snd (extract_int (istringstream_of line) 0) ->
         failbit
           (skip_ints j (fst (extract_int (istringstream_of line) 0)))
         = false ->
         failbit
           (skip_ints (S j) (fst (extract_int (istringstream_of line) 0)))
         = true ->
         readPLY file = Err (bad_ascii_index (Z.of_nat a) (Z.of_nat j))
         /\ convert file = Err (bad_ascii_index (Z.of_nat a) (Z.of_nat j)))
  /\ (forall iss v,
         failbit iss = false ->
         failbit (fst (extract_int iss v)) = true <-> cannot_extract iss)
  /\ (forall p tok,
         unparseable p tok
         <-> parse_value p tok = invalid_argument
             \/ parse_value p tok = out_of_range)
  /\ (forall p tok,
         is_float_type (type_str p) = false ->
         is_byte_type (type_str p) = false ->
         parse_value p tok = sto_value (float_zero, 0))
  /\ (forall p tok n,
         is_float_type (type_str p) = false ->
         is_byte_type (type_str p) = true ->
         stoi tok = sto_value n ->
         parse_value p tok = sto_value (float_zero, n mod 256)).
Proof.
  split; [|split; [|split; [|split; [|split; [|split]]]]].
  - intros values props1 p props2 c Hi Hu. split.
    + now apply ascii_property_skipped.
    + unfold ascii_properties. rewrite !fold_left_app. cbn [fold_left].
      now rewrite ascii_property_skipped.
  - intros file h lines rest Hh Ha Hc Hx F.
    assert (R : readPLY file
                = after_vertices h (map (ascii_vertex h) lines) rest).
    { rewrite (readPLY_of_payload _ _ _ Hh).
      apply read_payload_after; [exact Hx|].
      rewrite Hc, Nat2Z.id.
      apply (read_vertices_ascii_lines h _ lines []
               (repeat Vertex_default (List.length lines)) rest Ha F).
      apply repeat_length. }
    split; [exact R|]. intros Hf Ht.
    rewrite convert_of_readPLY, R, after_vertices_faces by exact Ht.
    rewrite Hf. reflexivity.
  - intros file h data vs fdata a ts file_a line rest j
           Hh Ha Hfit Hv Hf Hlt Hg Hl Hn Hj H0 H1.
    destruct (vectors_fit_both h Hfit) as [Hrv Hrt].
    assert (E : read_face h isSystemLittleEndian (Z.of_nat a) file_a ts
                = Err (bad_ascii_index (Z.of_nat a) (Z.of_nat j))).
    { unfold read_face. rewrite Ha, Hg.
      destruct line as [|c line]; [contradiction|]. cbn [is_empty andb].
      destruct (extract_int (istringstream_of (c :: line)) 0)
        as [iss n] eqn:Ex.
      cbn [fst snd] in *. unfold face_record.
      assert ((n <? 3) = false) as -> by (apply Z.ltb_ge; lia).
      rewrite Ha, Ex.
      rewrite (ascii_indices_fails _ j (Z.to_nat n) 0 iss) by (auto; lia).
      reflexivity. }
    assert (R : readPLY file
                = Err (bad_ascii_index (Z.of_nat a) (Z.of_nat j))).
    { rewrite (readPLY_of_payload _ _ _ Hh).
      rewrite (read_payload_after h data fdata vs) by assumption.
      rewrite after_vertices_faces by assumption.
      rewrite (read_faces_error_at h _ a (Z.to_nat (faceCount h))
                 fdata file_a [] ts _ ltac:(lia) Hf E).
      reflexivity. }
    split; [exact R|]. now rewrite convert_of_readPLY, R.
  - apply extract_int_fails.
  - intros p tok. split; [apply unparseable_throws|].
    unfold unparseable, parse_value.
    destruct (is_float_type (type_str p)).
    + destruct (stof tok); intros [H|H]; try discriminate; auto.
    + destruct (is_byte_type (type_str p)).
      * destruct (stoi tok); intros [H|H]; try discriminate; auto.
      * intros [H|H]; discriminate.
  - intros p tok Hf Hb. unfold parse_value. now rewrite Hf, Hb.
  - intros p tok n Hf Hb Hs. unfold parse_value. now rewrite Hf, Hb, Hs.
Qed.

(** C9: no index is compared with the number of vertices.  For a file,
    ASCII or binary, whose vertex records are read and whose face records
    hold any indices of the index type, [readPLY] succeeds with the fan
    triangles over the indices as they are, and [main] writes an [f] line
    for each of them; the references of an [f] line are index + 1; reading
    a face does not depend on the vertex count. *)
Theorem C9_indices_not_validated :
  (forall file h data vs fs trailer,
      read_header file = Ok (h, data) ->
      vectors_fit h ->
      read_vertices h isSystemLittleEndian (Z.to_nat (vertexCount h)) 0
        data (repeat Vertex_default (Z.to_nat (vertexCount h)))
      = Ok (vs, face_records h fs ++ trailer) ->
      faceCount h = Z.of_nat (List.length fs) ->
      Forall (face_fits h) fs ->
      let m := finished_mesh h vs (flat_map face_triangles fs) in
      readPLY file = Ok m
      /\ convert file
         = Ok (String.append
                 (obj_before_faces vs (List.length (triangles m))
                    (has_normals m) (has_colors m) (has_texCoords m))
                 (cat (map (f_line (has_normals m) (has_texCoords m))
                         (flat_map face_triangles fs)))))
  /\ (forall hn ht v,
         INT_MIN <= v < INT_MAX ->
         exists tail,
           reference hn ht v
           = String.append " " (String.append (show_int (v + 1)) tail))
  /\ (forall h sle i file out vc,
         read_face (with_vertexCount vc h) sle i file out
         = read_face h sle i file out).
Proof.
  split; [|split].
  - intros file h data vs fs trailer Hh Hfit Hv Hc Hf m.
    destruct (vectors_fit_both h Hfit) as [Hrv Hrt].
    assert (R : readPLY file = Ok m).
    { rewrite (readPLY_of_payload _ _ _ Hh).
      rewrite (read_payload_after h data (face_records h fs ++ trailer) vs)
        by assumption.
      rewrite after_vertices_faces by assumption.
      rewrite Hc, Nat2Z.id, read_faces_records by exact Hf.
      reflexivity. }
    split; [exact R|].
    rewrite convert_of_readPLY, R. unfold obj_of.
    rewrite writeOBJ_layout. subst m.
    cbn [vertices triangles has_normals has_colors has_texCoords
         finished_mesh].
    unfold obj_before_faces, cat. cbn [fold_right].
    destruct (file_has_normals h || existsb has_normal vs),
             (file_has_texCoords h || existsb has_texCoord vs);
      repeat rewrite append_assoc; repeat rewrite append_nil_r; reflexivity.
  - intros hn ht v Hv. unfold reference.
    rewrite wrap_int_id by (unfold INT_MIN, INT_MAX in *; lia).
    destruct hn, ht; eexists; unfold cat; cbn [fold_right]; reflexivity.
  - intros. apply read_face_vertexCount.
Qed.

(** C10: in an ASCII file an empty line where vertex (or face) [i] is
    expected is an error of its loop when [i] is before the last declared
    record, and then [readPLY] and [main] end with that error; at the last
    record the line is passed over: the vertex keeps the all-zero default
    without flags, the face adds no triangle, [readPLY] goes on and
    [main] writes the OBJ text. *)
Theorem C10_empty_line :
  (forall h sle i file file' out,
      isASCII h = true -> getline file = Some ([], file') ->
      (i < vertexCount h - 1 ->
       read_vertex h sle i file out = Err (vertex_empty_line i))
      /\ (vertexCount h - 1 <= i ->
          read_vertex h sle i file out = Ok (out, file')))
  /\ (forall h sle i file file' out,
         isASCII h = true -> getline file = Some ([], file') ->
         (i < faceCount h - 1 ->
          read_face h sle i file out = Err (face_empty_line i))
         /\ (faceCount h - 1 <= i ->
             read_face h sle i file out = Ok (out, file')))
  /\ (forall file h data (a : nat) out1 file1 file2,
         read_header file = Ok (h, data) ->
         isASCII h = true ->
         resize_vertices (vertexCount h) = None ->
         read_vertices h isSystemLittleEndian a 0 data
           (repeat Vertex_default (Z.to_nat (vertexCount h)))
         = Ok (out1, file1) ->
         getline file1 = Some ([], file2) ->
         (Z.of_nat a < vertexCount h - 1 ->
          readPLY file = Err (vertex_empty_line (Z.of_nat a))
          /\ convert file = Err (vertex_empty_line (Z.of_nat a)))
         /\ (Z.of_nat a = vertexCount h - 1 ->
             readPLY file = after_vertices h out1 file2
             /\ List.length out1 = S a
             /\ nth a out1 Vertex_default = Vertex_default
             /\ (faceCount h = 0 -> reserve_triangles (faceCount h) = None ->
                 convert file = Ok (obj_of (finished_mesh h out1 [])))))
  /\ (forall file h data vs fdata (a : nat) ts file1 file2,
         read_header file = Ok (h, data) ->
         isASCII h = true ->
         vectors_fit h ->
         read_vertices h isSystemLittleEndian (Z.to_nat (vertexCount h)) 0
           data (repeat Vertex_default (Z.to_nat (vertexCount h)))
         = Ok (vs, fdata) ->
         read_faces h isSystemLittleEndian a 0 fdata [] = Ok (ts, file1) ->
         getline file1 = Some ([], file2) ->
         (Z.of_nat a < faceCount h - 1 ->
          readPLY file = Err (face_empty_line (Z.of_nat a))
          /\ convert file = Err (face_empty_line (Z.of_nat a)))
         /\ (Z.of_nat a = faceCount h - 1 ->
             readPLY file = Ok (finished_mesh h vs ts)
             /\ convert file = Ok (obj_of (finished_mesh h vs ts)))).
Proof.
  destruct empty_line_turns as (V & F & V1 & V2 & F1 & F2).
  split; [exact V|]. split; [exact F|]. split.
  - intros file h data a out1 file1 file2 Hh Ha Hm Hv Hg. split.
    + intros Hlt.
      assert (R : readPLY file = Err (vertex_empty_line (Z.of_nat a))).
      { rewrite (readPLY_of_payload _ _ _ Hh).
        apply read_payload_vertex_error; [exact Hm|].
        replace (Z.to_nat (vertexCount h))
          with (a + S (Z.to_nat (vertexCount h) - S a))%nat at 1 by lia.
        now apply (V1 h _ a _ data file1 file2 _ out1). }
      split; [exact R|]. now rewrite convert_of_readPLY, R.
    + intros He.
      assert (Hc : vertexCount h = Z.of_nat (S a)) by lia.
      assert (Hn : Z.to_nat (vertexCount h) = S a) by lia.
      rewrite Hn in Hv.
      destruct (V2 h _ a data file1 file2 out1 Ha Hc Hv Hg)
        as (Hr & Hl & Hd).
      assert (R : readPLY file = after_vertices h out1 file2).
      { rewrite (readPLY_of_payload _ _ _ Hh).
        apply read_payload_after; [exact Hm|].
        now rewrite Hn. }
      split; [exact R|]. split; [exact Hl|]. split; [exact Hd|].
      intros Hf Ht.
      rewrite convert_of_readPLY, R, after_vertices_faces by exact Ht.
      rewrite Hf. reflexivity.
  - intros file h data vs fdata a ts file1 file2 Hh Ha Hfit Hv Hf Hg.
    destruct (vectors_fit_both h Hfit) as [Hrv Hrt].
    assert (P : readPLY file
                = (' (ts', _) <-
                     read_faces h isSystemLittleEndian
                       (Z.to_nat (faceCount h)) 0 fdata [] ;;
                   Ok (finished_mesh h vs ts'))).
    { rewrite (readPLY_of_payload _ _ _ Hh).
      rewrite (read_payload_after h data fdata vs) by assumption.
      now rewrite after_vertices_faces by assumption. }
    split.
    + intros Hlt.
      assert (R : readPLY file = Err (face_empty_line (Z.of_nat a))).
      { rewrite P.
        replace (Z.to_nat (faceCount h))
          with (a + S (Z.to_nat (faceCount h) - S a))%nat by lia.
        now rewrite (F1 h _ a _ fdata file1 file2 [] ts Ha Hf Hg Hlt). }
      split; [exact R|]. now rewrite convert_of_readPLY, R.
    + intros He.
      assert (Hc : faceCount h = Z.of_nat (S a)) by lia.
      assert (R : readPLY file = Ok (finished_mesh h vs ts)).
      { rewrite P. replace (Z.to_nat (faceCount h)) with (S a) by lia.
        now rewrite (F2 h _ a fdata file1 file2 [] ts Ha Hc Hf Hg). }
      split; [exact R|]. now rewrite convert_of_readPLY, R.
Qed.

End WholeFiles.

(** C3 at the line [1 abc 3] with three float properties, and at a face
    line whose third index is [x]. *)
Lemma C3_vertex_token_errors_are_local_witness :
  let p name i :=
    {| name := name; type_str := "float"; is_list := false;
       count_type_str := ""; list_item_type_str := ""; index_in_line := i |} in
  let file := xyz_ascii "3" "1" ["0 0 0"; "1 0 0"; "0 1 0"; "3 0 1 x"] in
  @ascii_properties Amd64.host ["1"; "abc"; "3"]
    ([p "x" 0] ++ p "y" 1 :: [p "z" 2]) Vertex_default
  = @ascii_properties Amd64.host ["1"; "abc"; "3"]
      ([p "x" 0] ++ [p "z" 2]) Vertex_default
  /\ @readPLY Amd64.host file = Err (bad_ascii_index 0 2).
Proof.
  intros p file.
  destruct (@C3_vertex_token_errors_are_local Amd64.host)
    as (H1 & _ & H3 & _).
  split.
  - apply (H1 ["1"; "abc"; "3"] [p "x" 0] (p "y" 1) [p "z" 2]
             Vertex_default).
    + simpl. lia.
    + left. split; [reflexivity|left; reflexivity].
  - refine (proj1 (H3 file (@header_of Amd64.host file)
                     (@payload_of Amd64.host file) _
                     (text ["3 0 1 x"]) 0%nat [] (text ["3 0 1 x"])
                     (chars "3 0 1 x") [] 2%nat _ _ _ _ _ _ _ _ _ _ _ _)).
    + vm_compute. reflexivity.
    + reflexivity.
    + vm_compute. reflexivity.
    + vm_compute. reflexivity.
    + reflexivity.
    + vm_compute. reflexivity.
    + reflexivity.
    + discriminate.
    + vm_compute. discriminate.
    + vm_compute. reflexivity.
    + vm_compute. reflexivity.
    + vm_compute. reflexivity.
Defined.

(** C9 at a triangle whose third index is 99 in a file of three
    vertices. *)
Lemma C9_indices_not_validated_witness :
  exists vs,
    @readPLY Amd64.host index_99_file
    = Ok (finished_mesh (@header_of Amd64.host index_99_file) vs
            [{| v0 := 0; v1 := 1; v2 := 99 |}]).
Proof.
  destruct (@C9_indices_not_validated Amd64.host) as [H _].
  eexists.
  refine (proj1 (H index_99_file (@header_of Amd64.host index_99_file)
                   (@payload_of Amd64.host index_99_file) _
                   [[0; 1; 99]] [] _ _ _ _ _)).
  - vm_compute. reflexivity.
  - vm_compute. reflexivity.
  - vm_compute. reflexivity.
  - reflexivity.
  - repeat constructor; vm_compute; discriminate.
Defined.

(** C10 at a file of two vertices whose first line is empty. *)
Lemma C10_empty_line_witness :
  @convert Amd64.host (xyz_ascii "2" "0" [""; "0 0 0"])
  = Err (vertex_empty_line 0).
Proof.
  destruct (@C10_empty_line Amd64.host) as (_ & _ & H & _).
  pose (file := xyz_ascii "2" "0" [""; "0 0 0"]).
  destruct (H file (@header_of Amd64.host file)
              (@payload_of Amd64.host file) 0%nat
              (repeat Vertex_default 2) (@payload_of Amd64.host file)
              (text ["0 0 0"])) as [Hb _].
  - vm_compute. reflexivity.
  - reflexivity.
  - vm_compute. reflexivity.
  - reflexivity.
  - vm_compute. reflexivity.
  - apply Hb. vm_compute. reflexivity.
Defined.

(** * Further properties of the code *)

(** ** Reading binary values *)

Section BinaryReads.
Context {host : Host}.

Lemma byte_value_bound (c : ascii) : 0 <= byte_value c < 256.
Proof.
  unfold byte_value. pose proof (N_ascii_bounded c). lia.
Qed.

Lemma le_combine_bound (l : list ascii) :
  0 <= le_combine l < 2 ^ (8 * Z.of_nat (List.length l)).
Proof.
  induction l as [|c l IH].
  - simpl. lia.
  - cbn [le_combine List.length].
    replace (8 * Z.of_nat (S (List.length l)))
      with (8 + 8 * Z.of_nat (List.length l)) by lia.
    rewrite Z.pow_add_r by lia. change (2 ^ 8) with 256.
    pose proof (byte_value_bound c). nia.
Qed.

Lemma unsigned_of_object_bound (object : list ascii) :
  0 <= unsigned_of_object object < 2 ^ (8 * Z.of_nat (List.length object)).
Proof.
  unfold unsigned_of_object. destruct host_little_endian.
  - apply le_combine_bound.
  - rewrite <- (length_rev object). apply le_combine_bound.
Qed.

Lemma readBinary_Some (size : nat) (file : list ascii) (fLE sLE : bool) :
  (size <= List.length file)%nat ->
  exists object,
    readBinary size file fLE sLE = Some (object, skipn size file)
    /\ List.length object = size.
Proof.
  intros H. unfold readBinary.
  assert ((List.length file <? size)%nat = false) as ->
      by (apply Nat.ltb_ge; lia).
  eexists. split; [reflexivity|]. unfold swapBytes.
  destruct (negb (Bool.eqb fLE sLE)); rewrite ?length_rev, length_firstn; lia.
Qed.

Lemma readBinary_None (size : nat) (file : list ascii) (fLE sLE : bool) :
  (List.length file < size)%nat -> readBinary size file fLE sLE = None.
Proof.
  intros H. unfold readBinary.
  assert ((List.length file <? size)%nat = true) as ->
      by (apply Nat.ltb_lt; lia).
  reflexivity.
Qed.

(** X1: a read of an unsigned value fails exactly when fewer than [size]
    bytes are left; otherwise it moves the file forward by [size] bytes
    and its value is below [2 ^ (8 * size)] and not negative. *)
Theorem readBinary_unsigned_exact :
  forall (size : nat) (file : list ascii) (fLE sLE : bool),
    match readBinary_unsigned size file fLE sLE with
    | None => (List.length file < size)%nat
    | Some (n, rest) =>
        (size <= List.length file)%nat
        /\ rest = skipn size file
        /\ List.length rest = (List.length file - size)%nat
        /\ 0 <= n < 2 ^ (8 * Z.of_nat size)
    end.
Proof.
  intros size file fLE sLE. unfold readBinary_unsigned.
  destruct (Nat.lt_ge_cases (List.length file) size) as [H|H].
  - now rewrite (readBinary_None _ _ _ _ H).
  - destruct (readBinary_Some size file fLE sLE H) as (o & -> & L).
    split; [exact H|]. split; [reflexivity|].
    split; [apply length_skipn|].
    rewrite <- L. apply unsigned_of_object_bound.
Qed.

(** X2: the bytes of a value written in the other byte order are read to
    the same object: reading reverses them when, and only when, the byte
    order of the file is not the one passed for the system. *)
Theorem readBinary_other_order :
  forall (size : nat) (bytes rest : list ascii) (fLE sLE : bool),
    List.length bytes = size ->
    readBinary size (rev bytes ++ rest) (negb fLE) sLE
    = readBinary size (bytes ++ rest) fLE sLE
    /\ readBinary size (bytes ++ rest) fLE sLE
       = Some (if Bool.eqb fLE sLE then bytes else rev bytes, rest).
Proof.
  intros size bytes rest fLE sLE L.
  assert (Lr : List.length (rev bytes) = size) by now rewrite length_rev.
  unfold readBinary, swapBytes.
  rewrite (firstn_exact _ _ _ L), (skipn_exact _ _ _ L).
  rewrite (firstn_exact _ _ _ Lr), (skipn_exact _ _ _ Lr).
  rewrite !length_app, Lr, L.
  assert ((size + List.length rest <? size)%nat = false) as ->
      by (apply Nat.ltb_ge; lia).
  destruct fLE, sLE; cbn [negb Bool.eqb]; rewrite ?rev_involutive; auto.
Qed.

(** X3: [isSystemLittleEndian] tells the byte order of the host: the
    first byte of the object that holds the [uint32_t] 1 is 1 on a
    little-endian host and 0 on a big-endian one. *)
Theorem isSystemLittleEndian_detects :
  isSystemLittleEndian = host_little_endian
  /\ unsigned_of_object (object_of_unsigned 4 1) = 1
  /\ map byte_value (object_of_unsigned 4 1)
     = (if host_little_endian then [1; 0; 0; 0] else [0; 0; 0; 1]).
Proof.
  unfold isSystemLittleEndian, unsigned_of_object, object_of_unsigned.
  destruct host_little_endian; repeat split; reflexivity.
Qed.

(** X4: a colour component is one byte whatever the two byte orders are:
    the read fails only at the end of the file, takes exactly the next
    byte [c] and gives [c / 255.0f] with [c] between 0 and 255. *)
Theorem readBinaryColorComponent_byte :
  forall (fLE sLE : bool),
    readBinaryColorComponent [] fLE sLE = None
    /\ forall (c : ascii) (rest : list ascii),
         readBinaryColorComponent (c :: rest) fLE sLE
         = Some (uchar_over_255 (byte_value c), rest)
         /\ 0 <= byte_value c <= 255.
Proof.
  intros fLE sLE. split; [reflexivity|]. intros c rest.
  pose proof (byte_value_bound c). split; [|lia].
  unfold readBinaryColorComponent, readBinary_unsigned, readBinary, swapBytes.
  cbn [List.length Nat.ltb Nat.leb firstn skipn rev app].
  assert (unsigned_of_object [c] = byte_value c) as E.
  { unfold unsigned_of_object. destruct host_little_endian; simpl; lia. }
  destruct (negb (Bool.eqb fLE sLE)); now rewrite E.
Qed.

Lemma signed_in_range (size : nat) (n : Z) :
  (0 < size)%nat ->
  - 2 ^ (8 * Z.of_nat size - 1) <= n < 2 ^ (8 * Z.of_nat size - 1) ->
  signed size n = n.
Proof.
  intros Hs Hn. unfold signed.
  set (m := 2 ^ (8 * Z.of_nat size)).
  assert (Hm : m = 2 * 2 ^ (8 * Z.of_nat size - 1)).
  { unfold m. rewrite <- Z.pow_succ_r by lia. f_equal. lia. }
  assert (0 < 2 ^ (8 * Z.of_nat size - 1)) by (apply Z.pow_pos_nonneg; lia).
  destruct (Z.le_gt_cases 0 n) as [Hp|Hp].
  - rewrite Z.mod_small by lia.
    destruct (Z.ltb_spec (2 * n) m); lia.
  - assert (E : n mod m = n + m).
    { rewrite <- (Z.mod_add n 1 m) by lia. rewrite Z.mul_1_l.
      apply Z.mod_small. lia. }
    rewrite E. destruct (Z.ltb_spec (2 * (n + m)) m); lia.
Qed.

(** X5: a value written in the file's byte order with [size] bytes is
    read back unchanged, as an unsigned value when it is below
    [2 ^ (8 * size)] and as a signed value when it fits [8 * size] bits in
    two's complement, and the file is left after its bytes. *)
Theorem readBinary_round_trip :
  forall (little : bool) (size : nat) (n : Z) (rest : list ascii),
    (0 <= n < 2 ^ (8 * Z.of_nat size) ->
     readBinary_unsigned size (file_bytes little size n ++ rest) little
       isSystemLittleEndian = Some (n, rest))
    /\ ((0 < size)%nat ->
        - 2 ^ (8 * Z.of_nat size - 1) <= n < 2 ^ (8 * Z.of_nat size - 1) ->
        readBinary_signed size (file_bytes little size n ++ rest) little
          isSystemLittleEndian = Some (n, rest)).
Proof.
  intros little size n rest. split.
  - intros Hn. rewrite readBinary_unsigned_file_bytes.
    now rewrite Z.mod_small.
  - intros Hs Hn. rewrite readBinary_signed_file_bytes.
    now rewrite signed_in_range.
Qed.

End BinaryReads.

(** X2 at the four bytes 1 2 3 4. *)
Lemma readBinary_other_order_witness :
  let b n := ascii_of_N n in
  readBinary 4 ([b 4; b 3; b 2; b 1] ++ [b 9])%N false true
  = readBinary 4 ([b 1; b 2; b 3; b 4] ++ [b 9])%N true true.
Proof.
  intros b.
  destruct (readBinary_other_order 4 [b 1; b 2; b 3; b 4]%N [b 9%N]
              true true eq_refl) as [H _].
  exact H.
Defined.

(** X5 at the [int] -2 and the [ushort] 515 of a big-endian file. *)
Lemma readBinary_round_trip_witness :
  @readBinary_signed Amd64.host 4
    (file_bytes false 4 (-2) ++ []) false (@isSystemLittleEndian Amd64.host)
  = Some (-2, [])
  /\ @readBinary_unsigned Amd64.host 2
       (file_bytes false 2 515 ++ []) false (@isSystemLittleEndian Amd64.host)
     = Some (515, []).
Proof.
  split.
  - destruct (@readBinary_round_trip Amd64.host false 4 (-2) []) as [_ H].
    apply H; [lia|split; [vm_compute; discriminate|reflexivity]].
  - destruct (@readBinary_round_trip Amd64.host false 2 515 []) as [H _].
    apply H. split; [vm_compute; discriminate|reflexivity].
Defined.

(** ** The header *)

Section HeaderProperties.
Context {host : Host}.

Lemma header_line_effect (h : Header) (line : list ascii) :
  header_effect h (header_line h line).
Proof.
  unfold header_line.
  destruct (is_empty (strip_cr line)
            || starts_with (chars "comment") (strip_cr line));
    [constructor|].
  destruct (extract_string (istringstream_of (strip_cr line)) "")
    as [iss token].
  destruct (token == "ply"); [constructor|].
  destruct (token == "format").
  { destruct (extract_string iss "") as [iss1 format_str].
    destruct (extract_string iss1 "") as [iss2 version_str].
    destruct (format_str == "ascii"); [constructor|].
    destruct (format_str == "binary_little_endian"); [constructor|].
    destruct (format_str == "binary_big_endian"); constructor. }
  destruct (token == "element").
  { destruct (extract_string iss (currentElement h)) as [iss1 elem].
    destruct (elem == "vertex").
    - destruct (extract_long iss1 (vertexCount h)). constructor.
    - destruct (elem == "face"); [|constructor].
      destruct (extract_long iss1 (faceCount h)). constructor. }
  destruct (token == "property").
  { destruct (extract_string iss "") as [iss1 type_or_list].
    match goal with
    | |- context [add_vertex_property ?p h] => generalize p
    end.
    intros prop.
    destruct (currentElement h == "vertex"); [constructor|].
    destruct (currentElement h == "face"); [|constructor].
    destruct ((name prop == "vertex_indices") || (name prop == "vertex_index"))
      eqn:E; now constructor. }
  destruct (token == "end_header"); constructor.
Qed.

(** An invariant of the header variables holds after [read_header] when it
    holds at the start and every effect of a line keeps it. *)
Lemma read_header_invariant (P : Header -> Prop) :
  P Header_initial ->
  (forall h step, P h -> header_effect h step ->
                  match step with
                  | Continue h' | Break h' => P h'
                  | ReturnFalse _ => True
                  end) ->
  forall file h rest, read_header file = Ok (h, rest) -> P h.
Proof.
  intros H0 Hstep file h rest. unfold read_header.
  assert (L : forall ls h0 h1 r,
             P h0 -> header_loop h0 ls = Ok (h1, r) -> P h1).
  { induction ls as [|[line r0] ls IH]; intros h0 h1 r Hp; simpl.
    - now intros [= <- _].
    - pose proof (Hstep h0 _ Hp (header_line_effect h0 line)) as Hs.
      destruct (header_line h0 line); eauto.
      + now intros [= <- _].
      + discriminate. }
  destruct (header_loop Header_initial (getlines file)) as [[h1 r1]|] eqn:E;
    [|discriminate].
  apply L in E; [|exact H0].
  destruct (negb (headerEnd h1)); [discriminate|].
  destruct ((0 <? faceCount h1) && negb (facePropertyDefined h1));
    [discriminate|].
  now intros [= <- _].
Qed.

(** X6: when a header declares faces (a positive count), [read_header]
    succeeds only with a face property found, and that property is named
    [vertex_indices] or [vertex_index]; nothing asks that it is a list. *)
Theorem read_header_face_property :
  forall file h rest,
    read_header file = Ok (h, rest) ->
    0 < faceCount h ->
    facePropertyDefined h = true
    /\ (name (faceProperty h) = "vertex_indices"
        \/ name (faceProperty h) = "vertex_index").
Proof.
  intros file h rest E Hf.
  assert (D : facePropertyDefined h = true).
  { revert E. unfold read_header.
    destruct (header_loop Header_initial (getlines file)) as [[h1 r1]|];
      [|discriminate].
    destruct (negb (headerEnd h1)); [discriminate|].
    destruct ((0 <? faceCount h1) && negb (facePropertyDefined h1)) eqn:B;
      [discriminate|].
    intros [= <- _]. apply Z.ltb_lt in Hf. rewrite Hf in B.
    simpl in B. now destruct (facePropertyDefined h1). }
  split; [exact D|].
  revert D.
  apply (read_header_invariant
           (fun h => facePropertyDefined h = true ->
                     name (faceProperty h) = "vertex_indices"
                     \/ name (faceProperty h) = "vertex_index"))
    with (file := file) (rest := rest); [discriminate| |exact E].
  intros h0 step Hp He. destruct He; auto.
  intros _. cbn [set_faceProperty faceProperty].
  apply orb_true_iff in H as [H|H]; apply String.eqb_eq in H; auto.
Qed.

(** X7: after [read_header] of a header with at most [INT_MAX] vertex
    properties (beyond which the [int] counter overflows), the property at
    position [k] of the vertex properties has a column index between 0 and
    [k]; so every index is below the number of properties and none is
    negative. *)
Theorem read_header_column_indices :
  forall file h rest,
    read_header file = Ok (h, rest) ->
    Z.of_nat (List.length (vertexProperties h)) <= INT_MAX ->
    forall k p,
      nth_error (vertexProperties h) k = Some p ->
      0 <= index_in_line p <= Z.of_nat k
      /\ index_in_line p < Z.of_nat (List.length (vertexProperties h)).
Proof.
  intros file h rest E Hmax.
  assert (I : Z.of_nat (List.length (vertexProperties h)) <= INT_MAX ->
              0 <= currentPropertyIndexASCII h
                <= Z.of_nat (List.length (vertexProperties h))
              /\ forall k p,
                   nth_error (vertexProperties h) k = Some p ->
                   0 <= index_in_line p <= Z.of_nat k).
  { apply (read_header_invariant
             (fun h => Z.of_nat (List.length (vertexProperties h)) <= INT_MAX ->
                       0 <= currentPropertyIndexASCII h
                         <= Z.of_nat (List.length (vertexProperties h))
                       /\ forall k p,
                            nth_error (vertexProperties h) k = Some p ->
                            0 <= index_in_line p <= Z.of_nat k))
      with (file := file) (rest := rest); [| |exact E].
    - intros _. split; [simpl; lia|]. intros [|k] p; discriminate.
    - intros h0 step Hi He. destruct He; auto.
      + intros Hn. destruct (Hi Hn) as [Hc Hp].
        split; [simpl; lia|exact Hp].
      + cbn [add_vertex_property currentPropertyIndexASCII vertexProperties].
        rewrite length_app. cbn [List.length]. intros Hn.
        destruct Hi as [Hc Hp]; [lia|].
        rewrite wrap_int_id by (unfold INT_MIN, INT_MAX in *; lia).
        split; [lia|].
        intros k p Hk.
        destruct (Nat.lt_ge_cases k (List.length (vertexProperties h0)))
          as [Hl|Hl].
        * rewrite nth_error_app1 in Hk by exact Hl. eauto.
        * rewrite nth_error_app2 in Hk by exact Hl.
          destruct (k - List.length (vertexProperties h0))%nat as [|d] eqn:Ed;
            [|destruct d; discriminate].
          injection Hk as <-. simpl. lia. }
  destruct (I Hmax) as [_ J]. intros k p Hk. split; [now apply J|].
  pose proof (J k p Hk).
  assert (k < List.length (vertexProperties h))%nat
    by (apply nth_error_Some; congruence).
  lia.
Qed.

End HeaderProperties.

(** X6 at the header of the triangle scenario. *)
Lemma read_header_face_property_witness :
  name (faceProperty
          (@header_of Amd64.host (xyz_ascii "3" "1" []))) = "vertex_indices"
  \/ name (faceProperty
             (@header_of Amd64.host (xyz_ascii "3" "1" []))) = "vertex_index".
Proof.
  apply (@read_header_face_property Amd64.host (xyz_ascii "3" "1" [])
           _ []); [vm_compute; reflexivity|vm_compute; reflexivity].
Defined.

(** X7 at the third property of that header. *)
Lemma read_header_column_indices_witness :
  let p :=
    {| name := "z"; type_str := "float"; is_list := false;
       count_type_str := ""; list_item_type_str := ""; index_in_line := 2 |} in
  0 <= index_in_line p <= 2 /\ index_in_line p < 3.
Proof.
  intros p.
  apply (@read_header_column_indices Amd64.host (xyz_ascii "3" "1" [])
           (@header_of Amd64.host (xyz_ascii "3" "1" [])) []
           ltac:(vm_compute; reflexivity) ltac:(vm_compute; discriminate)
           2%nat p).
  vm_compute. reflexivity.
Defined.

Section HeaderText.
Context {host : Host}.

Lemma getlines_line (line file : list ascii) :
  has_newline line = false ->
  getlines (line ++ newline :: file) = (line, file) :: getlines file.
Proof.
  intros H. rewrite getlines_getline. unfold getline.
  rewrite take_line_line by exact H.
  destruct line; reflexivity.
Qed.

(** The header loop stops at a line exactly when it is an [end_header]
    line. *)
Lemma header_line_break (h : Header) (line : list ascii) :
  match header_line h line with
  | Break h' => is_end_header line = true /\ h' = set_headerEnd h
  | _ => is_end_header line = false
  end.
Proof.
  unfold header_line, is_end_header, is_skipped, first_token.
  destruct (is_empty (strip_cr line)
            || starts_with (chars "comment") (strip_cr line));
    [reflexivity|].
  destruct (extract_string (istringstream_of (strip_cr line)) "")
    as [iss token].
  cbn [negb andb snd].
  destruct (token == "ply") eqn:E1;
    [apply String.eqb_eq in E1; now subst|].
  destruct (token == "format") eqn:E2.
  { apply String.eqb_eq in E2. subst.
    destruct (extract_string iss "") as [iss1 format_str].
    destruct (extract_string iss1 "") as [iss2 version_str].
    destruct (format_str == "ascii"); [reflexivity|].
    destruct (format_str == "binary_little_endian"); [reflexivity|].
    destruct (format_str == "binary_big_endian"); reflexivity. }
  destruct (token == "element") eqn:E3.
  { apply String.eqb_eq in E3. subst.
    destruct (extract_string iss (currentElement h)) as [iss1 elem].
    destruct (elem == "vertex").
    - destruct (extract_long iss1 (vertexCount h)). reflexivity.
    - destruct (elem == "face"); [|reflexivity].
      destruct (extract_long iss1 (faceCount h)). reflexivity. }
  destruct (token == "property") eqn:E4.
  { apply String.eqb_eq in E4. subst.
    destruct (extract_string iss "") as [iss1 type_or_list].
    match goal with
    | |- context [add_vertex_property ?p h] => generalize p
    end.
    intros prop.
    destruct (currentElement h == "vertex"); [reflexivity|].
    destruct (currentElement h == "face"); [|reflexivity].
    destruct ((name prop == "vertex_indices") || (name prop == "vertex_index"));
      reflexivity. }
  destruct (token == "end_header"); auto.
Qed.

Lemma header_line_skipped (h : Header) (line : list ascii) :
  is_skipped line = true -> header_line h line = Continue h.
Proof. unfold is_skipped, header_line. now intros ->. Qed.

Lemma header_line_strip_cr (h : Header) (l1 l2 : list ascii) :
  strip_cr l1 = strip_cr l2 -> header_line h l1 = header_line h l2.
Proof. unfold header_line. now intros ->. Qed.

Lemma strip_cr_added (line : list ascii) :
  strip_cr (line ++ [carriage_return]) = line.
Proof.
  unfold strip_cr. rewrite rev_app_distr. simpl. apply rev_involutive.
Qed.

Lemma header_loop_found (ls : list (list ascii * list ascii)) :
  forall h h' rest,
    header_loop h ls = Ok (h', rest) ->
    headerEnd h = false -> headerEnd h' = true ->
    exists before line after,
      ls = before ++ (line, rest) :: after
      /\ is_end_header line = true
      /\ Forall (fun lr => is_end_header (fst lr) = false) before.
Proof.
  induction ls as [|[line r] ls IH]; intros h h' rest; simpl.
  - intros [= <- _] H0 H1. congruence.
  - pose proof (header_line_break h line) as Hb.
    pose proof (header_line_effect h line) as He.
    destruct (header_line h line) as [h1|h1|e] eqn:El.
    + intros E H0 H1.
      assert (headerEnd h1 = false) as H0'.
      { inversion He; subst; exact H0. }
      destruct (IH _ _ _ E H0' H1) as (before & l & after & -> & Hl & Hf).
      exists ((line, r) :: before), l, after. repeat split; auto.
    + intros [= <- <-] _ _. destruct Hb as [Hb _].
      exists [], line, ls. repeat split; auto.
    + discriminate.
Qed.

(** X8: [read_header] succeeds only on a file with an [end_header] line,
    and the data it hands on are exactly what follows the first such line
    (a line that is not a comment and whose first word is
    [end_header]). *)
Theorem read_header_stops_at_end_header :
  forall file h rest,
    read_header file = Ok (h, rest) ->
    exists before line after,
      getlines file = before ++ (line, rest) :: after
      /\ is_end_header line = true
      /\ Forall (fun lr => is_end_header (fst lr) = false) before.
Proof.
  intros file h rest. unfold read_header.
  destruct (header_loop Header_initial (getlines file)) as [[h1 r1]|] eqn:E;
    [|discriminate].
  destruct (headerEnd h1) eqn:H1; [|discriminate]. cbn [negb].
  destruct ((0 <? faceCount h1) && negb (facePropertyDefined h1));
    [discriminate|].
  intros [= <- <-].
  exact (header_loop_found _ _ _ _ E eq_refl H1).
Qed.

Lemma header_loop_skip_line (pre : list (list ascii))
  (c file : list ascii) :
  Forall header_text_line pre ->
  has_newline c = false -> is_skipped c = true ->
  forall h,
    header_loop h (getlines (lines_text [newline] pre ++ c ++ newline :: file))
    = header_loop h (getlines (lines_text [newline] pre ++ file)).
Proof.
  intros Hpre Hc Hs. induction Hpre as [|l pre [Hn He] _ IH]; intros h.
  - cbn [lines_text flat_map app]. rewrite getlines_line by exact Hc.
    cbn [header_loop]. now rewrite header_line_skipped.
  - cbn [lines_text flat_map]. rewrite <- !app_assoc. cbn [app].
    rewrite !getlines_line by exact Hn. cbn [header_loop].
    pose proof (header_line_break h l) as Hb.
    destruct (header_line h l) as [h1|h1|e]; [apply IH| |reflexivity].
    destruct Hb as [Hb _]. congruence.
Qed.

(** X9: a comment line or an empty line put anywhere before the
    [end_header] line changes nothing: the header and the data that
    [read_header] returns are the same with it and without it. *)
Theorem read_header_ignores_comment :
  forall (pre : list (list ascii)) (c file : list ascii),
    Forall header_text_line pre ->
    has_newline c = false -> is_skipped c = true ->
    read_header (lines_text [newline] pre ++ c ++ newline :: file)
    = read_header (lines_text [newline] pre ++ file).
Proof.
  intros pre c file Hpre Hc Hs. unfold read_header.
  now rewrite header_loop_skip_line.
Qed.

Lemma header_loop_crlf (hs : list (list ascii)) (data : list ascii) :
  Forall (fun l => header_text_line l /\ strip_cr l = l) hs ->
  forall h,
    header_loop h
      (getlines (lines_text [carriage_return; newline]
                   (hs ++ [chars "end_header"]) ++ data))
    = header_loop h
        (getlines (lines_text [newline] (hs ++ [chars "end_header"]) ++ data)).
Proof.
  intros Hhs.
  assert (HnE : has_newline (chars "end_header") = false) by reflexivity.
  assert (HeE : is_end_header (chars "end_header") = true) by reflexivity.
  assert (HcE : strip_cr (chars "end_header") = chars "end_header")
    by reflexivity.
  generalize dependent (chars "end_header"). intros E HnE HeE HcE.
  induction Hhs as [|l hs [[Hn He] Hc] _ IH]; intros h.
  - cbn [lines_text flat_map app]. rewrite !app_nil_r, <- !app_assoc.
    change ([carriage_return; newline] ++ data)
      with ([carriage_return] ++ newline :: data).
    rewrite app_assoc. cbn [app].
    rewrite !getlines_line
      by (unfold has_newline in *; rewrite ?existsb_app, ?HnE; reflexivity).
    cbn [header_loop].
    rewrite (header_line_strip_cr h (E ++ [carriage_return]) E)
      by (now rewrite strip_cr_added, HcE).
    pose proof (header_line_break h E) as Hb.
    destruct (header_line h E) as [h1|h1|e]; congruence.
  - cbn [lines_text flat_map app]. rewrite <- !app_assoc. cbn [app].
    change (l ++ carriage_return :: newline :: ?r)
      with (l ++ [carriage_return] ++ newline :: r).
    rewrite app_assoc.
    rewrite !getlines_line
      by (unfold has_newline in *; rewrite ?existsb_app, ?Hn; reflexivity).
    cbn [header_loop].
    rewrite (header_line_strip_cr h (l ++ [carriage_return]) l)
      by (now rewrite strip_cr_added, Hc).
    pose proof (header_line_break h l) as Hb.
    destruct (header_line h l) as [h1|h1|e]; [apply IH| |reflexivity].
    destruct Hb as [Hb _]. congruence.
Qed.

(** X10: a header whose lines end with carriage return and line feed is
    read as the same header with line feeds only, and the data after the
    [end_header] line are handed on unchanged. *)
Theorem read_header_crlf :
  forall (hs : list (list ascii)) (data : list ascii),
    Forall (fun l => header_text_line l /\ strip_cr l = l) hs ->
    read_header (lines_text [carriage_return; newline]
                   (hs ++ [chars "end_header"]) ++ data)
    = read_header (lines_text [newline] (hs ++ [chars "end_header"]) ++ data).
Proof.
  intros hs data Hhs. unfold read_header. now rewrite header_loop_crlf.
Qed.

End HeaderText.

(** X8 at the triangle scenario. *)
Lemma read_header_stops_at_end_header_witness :
  exists before line after,
    getlines (xyz_ascii "3" "1" ["0 0 0"; "1 0 0"; "0 1 0"; "3 0 1 2"])
    = before
        ++ (line, text ["0 0 0"; "1 0 0"; "0 1 0"; "3 0 1 2"]) :: after
    /\ is_end_header line = true
    /\ Forall (fun lr => is_end_header (fst lr) = false) before.
Proof.
  apply (@read_header_stops_at_end_header Amd64.host
           (xyz_ascii "3" "1" ["0 0 0"; "1 0 0"; "0 1 0"; "3 0 1 2"])
           (@header_of Amd64.host (xyz_ascii "3" "1" []))).
  vm_compute. reflexivity.
Defined.

(** X9 at a comment after the format line. *)
Lemma read_header_ignores_comment_witness :
  @read_header Amd64.host
    (lines_text [newline] (map chars ["ply"; "format ascii 1.0"])
     ++ chars "comment made by hand" ++ newline :: text ["end_header"; "1"])
  = @read_header Amd64.host
      (lines_text [newline] (map chars ["ply"; "format ascii 1.0"])
       ++ text ["end_header"; "1"]).
Proof.
  apply (@read_header_ignores_comment Amd64.host).
  - repeat constructor.
  - reflexivity.
  - reflexivity.
Defined.

(** X10 at the header of the triangle scenario before binary data. *)
Lemma read_header_crlf_witness :
  @read_header Amd64.host
    (lines_text [carriage_return; newline]
       (xyz_header_lines ++ [chars "end_header"]) ++ file_bytes true 4 7)
  = @read_header Amd64.host
      (lines_text [newline] (xyz_header_lines ++ [chars "end_header"])
       ++ file_bytes true 4 7).
Proof.
  apply (@read_header_crlf Amd64.host).
  repeat constructor.
Defined.

(** ** Vertices *)

Section VertexProperties.
Context {host : Host}.

Lemma assign_Forall {A : Type} (P : A -> Prop) (l : list A) :
  forall i a, Forall P l -> P a -> Forall P (assign l i a).
Proof.
  induction l as [|b l IH]; intros [|i] a Hl Ha; simpl; auto;
    inversion Hl; subst; constructor; auto.
Qed.

(** A property of every vertex that is decoded holds of all the vertices
    after the loop. *)
Lemma read_vertices_Forall (P : Vertex float -> Prop) (h : Header)
  (sle : bool) :
  (forall line, P (ascii_vertex h line)) ->
  (forall file c file',
      binary_properties h sle (vertexProperties h) Vertex_default file
      = Ok (c, file') -> P c) ->
  forall turns i file out out' file',
    Forall P out ->
    read_vertices h sle turns i file out = Ok (out', file') ->
    Forall P out'.
Proof.
  intros Ha Hb. induction turns as [|turns IH];
    intros i file out out' file' Ho; simpl.
  - now intros [= <- _].
  - destruct (read_vertex h sle i file out) as [[out1 file1]|] eqn:E;
      [|discriminate].
    apply IH. revert E. unfold read_vertex. destruct (isASCII h).
    + destruct (getline file) as [[line f1]|]; [|discriminate].
      destruct (is_empty line && (i <? vertexCount h - 1)); [discriminate|].
      destruct (is_empty line); intros [= <- _]; auto.
      now apply assign_Forall.
    + destruct (binary_properties h sle (vertexProperties h) Vertex_default
                  file) as [[c f1]|] eqn:Eb; [|discriminate].
      intros [= <- _]. apply assign_Forall; eauto.
Qed.

Lemma flags_within_more (props : list PlyProperty) (p : PlyProperty)
  (c : Vertex float) :
  flags_within props c -> flags_within (props ++ [p]) c.
Proof.
  unfold flags_within. rewrite !existsb_app. intros (Hn & Hc & Ht).
  repeat split; intros H; apply orb_true_iff; auto.
Qed.

Ltac names :=
  unfold names_normal, names_color, names_texCoord;
  repeat match goal with
         | E : (_ == _) = true |- _ => rewrite E
         | E : _ || _ = true |- _ =>
             apply orb_true_iff in E; destruct E
         end;
  rewrite ?orb_true_r; reflexivity.

(** Storing a value raises a flag only if the property is of its kind. *)
Lemma store_flags (props : list PlyProperty) (p : PlyProperty)
  (c : Vertex float) (fld : field) (f : float) :
  field_named (name p) = Some fld ->
  flags_within props c -> flags_within (props ++ [p]) (set fld f c).
Proof.
  intros Hf Hc. apply (flags_within_more props p) in Hc.
  destruct Hc as (Hn & Hc & Ht).
  assert (K : match fld with
              | normal_x | normal_y | normal_z =>
                  names_normal (name p) = true
              | color_r | color_g | color_b => names_color (name p) = true
              | texCoord_u | texCoord_v => names_texCoord (name p) = true
              | _ => True
              end).
  { revert Hf. unfold field_named.
    repeat match goal with
           | |- context [if ?b then _ else _] =>
               let E := fresh "E" in
               destruct b eqn:E; [intros [= <-]; try exact I; names|clear E]
           end.
    discriminate. }
  unfold flags_within. rewrite !existsb_app. cbn [existsb].
  rewrite !orb_false_r.
  unfold flags_within in *. rewrite !existsb_app in *. cbn [existsb] in *.
  rewrite !orb_false_r in *.
  destruct fld; cbn [set with_position with_normal with_color with_texCoord
                     has_normal has_color has_texCoord];
    repeat split; auto; intros _; rewrite K; apply orb_true_r.
Qed.

Lemma store_ascii_set (p : PlyProperty) (f : float) (uc : Z)
  (c : Vertex float) :
  store_ascii p f uc c
  = match field_named (name p) with
    | Some fld =>
        set fld (if is_color fld then color_component p f uc else f) c
    | None => c
    end.
Proof.
  unfold store_ascii, field_named.
  repeat match goal with
         | |- context [if ?b then _ else _] =>
             lazymatch b with
             | context [String.eqb] => destruct b; [reflexivity|]
             end
         end.
  reflexivity.
Qed.

Lemma ascii_property_flags (values : list string) (props : list PlyProperty)
  (p : PlyProperty) (c : Vertex float) :
  flags_within props c ->
  flags_within (props ++ [p]) (ascii_property values c p).
Proof.
  intros Hc. unfold ascii_property.
  destruct ((index_in_line p <? 0)
            || (Z.of_nat (List.length values) <=? index_in_line p));
    [now apply flags_within_more|].
  destruct (parse_value p _) as [[f uc]| |];
    try now apply flags_within_more.
  rewrite store_ascii_set.
  destruct (field_named (name p)) as [fld|] eqn:Ef;
    [now apply store_flags|now apply flags_within_more].
Qed.

Lemma ascii_properties_flags (values : list string)
  (props : list PlyProperty) :
  forall done c,
    flags_within done c ->
    flags_within (done ++ props) (ascii_properties values props c).
Proof.
  unfold ascii_properties.
  induction props as [|p props IH]; intros done c Hc; simpl.
  - now rewrite app_nil_r.
  - change (p :: props) with ([p] ++ props). rewrite app_assoc.
    apply IH. now apply ascii_property_flags.
Qed.

Lemma binary_property_set (h : Header) (sle : bool) (c c' : Vertex float)
  (file file' : list ascii) (p : PlyProperty) :
  binary_property h sle c file p = Ok (c', file') ->
  c' = c
  \/ exists fld f, field_named (name p) = Some fld /\ c' = set fld f c.
Proof.
  unfold binary_property, field_named, read_into. cbv zeta.
  repeat match goal with
         | |- context [if ?b then _ else _] =>
             lazymatch b with
             | context [String.eqb] =>
                 destruct b;
                 [match goal with
                  | |- context [match ?r with Some _ => _ | None => _ end] =>
                      destruct r as [[? ?]|]; [|discriminate]
                  end;
                  intros [= <- _];
                  first [left; reflexivity
                        |right; do 2 eexists; split; reflexivity]|]
             end
         end.
  destruct (0 <? type_size (type_str p))%nat; intros [= <- _]; auto.
Qed.

Lemma binary_properties_flags (h : Header) (sle : bool)
  (props : list PlyProperty) :
  forall done c file c' file',
    flags_within done c ->
    binary_properties h sle props c file = Ok (c', file') ->
    flags_within (done ++ props) c'.
Proof.
  induction props as [|p props IH]; intros done c file c' file' Hc; simpl.
  - intros [= <- _]. now rewrite app_nil_r.
  - destruct (binary_property h sle c file p) as [[c1 f1]|] eqn:E;
      [|discriminate].
    change (p :: props) with ([p] ++ props). rewrite app_assoc.
    apply IH.
    destruct (binary_property_set _ _ _ _ _ _ _ E)
      as [-> | (fld & f & Hf & ->)];
      [now apply flags_within_more|now apply store_flags].
Qed.

Lemma flags_within_default (props : list PlyProperty) :
  flags_within props Vertex_default.
Proof. repeat split; discriminate. Qed.

Lemma read_payload_vertices (h : Header) (file : list ascii)
  (mesh : Mesh float) :
  read_payload h file = Ok mesh ->
  0 <= vertexCount h /\ 0 <= faceCount h
  /\ exists file',
       read_vertices h isSystemLittleEndian (Z.to_nat (vertexCount h)) 0 file
         (repeat Vertex_default (Z.to_nat (vertexCount h)))
       = Ok (vertices mesh, file').
Proof.
  unfold read_payload, after_vertices, resize_vertices, reserve_triangles,
    allocate.
  destruct (Z.ltb_spec (vertexCount h) 0); [discriminate|]. cbn [orb].
  destruct (vertices_max_size <? vertexCount h); [discriminate|].
  destruct ((0 <? vertexCount h) && negb (vertices_memory (vertexCount h)));
    [discriminate|].
  destruct (read_vertices _ _ _ _ _ _) as [[vs f1]|]; [|discriminate].
  destruct (fold_left raise_flags vs _) as [[n c] t].
  destruct (Z.ltb_spec (faceCount h) 0); [discriminate|]. cbn [orb].
  destruct (triangles_max_size <? faceCount h); [discriminate|].
  destruct ((0 <? faceCount h) && negb (triangles_memory (faceCount h)));
    [discriminate|].
  destruct (read_faces _ _ _ _ _ _) as [[ts f2]|]; [|discriminate].
  intros [= <-]. simpl. eauto.
Qed.

(** X11: a successful decode gives exactly as many vertices as the header
    declares, and neither declared count is negative. *)
Theorem read_payload_vertex_count :
  forall h file mesh,
    read_payload h file = Ok mesh ->
    Z.of_nat (List.length (vertices mesh)) = vertexCount h
    /\ 0 <= faceCount h.
Proof.
  intros h file mesh E.
  destruct (read_payload_vertices _ _ _ E) as (Hv & Hf & f1 & Ev).
  apply read_vertices_frame in Ev as [L _]; [|lia].
  rewrite L, repeat_length. lia.
Qed.

(** X12: after a successful decode, ASCII or binary, a vertex has a normal,
    a colour or a texture coordinate only if the header declares a property
    of that kind; hence each flag of the mesh is true exactly when the
    header declares such a property, and the loop over the vertices never
    changes a flag. *)
Theorem readPLY_flags_are_declared :
  forall file mesh,
    readPLY file = Ok mesh ->
    exists h rest,
      read_header file = Ok (h, rest)
      /\ Forall (flags_within (vertexProperties h)) (vertices mesh)
      /\ has_normals mesh = declares names_normal h
      /\ has_colors mesh = declares names_color h
      /\ has_texCoords mesh = declares names_texCoord h.
Proof.
  intros file mesh. unfold readPLY.
  destruct (read_header file) as [[h rest]|] eqn:Eh; [|discriminate].
  intros Ep. exists h, rest. split; [reflexivity|].
  assert (F : Forall (flags_within (vertexProperties h)) (vertices mesh)).
  { destruct (read_payload_vertices _ _ _ Ep) as (_ & _ & f1 & Ev).
    revert Ev. apply read_vertices_Forall.
    - intros line.
      apply (ascii_properties_flags _ (vertexProperties h) []).
      apply flags_within_default.
    - intros f c f' Eb.
      apply (binary_properties_flags _ _ _ [] _ _ _ _
               (flags_within_default []) Eb).
    - apply Forall_forall. intros v Hv. apply repeat_spec in Hv. subst.
      apply flags_within_default. }
  split; [exact F|].
  destruct (read_header_declared _ _ _ Eh) as (Dn & Dc & Dt).
  destruct (read_payload_flags _ _ _ Ep) as (-> & -> & ->).
  rewrite Dn, Dc, Dt. unfold declares.
  assert (K : forall (flag : Vertex float -> bool) (d : bool),
             Forall (fun c => flag c = true -> d = true) (vertices mesh) ->
             d || existsb flag (vertices mesh) = d).
  { intros flag d Hd. destruct d; [reflexivity|]. simpl.
    destruct (existsb flag (vertices mesh)) eqn:E; [|reflexivity].
    apply existsb_exists in E as (c & Hc & Hfl).
    rewrite Forall_forall in Hd. exact (eq_sym (Hd c Hc Hfl)). }
  repeat split; apply K; eapply Forall_impl; try exact F;
    intros c (Hn & Hc & Ht); assumption.
Qed.

End VertexProperties.

(** X11 and X12 at the triangle scenario. *)
Lemma read_payload_vertex_count_witness :
  let file := xyz_ascii "3" "1" ["0 0 0"; "1 0 0"; "0 1 0"; "3 0 1 2"] in
  let h := @header_of Amd64.host file in
  let mesh :=
    @mesh_of Amd64.host
      (@read_payload Amd64.host h (@payload_of Amd64.host file)) in
  Z.of_nat (List.length (vertices mesh)) = 3 /\ 0 <= 1.
Proof.
  intros file h mesh.
  apply (@read_payload_vertex_count Amd64.host h
           (@payload_of Amd64.host file) mesh).
  vm_compute. reflexivity.
Defined.

Lemma readPLY_flags_are_declared_witness :
  let file := normals_declared_only in
  let mesh := @mesh_of Amd64.host (@readPLY Amd64.host file) in
  exists h rest,
    @read_header Amd64.host file = Ok (h, rest)
    /\ Forall (flags_within (vertexProperties h)) (vertices mesh)
    /\ has_normals mesh = declares names_normal h
    /\ has_colors mesh = declares names_color h
    /\ has_texCoords mesh = declares names_texCoord h.
Proof.
  intros file mesh.
  apply (@readPLY_flags_are_declared Amd64.host file mesh).
  vm_compute. reflexivity.
Defined.

(** ** Lines of ASCII data *)

Section AsciiLines.
Context {host : Host}.

Lemma split_words_spaces (line : list ascii) :
  forallb isspace line = true -> split_words [] line = [].
Proof.
  induction line as [|c line IH]; simpl; [reflexivity|].
  intros H. apply andb_true_iff in H as [Hc Hl]. rewrite Hc. auto.
Qed.

Lemma skipws_spaces (line : list ascii) :
  forallb isspace line = true -> skipws line = [].
Proof.
  induction line as [|c line IH]; simpl; [reflexivity|].
  intros H. apply andb_true_iff in H as [Hc Hl]. rewrite Hc. auto.
Qed.

Lemma ascii_properties_no_values (props : list PlyProperty)
  (c : Vertex float) :
  ascii_properties [] props c = c.
Proof.
  unfold ascii_properties. induction props as [|p props IH]; simpl;
    [reflexivity|].
  unfold ascii_property at 2. cbn [List.length Z.of_nat].
  destruct (Z.ltb_spec (index_in_line p) 0) as [H|H]; simpl; [exact IH|].
  destruct (Z.leb_spec 0 (index_in_line p)); [exact IH|lia].
Qed.

(** X13: a data line that holds only white space (such as the lone
    carriage return of an empty line that ends with CR LF) is never an
    error in ASCII mode, at any record: the vertex is the all-zero default
    without flags, and the face adds no triangle. *)
Theorem blank_line_is_not_an_error :
  forall h sle i file line file',
    isASCII h = true ->
    getline file = Some (line, file') ->
    line <> [] ->
    forallb isspace line = true ->
    (forall out,
        read_vertex h sle i file out
        = Ok (assign out (Z.to_nat i) Vertex_default, file'))
    /\ (forall out, read_face h sle i file out = Ok (out, file')).
Proof.
  intros h sle i file line file' Ha Hg Hl Hs. split; intros out.
  - unfold read_vertex. rewrite Ha, Hg.
    destruct line; [contradiction|]. cbn [is_empty andb].
    unfold ascii_vertex, words. rewrite split_words_spaces by exact Hs.
    now rewrite ascii_properties_no_values.
  - unfold read_face. rewrite Ha, Hg.
    destruct line as [|c line]; [contradiction|]. cbn [is_empty andb].
    unfold extract_int, extract_integer. cbn [istringstream_of failbit buf].
    rewrite skipws_spaces by exact Hs.
    unfold face_record. cbn [Z.ltb Z.compare Z.to_nat skip_indices].
    reflexivity.
Qed.

Lemma split_words_cr (line : list ascii) :
  forall cur,
    split_words cur (line ++ [carriage_return]) = split_words cur line.
Proof.
  induction line as [|c line IH]; intros cur.
  - destruct cur; reflexivity.
  - cbn [app split_words].
    destruct (isspace c); [destruct cur|]; now rewrite IH.
Qed.

Lemma skipws_cr (s : list ascii) :
  skipws (s ++ [carriage_return])
  = match skipws s with
    | [] => []
    | r => r ++ [carriage_return]
    end.
Proof.
  induction s as [|c s IH]; [reflexivity|].
  cbn [app skipws]. destruct (isspace c); [exact IH|reflexivity].
Qed.

Lemma take_digits_cr (s : list ascii) :
  forall acc,
    take_digits (s ++ [carriage_return]) acc
    = (fst (take_digits s acc), snd (take_digits s acc) ++ [carriage_return]).
Proof.
  induction s as [|c s IH]; intros acc; [reflexivity|].
  cbn [app take_digits]. destruct (digit_of c); [apply IH|reflexivity].
Qed.

Lemma scan_integer_cr (s : list ascii) :
  scan_integer (s ++ [carriage_return])
  = match scan_integer s with
    | NoDigits => NoDigits
    | Scanned n r => Scanned n (r ++ [carriage_return])
    end.
Proof.
  assert (K : forall (neg : bool) (s1 : list ascii),
             match s1 ++ [carriage_return] with
             | c :: _ =>
                 match digit_of c with
                 | Some _ =>
                     let (n, r) := take_digits (s1 ++ [carriage_return]) 0 in
                     Scanned (if neg then - n else n) r
                 | None => NoDigits
                 end
             | [] => NoDigits
             end
             = match
                 match s1 with
                 | c :: _ =>
                     match digit_of c with
                     | Some _ =>
                         let (n, r) := take_digits s1 0 in
                         Scanned (if neg then - n else n) r
                     | None => NoDigits
                     end
                 | [] => NoDigits
                 end
               with
               | NoDigits => NoDigits
               | Scanned n r => Scanned n (r ++ [carriage_return])
               end).
  { intros neg [|c s1]; [reflexivity|]. cbn [app].
    destruct (digit_of c) eqn:Ed; [|reflexivity].
    change (c :: s1 ++ [carriage_return])
      with ((c :: s1) ++ [carriage_return]).
    rewrite take_digits_cr. destruct (take_digits (c :: s1) 0). reflexivity. }
  unfold scan_integer. destruct s as [|c s]; [reflexivity|].
  cbn [app].
  destruct (Ascii.eqb c "-"%char); [exact (K true s)|].
  destruct (Ascii.eqb c "+"%char); [exact (K false s)|].
  exact (K false (c :: s)).
Qed.

(** Reading an integer from a line and from the line with a carriage
    return at its end gives the same value and corresponding streams. *)
Lemma extract_integer_cr (lo hi : Z) (a b : istringstream) (value : Z) :
  cr_added a b ->
  cr_added (fst (extract_integer lo hi a value))
    (fst (extract_integer lo hi b value))
  /\ snd (extract_integer lo hi b value) = snd (extract_integer lo hi a value).
Proof.
  intros [Hf Hb]. unfold extract_integer. rewrite Hf.
  destruct (failbit a) eqn:Ef.
  - simpl. split; [split; [|intros]|]; congruence.
  - rewrite (Hb eq_refl), skipws_cr.
    destruct (skipws (buf a)) as [|c s] eqn:Es.
    + simpl. split; [split; [|intros]|]; simpl in *; congruence.
    + cbn [app].
      change (c :: s ++ [carriage_return])
        with ((c :: s) ++ [carriage_return]).
      rewrite scan_integer_cr.
      destruct (scan_integer (c :: s)) as [|n r].
      * simpl. split; [split; [|intros]|]; simpl in *; congruence.
      * destruct (n <? lo); [|destruct (hi <? n)]; simpl;
          (split; [split; [|intros]|]); simpl in *; congruence.
Qed.

Lemma ascii_indices_cr (i : Z) (turns : nat) :
  forall j a b,
    cr_added a b -> ascii_indices i turns j b = ascii_indices i turns j a.
Proof.
  induction turns as [|turns IH]; intros j a b H; [reflexivity|].
  cbn [ascii_indices]. unfold extract_int.
  destruct (extract_integer_cr INT_MIN INT_MAX a b 0 H) as [Hc Hv].
  destruct (extract_integer INT_MIN INT_MAX a 0) as [a' n].
  destruct (extract_integer INT_MIN INT_MAX b 0) as [b' m].
  cbn [fst snd] in *. subst m. destruct Hc as [Hf Hb]. rewrite Hf.
  destruct (failbit a') eqn:E; [reflexivity|].
  rewrite (IH (j + 1) a' b'); [reflexivity|].
  split; [congruence|intros _; now apply Hb].
Qed.

(** X14: a carriage return at the end of a data line (a file with CR LF
    line ends) changes nothing in ASCII mode: the vertex decoded from a
    non-empty line and the outcome of a face line are the same with it
    and without it. *)
Theorem data_line_with_carriage_return :
  forall h sle i file file' line,
    getline file = Some (line, file') ->
    line <> [] ->
    forall file_cr,
      getline file_cr = Some (line ++ [carriage_return], file') ->
      isASCII h = true ->
      (forall out,
          read_vertex h sle i file_cr out = read_vertex h sle i file out)
      /\ (forall out,
             read_face h sle i file_cr out = read_face h sle i file out).
Proof.
  intros h sle i file file' line Hg Hl file_cr Hc Ha.
  destruct line as [|c line]; [contradiction|].
  split; intros out.
  - unfold read_vertex. rewrite Ha, Hg, Hc. cbn [app is_empty andb].
    unfold ascii_vertex, words.
    change (c :: line ++ [carriage_return])
      with ((c :: line) ++ [carriage_return]).
    now rewrite split_words_cr.
  - unfold read_face. rewrite Ha, Hg, Hc. cbn [app is_empty andb].
    change (c :: line ++ [carriage_return])
      with ((c :: line) ++ [carriage_return]).
    assert (R : cr_added (istringstream_of (c :: line))
                  (istringstream_of ((c :: line) ++ [carriage_return])))
      by (split; reflexivity).
    unfold extract_int.
    destruct (extract_integer_cr INT_MIN INT_MAX _ _ 0 R) as [Rc Rv].
    destruct (extract_integer INT_MIN INT_MAX
                (istringstream_of (c :: line)) 0) as [a n].
    destruct (extract_integer INT_MIN INT_MAX
                (istringstream_of ((c :: line) ++ [carriage_return])) 0)
      as [b m].
    cbn [fst snd] in *. subst m. unfold face_record. rewrite Ha.
    destruct (n <? 3); [reflexivity|].
    unfold extract_int.
    destruct (extract_integer_cr INT_MIN INT_MAX _ _ 0 R) as [Rc' Rv'].
    destruct (extract_integer INT_MIN INT_MAX
                (istringstream_of (c :: line)) 0) as [a1 n1].
    destruct (extract_integer INT_MIN INT_MAX
                (istringstream_of ((c :: line) ++ [carriage_return])) 0)
      as [b1 m1].
    cbn [fst snd] in *.
    now rewrite (ascii_indices_cr i _ 0 a1 b1 Rc').
Qed.

End AsciiLines.

(** X13 at a line that holds one carriage return, before the last
    vertex. *)
Lemma blank_line_is_not_an_error_witness :
  let h := @header_of Amd64.host (xyz_ascii "2" "0" []) in
  @read_vertex Amd64.host h true 0
    (carriage_return :: newline :: text ["0 0 0"])
    (repeat Vertex_default 2)
  = Ok (repeat Vertex_default 2, text ["0 0 0"]).
Proof.
  intros h.
  destruct (@blank_line_is_not_an_error Amd64.host h true 0
              (carriage_return :: newline :: text ["0 0 0"])
              [carriage_return] (text ["0 0 0"])
              ltac:(vm_compute; reflexivity) eq_refl
              ltac:(discriminate) eq_refl)
    as [H _].
  apply H.
Defined.

(** X14 at the face line [3 0 1 2]. *)
Lemma data_line_with_carriage_return_witness :
  @read_face Amd64.host ascii_face_header true 0
    (chars "3 0 1 2" ++ [carriage_return; newline]) []
  = @read_face Amd64.host ascii_face_header true 0 (text ["3 0 1 2"]) [].
Proof.
  destruct (@data_line_with_carriage_return Amd64.host ascii_face_header
              true 0 (text ["3 0 1 2"]) [] (chars "3 0 1 2")
              eq_refl ltac:(discriminate)
              (chars "3 0 1 2" ++ [carriage_return; newline])
              eq_refl eq_refl) as [_ H].
  apply H.
Defined.

(** ** Binary vertices and faces *)

Section BinaryRecords.
Context {host : Host}.

Lemma binary_property_bytes (h : Header) (sle : bool) (c : Vertex float)
  (file : list ascii) (p : PlyProperty) :
  match binary_property h sle c file p with
  | Ok (_, file') =>
      file' = skipn (binary_width p) file
      /\ (is_read p = true -> (binary_width p <= List.length file)%nat)
  | Err e =>
      e = read_failed /\ is_read p = true
      /\ (List.length file < binary_width p)%nat
  end.
Proof.
  assert (F : forall (store : float -> Vertex float -> Vertex float),
             match read_into (readBinary_float file (plyFileIsLittleEndian h)
                                sle) store c with
             | Ok (_, file') =>
                 file' = skipn 4 file /\ (4 <= List.length file)%nat
             | Err e => e = read_failed /\ (List.length file < 4)%nat
             end).
  { intros store. unfold read_into, readBinary_float.
    destruct (Nat.lt_ge_cases (List.length file) 4) as [H|H].
    - now rewrite (readBinary_None _ _ _ _ H).
    - destruct (readBinary_Some 4 file (plyFileIsLittleEndian h) sle H)
        as (o & -> & _). auto. }
  assert (U : forall (A : Type) (g : Z -> A)
                     (store : A -> Vertex float -> Vertex float),
             match
               read_into
                 (match readBinary_unsigned 1 file (plyFileIsLittleEndian h)
                          sle with
                  | Some (n, file') => Some (g n, file')
                  | None => None
                  end) store c
             with
             | Ok (_, file') =>
                 file' = skipn 1 file /\ (1 <= List.length file)%nat
             | Err e => e = read_failed /\ (List.length file < 1)%nat
             end).
  { intros A g store. unfold read_into, readBinary_unsigned.
    destruct (Nat.lt_ge_cases (List.length file) 1) as [H|H].
    - now rewrite (readBinary_None _ _ _ _ H).
    - destruct (readBinary_Some 1 file (plyFileIsLittleEndian h) sle H)
        as (o & -> & _). auto. }
  unfold binary_property, binary_width, is_read, field_named. cbv zeta.
  destruct (name p == "alpha") eqn:Ea.
  - apply String.eqb_eq in Ea. rewrite Ea.
    cbn [String.eqb Ascii.eqb Bool.eqb orb andb].
    pose proof (U Z (fun n => n) (fun _ c0 => c0)) as K.
    destruct (readBinary_unsigned 1 file (plyFileIsLittleEndian h) sle)
      as [[n f]|]; simpl in *; intuition.
  - repeat match goal with
           | |- context [if ?b then _ else _] =>
               lazymatch b with
               | context [String.eqb] =>
                   destruct b;
                   [cbn [is_color];
                    first
                      [ match goal with
                        | |- context [read_into (readBinary_float _ _ _) ?s _]
                          => pose proof (F s) as K
                        end
                      | match goal with
                        | |- context [read_into
                                        (readBinaryColorComponent _ _ _) ?s _]
                          => pose proof (U float uchar_over_255 s) as K;
                             fold (readBinaryColorComponent file
                                     (plyFileIsLittleEndian h) sle) in K
                        end ];
                    match goal with
                    | |- context [read_into ?r ?s c] =>
                        destruct (read_into r s c) as [[? ?]|]
                    end; intuition|]
               end
           end.
    destruct (0 <? type_size (type_str p))%nat eqn:E.
    + split; [reflexivity|discriminate].
    + apply Nat.ltb_ge in E.
      assert (type_size (type_str p) = 0%nat) as -> by lia.
      split; [reflexivity|discriminate].
Qed.

(** X15: the properties of a binary vertex are read when, and only when,
    the file still holds the bytes up to the end of the last property
    that is read rather than sought over; the file is then moved forward
    by the sizes of all the properties, and the only error is the failed
    read.  A file cut short inside a trailing property that is sought
    over is therefore not noticed at this vertex. *)
Theorem binary_vertex_bytes :
  forall (h : Header) (sle : bool) (props : list PlyProperty)
         (c : Vertex float) (file : list ascii),
    match binary_properties h sle props c file with
    | Ok (_, file') =>
        (bytes_needed props <= List.length file)%nat
        /\ file' = skipn (bytes_taken props) file
    | Err e =>
        e = read_failed /\ (List.length file < bytes_needed props)%nat
    end.
Proof.
  intros h sle props. induction props as [|p props IH]; intros c file.
  - simpl. split; [lia|reflexivity].
  - cbn [binary_properties bytes_needed bytes_taken].
    pose proof (binary_property_bytes h sle c file p) as Hp.
    destruct (binary_property h sle c file p) as [[c1 f1]|e].
    + destruct Hp as [-> Hr].
      specialize (IH c1 (skipn (binary_width p) file)).
      rewrite length_skipn in IH.
      destruct (binary_properties h sle props c1
                  (skipn (binary_width p) file)) as [[c2 f2]|e].
      * destruct IH as [Hn ->]. rewrite skipn_skipn.
        split; [|f_equal; lia].
        destruct (is_read p) eqn:Er; cbn [orb].
        -- specialize (Hr eq_refl). lia.
        -- destruct (Nat.ltb_spec 0 (bytes_needed props)); lia.
      * destruct IH as [-> Hn]. split; [reflexivity|].
        assert ((0 <? bytes_needed props)%nat = true) as ->
            by (apply Nat.ltb_lt; lia).
        rewrite orb_true_r.
        destruct (is_read p) eqn:Er; [specialize (Hr eq_refl)|]; lia.
    + destruct Hp as (-> & -> & Hl). cbn [orb]. split; [reflexivity|lia].
Qed.

Lemma decoded_face_length (fp : PlyProperty) (convert : Z -> Z)
  (indices : list Z) :
  index_conversion (list_item_type_str fp) = Some convert ->
  List.length (decoded_face fp indices) = (List.length indices - 2)%nat.
Proof.
  intros Hc. unfold decoded_face. rewrite Hc.
  destruct (Nat.ltb_spec (List.length indices) 3); [simpl; lia|].
  unfold fan_of. now rewrite length_map, length_seq, length_map.
Qed.

(** X16: reading the face records of a binary file adds, for every face
    of [n] indices, [n - 2] triangles when [n] is 3 or more and none
    otherwise; faces that are all triangles give one triangle each. *)
Theorem binary_faces_triangle_count :
  forall (h : Header) (convert : Z -> Z) (fs : list (list Z))
         (rest : list ascii) (out : list Triangle),
    isASCII h = false ->
    is_count_type (count_type_str (faceProperty h)) = true ->
    index_conversion (list_item_type_str (faceProperty h)) = Some convert ->
    Forall (count_fits (faceProperty h)) fs ->
    exists out',
      read_faces h isSystemLittleEndian (List.length fs) 0
        (encode_faces (plyFileIsLittleEndian h) (faceProperty h) fs ++ rest)
        out = Ok (out', rest)
      /\ List.length out'
         = (List.length out
            + list_sum (map (fun f => List.length f - 2) fs))%nat
      /\ (Forall (fun f => List.length f = 3%nat) fs ->
          List.length out' = (List.length out + List.length fs)%nat).
Proof.
  intros h convert fs rest out Hb Hc Hi Hf.
  rewrite (read_faces_encode h convert fs 0 rest out Hb Hc Hi Hf).
  eexists. split; [reflexivity|].
  assert (L : List.length (flat_map (decoded_face (faceProperty h)) fs)
              = list_sum (map (fun f => List.length f - 2)%nat fs)).
  { clear Hf. induction fs as [|f fs IH]; simpl; [reflexivity|].
    now rewrite length_app, (decoded_face_length _ convert), IH. }
  rewrite length_app, L. split; [reflexivity|].
  intros H3. f_equal. clear L Hf.
  induction H3 as [|f fs E _ IH]; simpl; [reflexivity|]. rewrite E, IH.
  reflexivity.
Qed.

(** X17: the triangles of a face share its first index as their first
    corner, each next triangle starts at the last corner of the one
    before, and the corners of the triangles are exactly the indices of
    the face. *)
Theorem fan_corners :
  forall (indices : list Z),
    (3 <= List.length indices)%nat ->
    let ts := push_triangles (Z.of_nat (List.length indices)) indices [] in
    Forall (fun t => v0 t = nth 0 indices 0) ts
    /\ (forall j,
           (S j < List.length ts)%nat ->
           v1 (nth (S j) ts {| v0 := 0; v1 := 0; v2 := 0 |})
           = v2 (nth j ts {| v0 := 0; v1 := 0; v2 := 0 |}))
    /\ (forall n, In n indices <-> exists t, In t ts /\ In n (corners t)).
Proof.
  intros indices Hn ts. subst ts.
  rewrite push_triangles_fan by exact Hn. cbn [app]. unfold fan_of.
  split; [|split].
  - apply Forall_forall. intros t Ht.
    apply in_map_iff in Ht as (j & <- & _). reflexivity.
  - intros j. rewrite length_map, length_seq. intros Hj.
    rewrite !nth_map_seq by lia. reflexivity.
  - intros n. split.
    + intros Hi. apply (In_nth _ _ 0) in Hi as (k & Hk & <-).
      destruct (Nat.le_gt_cases k 1) as [Hk1|Hk1].
      * exists {| v0 := nth 0 indices 0; v1 := nth 1 indices 0;
                  v2 := nth 2 indices 0 |}.
        split.
        -- apply in_map_iff. exists 1%nat. split; [reflexivity|].
           apply in_seq. lia.
        -- unfold corners. cbn [v0 v1 v2].
           destruct k as [|[|k]]; [now left|right; now left|lia].
      * exists {| v0 := nth 0 indices 0; v1 := nth (k - 1) indices 0;
                  v2 := nth (S (k - 1)) indices 0 |}.
        split.
        -- apply in_map_iff. exists (k - 1)%nat. split; [reflexivity|].
           apply in_seq. lia.
        -- unfold corners. cbn [v0 v1 v2]. right. right. left.
           f_equal. lia.
    + intros (t & Ht & Hc). apply in_map_iff in Ht as (j & <- & Hj).
      apply in_seq in Hj. unfold corners in Hc. cbn [v0 v1 v2] in Hc.
      destruct Hc as [<-|[<-|[<-|[]]]]; apply nth_In; lia.
Qed.

(** X18: a face count of type uint at or above [2 ^ 31] becomes a negative
    [int]: the record is taken for a face with fewer than three indices,
    no error is raised, no index is passed over, and reading goes on at
    the byte right after the count. *)
Theorem uint_count_wraps :
  forall (h : Header) (i n : Z) (rest : list ascii) (out : list Triangle),
    uint_count_header h ->
    2 ^ 31 <= n < 2 ^ 32 ->
    read_face h isSystemLittleEndian i
      (file_bytes (plyFileIsLittleEndian h) 4 n ++ rest) out
    = Ok (out, rest).
Proof.
  intros h i n rest out [Hb Ht] Hn. unfold read_face, binary_count.
  rewrite Hb.
  assert (E : readBinary_unsigned 4
                (file_bytes (plyFileIsLittleEndian h) 4 n ++ rest)
                (plyFileIsLittleEndian h) isSystemLittleEndian
              = Some (n, rest)).
  { rewrite readBinary_unsigned_file_bytes.
    change (2 ^ (8 * Z.of_nat 4)) with (2 ^ 32).
    rewrite Z.mod_small by lia. reflexivity. }
  assert (W : wrap_int n < 0).
  { unfold wrap_int. change (2 ^ 31) with 2147483648 in Hn.
    change (2 ^ 32) with 4294967296 in Hn.
    replace (n + 2147483648) with (n - 2147483648 + 1 * 4294967296) by lia.
    rewrite Z.mod_add by lia. rewrite Z.mod_small by lia. lia. }
  destruct Ht as [-> | ->];
    cbn [String.eqb Ascii.eqb Bool.eqb orb]; rewrite E;
    unfold face_record;
    (assert ((wrap_int n <? 3) = true) as -> by (apply Z.ltb_lt; lia));
    destruct (wrap_int n); try lia; reflexivity.
Qed.

End BinaryRecords.

(** X16 at a triangle and a quad: three triangles. *)
Lemma binary_faces_triangle_count_witness :
  exists out',
    @read_faces Amd64.host (binary_header 2 2) true 2 0
      (encode_faces true (faceProperty (binary_header 2 2)) sample_faces) []
    = Ok (out', [])
    /\ List.length out' = 3%nat.
Proof.
  destruct (@binary_faces_triangle_count Amd64.host (binary_header 2 2)
              (signed 4) sample_faces [] [] eq_refl eq_refl eq_refl)
    as (out' & H & L & _).
  - repeat constructor; vm_compute; congruence.
  - exists out'. split; [|exact L].
    rewrite app_nil_r in H. exact H.
Defined.

(** X17 at the face [5 6 7 8]. *)
Lemma fan_corners_witness :
  let ts := push_triangles 4 [5; 6; 7; 8] [] in
  Forall (fun t => v0 t = 5) ts
  /\ (forall n, In n [5; 6; 7; 8] <-> exists t, In t ts /\ In n (corners t)).
Proof.
  intros ts.
  destruct (fan_corners [5; 6; 7; 8] ltac:(simpl; lia)) as (H & _ & K).
  split; [exact H|exact K].
Defined.

(** X18 at the count [2 ^ 32 - 1], the bytes [ff ff ff ff]. *)
Lemma uint_count_wraps_witness :
  @read_face Amd64.host (uint_count_binary_header 0 2) true 0
    (repeat "255"%char 4 ++ file_bytes true 4 3) []
  = Ok ([], file_bytes true 4 3).
Proof.
  apply (@uint_count_wraps Amd64.host (uint_count_binary_header 0 2) 0
           (2 ^ 32 - 1) (file_bytes true 4 3) []).
  - split; [reflexivity|left; reflexivity].
  - lia.
Defined.

(** ** The OBJ text and the whole conversion *)

Section Conversion.
Context {host : Host}.

(** X19: [writeOBJ] writes one [v] line per vertex, in order, right after
    the comments, and a vertex gets its colour on that line by its own
    flag alone; the argument [has_colors] decides on the comment line
    about colours and on nothing else of the text. *)
Theorem writeOBJ_has_colors_comment_only :
  forall (vs : list (Vertex float)) (ts : list Triangle) (hn ht : bool),
    exists rest : string,
      forall hc : bool,
        writeOBJ vs ts hn hc ht
        = cat [obj_comments (List.length vs) (List.length ts) hn hc ht;
               cat (map v_line vs); endl; rest].
Proof.
  intros vs ts hn ht.
  exists (cat [if ht then cat [cat (map vt_line vs); endl] else "";
               if hn then cat [cat (map vn_line vs); endl] else "";
               cat (map (f_line hn ht) ts)]).
  intros hc. rewrite writeOBJ_layout.
  set (a := obj_comments _ _ _ _ _). set (b := cat (map v_line vs)).
  set (c := if ht then _ else _). set (d := if hn then _ else _).
  set (e := cat (map _ ts)).
  unfold cat. cbn [fold_right]. now rewrite !append_nil_r.
Qed.


End Conversion.

